(** * YatriGuard: rule-based fallback detectors and red-zone store

    A shallow embedding of the deterministic core of the backend:
    - [backend/utils/geo_utils.py]                       ([GeoUtils]),
    - [backend/fallback_systems/red_zone_fallback.py]    ([RedZone]),
    - [backend/fallback_systems/rule_based_fallback.py]  ([RuleBased]).

    Python floats are IEEE-754 binary64 values and are modelled by Rocq's
    primitive floats, which are the same numbers with the same rounding.
    The power [x ** 2] is computed by the C library and is a parameter
    ([RuleBased.Libm]); theorems hold for every library, and scenarios state
    the squares they take to be exact.
    Python exceptions are modelled by an explicit error monad; a
    [try: ... except Exception:] block is [try_except]. *)

From Stdlib Require Import ZArith List Bool Lia Floats Sorted.
From stdpp Require Import base option list strings gmap.

Import ListNotations.
#[local] Set Warnings "-inexact-float".
Local Open Scope Z_scope.

(** ** Python runtime: exceptions and float primitives *)

Module Py.

Inductive exn : Type :=
| IndexError
| KeyError
| ZeroDivisionError
| UnboundLocalError
| OverflowError
| ValueError.

(** The outcome of evaluating a Python expression or block. *)
Inductive result (A : Type) : Type :=
| Ok (a : A)
| Raise (e : exn).
Arguments Ok {A} a.
Arguments Raise {A} e.

Definition bind {A B} (m : result A) (k : A -> result B) : result B :=
  match m with
  | Ok a => k a
  | Raise e => Raise e
  end.

(** [try: body  except Exception as e: handler e] *)
Definition try_except {A} (body : result A) (handler : exn -> result A)
  : result A :=
  match body with
  | Ok a => Ok a
  | Raise e => handler e
  end.

Definition raises {A} (m : result A) : bool :=
  match m with Ok _ => false | Raise _ => true end.

(** [d[k]] on a dictionary entry that may be missing. *)
Definition getitem {A} (field : option A) : result A :=
  match field with
  | Some a => Ok a
  | None => Raise KeyError
  end.

(** [l[i]] for a non-negative index. *)
Definition index {A} (l : list A) (i : nat) : result A :=
  match nth_error l i with
  | Some a => Ok a
  | None => Raise IndexError
  end.

(** Float comparisons, as Python's [<], [>], [<=], [==], [!=]. *)
Definition lt (a b : float) : bool := PrimFloat.ltb a b.
Definition gt (a b : float) : bool := PrimFloat.ltb b a.
Definition le (a b : float) : bool := PrimFloat.leb a b.
Definition eq (a b : float) : bool := PrimFloat.eqb a b.
Definition ne (a b : float) : bool := negb (PrimFloat.eqb a b).

(** The builtins [min(a, b)] and [max(a, b)]: the first argument is kept
    unless the second is strictly smaller (resp. larger). *)
Definition min2 (a b : float) : float := if lt b a then b else a.
Definition max2 (a b : float) : float := if gt b a then b else a.

(** Float true division: a zero divisor raises. *)
Definition truediv (a b : float) : result float :=
  if eq b 0%float then Raise ZeroDivisionError else Ok (a / b)%float.

End Py.

Import Py.

#[global] Instance result_ret : MRet Py.result := @Py.Ok.
#[global] Instance result_bind : MBind Py.result :=
  fun A B k m => Py.bind m k.

(** ** More of the Python runtime: integers as floats, [min] and [max] of a
    list *)

Module PyNum.

(** [float(n)] for an integer below [2**63] in magnitude; the conversion
    is exact below [2**53]. *)
Definition float_of_Z (z : Z) : float :=
  if (z <? 0)%Z then (- PrimFloat.of_uint63 (Uint63.of_Z (- z)))%float
  else PrimFloat.of_uint63 (Uint63.of_Z z).

Definition float_of_nat (n : nat) : float := float_of_Z (Z.of_nat n).

(** [x == x]: false on NaN only. *)
Definition ordered (x : float) : bool := Py.eq x x.

(** The builtins [min(l)] and [max(l)] on a list with first element [x]:
    the first smallest (resp. largest) element is kept. *)
Definition list_min (x : float) (l : list float) : float :=
  fold_left Py.min2 l x.
Definition list_max (x : float) (l : list float) : float :=
  fold_left Py.max2 l x.

End PyNum.

(** ** Polygons *)

(** A polygon vertex is a dictionary read at the keys ['lat'] and ['lng'];
    a missing key is [None]. *)
Record vertex : Type := Vertex {
  v_lat : option float;
  v_lng : option float
}.

Definition polygon : Type := list vertex.

Definition mk_vertex (lat lng : float) : vertex := Vertex (Some lat) (Some lng).

(** The local variables of the ray-casting loop that survive an iteration. *)
Record ray_state : Type := RayState {
  rs_inside : bool;
  rs_p1x : float;
  rs_p1y : float;
  rs_xinters : option float   (* unbound until first assigned *)
}.

(** One iteration of the loop body of the ray-casting test, at index [i]. *)
Definition ray_step (x y : float) (poly : polygon) (n : nat)
    (st : ray_state) (i : nat) : result ray_state :=
  let p1x := rs_p1x st in
  let p1y := rs_p1y st in
  v ← Py.index poly (i mod n);
  p2x ← Py.getitem (v_lng v);
  p2y ← Py.getitem (v_lat v);
  st' ←
    (if Py.gt y (Py.min2 p1y p2y) then
       if Py.le y (Py.max2 p1y p2y) then
         if Py.le x (Py.max2 p1x p2x) then
           xi ← (if Py.ne p1y p2y then
                    q ← Py.truediv ((y - p1y) * (p2x - p1x))%float
                                    (p2y - p1y)%float;
                    Ok (Some (q + p1x)%float)
                  else Ok (rs_xinters st));
           flip ← (if Py.eq p1x p2x then Ok true
                    else match xi with
                         | Some xinters => Ok (Py.le x xinters)
                         | None => Raise UnboundLocalError
                         end);
           let inside := rs_inside st in
           Ok (RayState (if flip : bool then negb inside else inside)
                        p1x p1y xi)
         else Ok st
       else Ok st
     else Ok st);
  Ok (RayState (rs_inside st') p2x p2y (rs_xinters st')).

Fixpoint ray_loop (x y : float) (poly : polygon) (n : nat)
    (st : ray_state) (idxs : list nat) : result ray_state :=
  match idxs with
  | [] => Ok st
  | i :: rest =>
      st' ← ray_step x y poly n st i;
      ray_loop x y poly n st' rest
  end.

(** The body shared by [GeoUtils.point_in_polygon] (after its guard) and
    [RedZoneSystemFallback._point_in_polygon_ray_casting]. *)
Definition ray_casting (lat lng : float) (poly : polygon) : result bool :=
  let x := lng in
  let y := lat in
  let n := length poly in
  v0 ← Py.index poly 0;
  p1x ← Py.getitem (v_lng v0);
  p1y ← Py.getitem (v_lat v0);
  st ← ray_loop x y poly n (RayState false p1x p1y None) (seq 1 n);
  Ok (rs_inside st).

(** ** [backend/utils/geo_utils.py] *)

Module GeoUtils.

(** [GeoUtils.point_in_polygon] *)
Definition point_in_polygon (lat lon : float) (poly : polygon)
  : result bool :=
  try_except
    (if (length poly <? 3)%nat then Ok false
     else ray_casting lat lon poly)
    (fun _ => Ok false).

End GeoUtils.

(** ** [backend/fallback_systems/red_zone_fallback.py] *)

Module RedZone.

(** An element of [self.red_zones]. *)
Record zone : Type := Zone {
  z_id : Z;
  z_name : string;
  z_type : string;
  z_coordinates : polygon;
  z_risk_level : Z
}.

(** The argument of [add_zone]: a dictionary read with [.get]. *)
Record zone_data : Type := ZoneData {
  zd_name : option string;
  zd_type : option string;
  zd_coordinates : option polygon;
  zd_risk_level : option Z
}.

(** The dictionary returned by [get_zone_info]. *)
Record zone_info : Type := ZoneInfo {
  zi_zone_id : option Z;
  zi_zone_name : string;
  zi_zone_type : string;
  zi_risk_level : Z;
  zi_breach_detected : bool
}.

(** An element of the list returned by [get_nearby_zones]. *)
Record nearby_zone : Type := NearbyZone {
  nz_zone_id : Z;
  nz_zone_name : string;
  nz_zone_type : string;
  nz_risk_level : Z;
  nz_distance_km : float;
  nz_coordinates : polygon
}.

(** [self.red_zones] after [initialize]. *)
Definition initialize : list zone :=
  [ Zone 1 "Military Zone Alpha" "Military"
      [ mk_vertex 26.9124 75.7873; mk_vertex 26.9150 75.7900;
        mk_vertex 26.9100 75.7950; mk_vertex 26.9080 75.7920 ] 5;
    Zone 2 "Wildlife Sanctuary - Restricted Area" "Wildlife"
      [ mk_vertex 26.9200 75.8000; mk_vertex 26.9250 75.8050;
        mk_vertex 26.9200 75.8100; mk_vertex 26.9150 75.8050 ] 3;
    Zone 3 "Border Security Zone" "Border"
      [ mk_vertex 28.0000 70.5000; mk_vertex 28.0200 70.5200;
        mk_vertex 28.0100 70.5400; mk_vertex 27.9900 70.5200 ] 4;
    Zone 4 "Mining Area - Dangerous" "Industrial"
      [ mk_vertex 25.5000 74.5000; mk_vertex 25.5100 74.5100;
        mk_vertex 25.5050 74.5200; mk_vertex 25.4950 74.5100 ] 3 ].

(** [_point_in_polygon_ray_casting]: the ray-casting body, with no guard
    on the number of vertices and no exception handler. *)
Definition _point_in_polygon_ray_casting (lat lng : float) (poly : polygon)
  : result bool :=
  ray_casting lat lng poly.

(** The [for zone in self.red_zones] loop of [check_point_in_polygon],
    leaving at the first zone that contains the point. *)
Fixpoint check_point_loop (lat lng : float) (zones : list zone)
  : result bool :=
  match zones with
  | [] => Ok false
  | zone :: rest =>
      hit ← _point_in_polygon_ray_casting lat lng (z_coordinates zone);
      if hit : bool then Ok true else check_point_loop lat lng rest
  end.

(** [check_point_in_polygon] *)
Definition check_point_in_polygon (red_zones : list zone) (lat lng : float)
  : result bool :=
  try_except (check_point_loop lat lng red_zones) (fun _ => Ok false).

Definition breach_info (zone : zone) : zone_info :=
  ZoneInfo (Some (z_id zone)) (z_name zone) (z_type zone)
           (z_risk_level zone) true.

Definition safe_area : zone_info :=
  ZoneInfo None "Safe Area" "Safe" 0 false.

Fixpoint zone_info_loop (lat lng : float) (zones : list zone)
  : result (option zone_info) :=
  match zones with
  | [] => Ok (Some safe_area)
  | zone :: rest =>
      hit ← _point_in_polygon_ray_casting lat lng (z_coordinates zone);
      if hit : bool then Ok (Some (breach_info zone))
      else zone_info_loop lat lng rest
  end.

(** [get_zone_info]; the handler's [return None] is [Ok None]. *)
Definition get_zone_info (red_zones : list zone) (lat lng : float)
  : result (option zone_info) :=
  try_except (zone_info_loop lat lng red_zones) (fun _ => Ok None).

(** [sum(p[key] for p in polygon)], starting from [0]. *)
Fixpoint sum_field (field : vertex -> option float) (poly : polygon)
    (acc : float) : result float :=
  match poly with
  | [] => Ok acc
  | p :: rest =>
      c ← Py.getitem (field p);
      sum_field field rest (acc + c)%float
  end.

Definition float_of_len {A} (l : list A) : float :=
  PrimFloat.of_uint63 (Uint63.of_Z (Z.of_nat (length l))).

(** [_calculate_polygon_center], returned as [(lat, lng)]. *)
Definition _calculate_polygon_center (poly : polygon)
  : result (float * float) :=
  match poly with
  | [] => Ok (0%float, 0%float)
  | _ =>
      lat_sum ← sum_field v_lat poly 0%float;
      lng_sum ← sum_field v_lng poly 0%float;
      lat_c ← Py.truediv lat_sum (float_of_len poly);
      lng_c ← Py.truediv lng_sum (float_of_len poly);
      Ok (lat_c, lng_c)
  end.

(** [list.sort(key=lambda x: x['distance_km'])]: a stable sort that only
    compares keys with [<].  [x] stood before the elements of [l]: it goes
    in front of the first key that is not smaller than its own. *)
Fixpoint insert_by_distance (x : nearby_zone) (l : list nearby_zone)
  : list nearby_zone :=
  match l with
  | [] => [x]
  | y :: rest =>
      if Py.lt (nz_distance_km y) (nz_distance_km x)
      then y :: insert_by_distance x rest
      else x :: l
  end.

Definition sort_by_distance (l : list nearby_zone) : list nearby_zone :=
  foldr (fun x acc => insert_by_distance x acc) [] l.

Section Nearby.

(** [_calculate_distance] is the Haversine formula over [math.sin],
    [math.cos], [math.atan2] and [math.sqrt]; the last raises
    [ValueError] on a negative argument, which coordinates outside the
    valid range can produce.  It is a parameter that may raise. *)
Variable _calculate_distance : float -> float -> float -> float -> result float.

Fixpoint nearby_loop (lat lng radius_km : float) (zones : list zone)
    (nearby_zones : list nearby_zone) : result (list nearby_zone) :=
  match zones with
  | [] => Ok nearby_zones
  | zone :: rest =>
      zone_center ← _calculate_polygon_center (z_coordinates zone);
      distance ← _calculate_distance lat lng
                   (fst zone_center) (snd zone_center);
      nearby_loop lat lng radius_km rest
        (if Py.le distance radius_km
         then nearby_zones ++
              [NearbyZone (z_id zone) (z_name zone) (z_type zone)
                 (z_risk_level zone) distance (z_coordinates zone)]
         else nearby_zones)
  end.

(** The [try] block of [get_nearby_zones]. *)
Definition nearby_zones_sorted (red_zones : list zone)
    (lat lng radius_km : float) : result (list nearby_zone) :=
  nearby_zones ← nearby_loop lat lng radius_km red_zones [];
  Ok (sort_by_distance nearby_zones).

(** [get_nearby_zones] *)
Definition get_nearby_zones (red_zones : list zone)
    (lat lng radius_km : float) : result (list nearby_zone) :=
  try_except (nearby_zones_sorted red_zones lat lng radius_km)
             (fun _ => Ok []).

End Nearby.

(** [add_zone]: the new store and the returned flag.  The fields of
    [zone_data] are well typed, so nothing in the body can raise. *)
Definition add_zone (red_zones : list zone) (data : zone_data)
  : list zone * bool :=
  let new_zone :=
    Zone (Z.of_nat (length red_zones) + 1)
         (default "New Zone" (zd_name data))
         (default "Custom" (zd_type data))
         (default [] (zd_coordinates data))
         (default 3 (zd_risk_level data)) in
  if (length (z_coordinates new_zone) <? 3)%nat then (red_zones, false)
  else (red_zones ++ [new_zone], true).

(** [remove_zone]: the new store and the returned flag. *)
Definition remove_zone (red_zones : list zone) (zone_id : Z)
  : list zone * bool :=
  (filter (fun zone => z_id zone ≠ zone_id) red_zones, true).

(** [get_all_zones] *)
Definition get_all_zones (red_zones : list zone) : list zone := red_zones.

(** The dictionary built by [validate_location]. *)
Record validation : Type := Validation {
  vl_coordinates : float * float;
  vl_is_safe : bool;
  vl_risk_level : Z;
  vl_zone_info : option zone_info;
  vl_nearby_zones : list nearby_zone;
  vl_warnings : list string;
  vl_recommendations : list string
}.

(** What [validate_location] returns: the full report, or the shorter
    dictionary of its exception handler. *)
Inductive validation_result : Type :=
| Validated (report : validation)
| ValidationFailed (coordinates : float * float) (is_safe : bool)
    (risk_level : Z).

Section Validate.

Variable _calculate_distance : float -> float -> float -> float -> result float.

(** The rendering [f"{x:.1f}"] of a float. *)
Variable format_1f : float -> string.

(** The first [if] of [validate_location]: the report once the direct
    breach has been looked up. *)
Definition report_breach (lat lng : float) (info : option zone_info)
  : validation :=
  match info with
  | Some zi =>
      if zi_breach_detected zi then
        Validation (lat, lng) false (zi_risk_level zi) (Some zi) []
          ["You are in a restricted " +:+ zi_zone_type zi +:+ " zone"]
          ["Exit the area immediately and contact authorities"]
      else Validation (lat, lng) true 0 None [] [] []
  | None => Validation (lat, lng) true 0 None [] [] []
  end.

(** The second [if]: the nearby zones and the warning about the closest
    one. *)
Definition report_nearby (nearby_zones : list nearby_zone) (r : validation)
  : validation :=
  match nearby_zones with
  | [] => r
  | closest_zone :: _ =>
      let near := Py.lt (nz_distance_km closest_zone) 1.0%float in
      Validation (vl_coordinates r) (vl_is_safe r) (vl_risk_level r)
        (vl_zone_info r) nearby_zones
        (if near
         then vl_warnings r ++
              ["Warning: " +:+ nz_zone_name closest_zone +:+ " is " +:+
               format_1f (nz_distance_km closest_zone) +:+ "km away"]
         else vl_warnings r)
        (if near
         then vl_recommendations r ++
              ["Avoid moving towards the restricted area"]
         else vl_recommendations r)
  end.

(** [validate_location] *)
Definition validate_location (red_zones : list zone) (lat lng : float)
  : result validation_result :=
  try_except
    (zone_info ← get_zone_info red_zones lat lng;
     let r := report_breach lat lng zone_info in
     nearby_zones ← get_nearby_zones _calculate_distance red_zones
                      lat lng 2.0%float;
     Ok (Validated (report_nearby nearby_zones r)))
    (fun _ => Ok (ValidationFailed (lat, lng) true 0)).

End Validate.

End RedZone.

(** ** [backend/fallback_systems/rule_based_fallback.py] *)

Module RuleBased.

(** Timestamps are [datetime] values, counted in microseconds. *)
Definition timestamp : Type := Z.
Definition seconds (n : Z) : Z := n * 1000000.
Definition hours (n : Z) : Z := n * 3600 * 1000000.

(** An IMU sample, read at its three acceleration keys. *)
Record imu_sample : Type := ImuSample {
  acceleration_x : option float;
  acceleration_y : option float;
  acceleration_z : option float
}.

(** A location dictionary, read at the keys the detectors use. *)
Record location : Type := Location {
  latitude : option float;
  longitude : option float;
  speed : option float
}.

(** The [sensor_data] dictionary.  [None] stands for a key that is
    absent; a present ['location'] is a non-empty dictionary and a present
    ['imu_data'] is a list (an empty list is falsy, as in Python). *)
Record sensor_data : Type := SensorData {
  sd_imu_data : option (list imu_sample);
  sd_location : option location
}.

Record fall_thresholds : Type := FallThresholds {
  fall_freefall_g_min : float;
  fall_freefall_g_max : float;
  fall_impact_g_threshold : float;
  fall_freefall_duration_min : float;
  fall_stillness_threshold : float;
  fall_stillness_duration : float
}.

Record crash_thresholds : Type := CrashThresholds {
  crash_min_vehicle_speed : float;
  crash_deceleration_threshold : float;
  crash_impact_g_threshold : float;
  crash_speed_drop_percentage : float;
  crash_time_window : float
}.

Record distress_thresholds : Type := DistressThresholds {
  distress_stationary_duration : float;
  distress_erratic_movement_threshold : Z;
  distress_unusual_location_radius : float;
  distress_signal_loss_duration : float
}.

Record red_zone_thresholds : Type := RedZoneThresholds {
  red_zone_buffer_distance : float;
  red_zone_warning_distance : float
}.

(** [self.detection_thresholds]: empty until [initialize] has run. *)
Record threshold_table : Type := ThresholdTable {
  th_fall : option fall_thresholds;
  th_crash : option crash_thresholds;
  th_distress : option distress_thresholds;
  th_red_zone : option red_zone_thresholds
}.

Record history_item : Type := HistoryItem {
  h_timestamp : timestamp;
  h_sensor_data : sensor_data
}.

Record location_item : Type := LocationItem {
  l_timestamp : timestamp;
  l_location : location
}.

(** [self.user_data_buffer[user_id]] *)
Record user_buffer : Type := UserBuffer {
  data_history : list history_item;
  locations : list location_item;
  last_activity : timestamp
}.

(** The detector object. *)
Record system : Type := System {
  is_initialized : bool;
  detection_thresholds : threshold_table;
  user_data_buffer : gmap string user_buffer
}.

(** [__init__] *)
Definition init : system :=
  System false (ThresholdTable None None None None) ∅.

(** [initialize] *)
Definition initialize (self : system) : system :=
  System true
    (ThresholdTable
       (Some (FallThresholds 0.5 2.0 15.0 0.3 2.0 3.0))
       (Some (CrashThresholds 25.0 (-8.0) 20.0 0.8 3.0))
       (Some (DistressThresholds 4.0 5 2.0 2.0))
       (Some (RedZoneThresholds 0.1 0.5)))
    (user_data_buffer self).

Inductive alert_type : Type :=
| fall_detected
| crash_detected
| distress_detected.

Inductive priority : Type := low | medium | high | critical.

Inductive details : Type :=
| FallDetails (max_impact_g min_freefall_g : float) (pattern_detected : string)
| CrashDetails (max_g_force deceleration speed_before speed_after : float)
| DistressDetails (indicators : list string) (requires_verification : bool).

(** The alert dictionary a detector returns. *)
Record alert : Type := Alert {
  a_user_id : string;
  a_alert_type : alert_type;
  a_priority : priority;
  a_confidence : float;
  a_message : string;
  a_detection_method : string;
  a_timestamp : timestamp;
  a_details : details
}.

(** [x ** 2] on a float is the C library's [pow(x, 2.0)], which raises
    [OverflowError] when a finite [x] overflows.  The library does not fix
    the result to the last bit (it can differ from the correctly rounded
    product by one unit in the last place), so the operation is a
    parameter of the embedding. *)
Class Libm : Type := square : float -> result float.

Section Platform.

Context {libm : Libm}.

(** [math.sqrt]: a negative argument is a domain error. *)
Definition math_sqrt (x : float) : result float :=
  if Py.lt x 0%float then Raise ValueError else Ok (PrimFloat.sqrt x).

(** [math.sqrt(ax**2 + ay**2 + az**2)] for one sample. *)
Definition magnitude (sample : imu_sample) : result float :=
  ax ← Py.getitem (acceleration_x sample);
  ax2 ← square ax;
  ay ← Py.getitem (acceleration_y sample);
  ay2 ← square ay;
  az ← Py.getitem (acceleration_z sample);
  az2 ← square az;
  math_sqrt (ax2 + ay2 + az2)%float.

(** The loop that fills [magnitudes]. *)
Fixpoint magnitudes_of (imu_data : list imu_sample) : result (list float) :=
  match imu_data with
  | [] => Ok []
  | sample :: rest =>
      m ← magnitude sample;
      ms ← magnitudes_of rest;
      Ok (m :: ms)
  end.

(** [l[i:j]] for [0 <= i <= j]. *)
Definition slice {A} (l : list A) (i j : nat) : list A :=
  take (j - i) (drop i l).

(** [l[-n:]] *)
Definition last_n {A} (n : nat) (l : list A) : list A :=
  drop (length l - n) l.

(** The builtins [max] and [min] on a non-empty list. *)
Definition max_list (x : float) (l : list float) : float :=
  fold_left Py.max2 l x.
Definition min_list (x : float) (l : list float) : float :=
  fold_left Py.min2 l x.

(** The body of the scan loop at start offset [i]: [true] when the three
    phases match there (the loop then breaks). *)
Definition fall_pattern_at (th : fall_thresholds) (magnitudes : list float)
    (i : nat) : bool :=
  let freefall_window := slice magnitudes i (i + 3) in
  if forallb (fun g => Py.lt g (fall_freefall_g_max th)) freefall_window then
    let impact_window := slice magnitudes (i + 3) (i + 5) in
    if existsb (fun g => Py.gt g (fall_impact_g_threshold th)) impact_window then
      if (i + 10 <? length magnitudes)%nat then
        let stillness_window := slice magnitudes (i + 5) (i + 10) in
        forallb (fun g => Py.lt g (fall_stillness_threshold th)) stillness_window
      else false
    else false
  else false.

(** [for i in range(len(magnitudes) - 5): ... break], as the final value
    of [fall_detected]. *)
Fixpoint fall_scan (th : fall_thresholds) (magnitudes : list float)
    (offsets : list nat) : bool :=
  match offsets with
  | [] => false
  | i :: rest =>
      if fall_pattern_at th magnitudes i then true
      else fall_scan th magnitudes rest
  end.

(** [_detect_fall_rule_based]; [now] is the value of [datetime.utcnow()]. *)
Definition _detect_fall_rule_based (self : system) (now : timestamp)
    (user_id : string) (imu_data : list imu_sample) : result (option alert) :=
  try_except
    (if (length imu_data <? 10)%nat then Ok None
     else
       th ← Py.getitem (th_fall (detection_thresholds self));
       magnitudes ← magnitudes_of imu_data;
       let fall := fall_scan th magnitudes (seq 0 (length magnitudes - 5)) in
       let confidence := if fall then 0.75%float else 0.0%float in
       if fall then
         match magnitudes with
         | [] => Raise ValueError
         | m :: ms =>
             Ok (Some (Alert user_id fall_detected critical confidence
                         "Fall detected using rule-based system"
                         "rule_based" now
                         (FallDetails (max_list m ms) (min_list m ms)
                            "freefall_impact_stillness")))
         end
       else Ok None)
    (fun _ => Ok None).

(** [_get_recent_user_data] *)
Definition _get_recent_user_data (self : system) (now : timestamp)
    (user_id : string) (secs : Z) : list sensor_data :=
  match user_data_buffer self !! user_id with
  | None => []
  | Some buffer =>
      let cutoff_time := now - seconds secs in
      h_sensor_data <$>
        filter (fun item => h_timestamp item > cutoff_time)
               (data_history buffer)
  end.

(** [data.get('location', {}).get('speed', 0)] *)
Definition speed_of (data : sensor_data) : float :=
  match sd_location data with
  | None => 0%float
  | Some loc => default 0%float (speed loc)
  end.

(** [max(speeds) if speeds else 0] *)
Definition max_recent_speed (speeds : list float) : float :=
  match speeds with
  | [] => 0%float
  | s :: rest => max_list s rest
  end.

(** The loop over [imu_data[-10:]] that accumulates [max_g_force]. *)
Fixpoint max_g_loop (samples : list imu_sample) (max_g_force : float)
  : result float :=
  match samples with
  | [] => Ok max_g_force
  | sample :: rest =>
      g_force ← magnitude sample;
      max_g_loop rest (Py.max2 max_g_force g_force)
  end.

(** [_detect_crash_rule_based]; [now_recent] is the clock read by
    [_get_recent_user_data], [now_alert] the one stamped on the alert. *)
Definition _detect_crash_rule_based (self : system)
    (now_recent now_alert : timestamp)
    (user_id : string) (data : sensor_data) : result (option alert) :=
  try_except
    (th ← Py.getitem (th_crash (detection_thresholds self));
     let recent_data := _get_recent_user_data self now_recent user_id 30 in
     if (length recent_data <? 5)%nat then Ok None
     else
       let speeds := speed_of <$> last_n 5 recent_data in
       if Py.lt (max_recent_speed speeds) (crash_min_vehicle_speed th)
       then Ok None
       else if (2 <=? length speeds)%nat then
         speeds_last ← Py.index speeds (length speeds - 1);
         speeds_first ← Py.index speeds 0;
         let speed_change := (speeds_last - speeds_first)%float in
         let time_diff := 5.0%float in
         let deceleration := (speed_change / time_diff * 3.6)%float in
         if Py.lt deceleration (crash_deceleration_threshold th) then
           let imu_data := default [] (sd_imu_data data) in
           max_g_force ← max_g_loop (last_n 10 imu_data) 0%float;
           if Py.gt max_g_force (crash_impact_g_threshold th) then
             Ok (Some (Alert user_id crash_detected critical 0.8%float
                         "Vehicle crash detected using rule-based system"
                         "rule_based" now_alert
                         (CrashDetails max_g_force deceleration
                            speeds_first speeds_last)))
           else Ok None
         else Ok None
       else Ok None)
    (fun _ => Ok None).

(** The clock values read by one call of [_update_user_buffer], in the
    order of its [datetime.utcnow()] calls. *)
Record update_clock : Type := UpdateClock {
  uc_created : timestamp;    (* [last_activity] of a fresh buffer *)
  uc_appended : timestamp;   (* stamp of the appended history entry *)
  uc_cutoff : timestamp;     (* the instant the 24 hours are counted from *)
  uc_located : timestamp;    (* stamp of the appended location entry *)
  uc_finished : timestamp    (* final [last_activity] *)
}.

(** [_update_user_buffer] *)
Definition _update_user_buffer (clk : update_clock) (self : system)
    (user_id : string) (data : sensor_data) : system :=
  let buffer :=
    match user_data_buffer self !! user_id with
    | Some b => b
    | None => UserBuffer [] [] (uc_created clk)
    end in
  let appended :=
    data_history buffer ++ [HistoryItem (uc_appended clk) data] in
  let cutoff_time := uc_cutoff clk - hours 24 in
  let kept :=
    filter (fun item => h_timestamp item > cutoff_time) appended in
  let locs :=
    match sd_location data with
    | Some loc =>
        last_n 100 (locations buffer ++ [LocationItem (uc_located clk) loc])
    | None => locations buffer
    end in
  System (is_initialized self) (detection_thresholds self)
         (<[user_id := UserBuffer kept locs (uc_finished clk)]>
            (user_data_buffer self)).

Section Detectors.

(** The four indicator checks.  Each reads the user's buffer through
    Haversine distances, bearings ([math.sin], [math.cos], [math.atan2])
    and [timedelta] arithmetic, catches its own exceptions and returns a
    boolean; the trigger rule below is stated for arbitrary such
    checks. *)
Variable _check_prolonged_inactivity : system -> string -> float -> bool.
Variable _check_erratic_movement : system -> string -> bool.
Variable _check_unusual_location : system -> string -> location -> bool.
Variable _check_signal_loss_pattern : system -> string -> bool.

(** The local variables [distress_indicators] and [confidence]. *)
Definition distress_acc : Type := (list string * float)%type.

Definition add_indicator (hit : bool) (name : string) (increment : float)
    (acc : distress_acc) : distress_acc :=
  if hit then (acc.1 ++ [name], (acc.2 + increment)%float) else acc.

(** The four [if] statements of [_detect_distress_rule_based], in
    order. *)
Definition distress_indicators (self : system) (th : distress_thresholds)
    (user_id : string) (data : sensor_data) : distress_acc :=
  let acc0 : distress_acc := ([], 0.0%float) in
  let acc1 :=
    add_indicator
      (_check_prolonged_inactivity self user_id
         (distress_stationary_duration th))
      "prolonged_inactivity" 0.3%float acc0 in
  let acc2 :=
    add_indicator (_check_erratic_movement self user_id)
      "erratic_movement" 0.2%float acc1 in
  let acc3 :=
    match sd_location data with
    | Some loc =>
        add_indicator (_check_unusual_location self user_id loc)
          "unusual_location" 0.3%float acc2
    | None => acc2
    end in
  add_indicator (_check_signal_loss_pattern self user_id)
    "signal_loss_pattern" 0.2%float acc3.

(** [_detect_distress_rule_based] *)
Definition _detect_distress_rule_based (self : system) (now : timestamp)
    (user_id : string) (data : sensor_data) : result (option alert) :=
  try_except
    (th ← Py.getitem (th_distress (detection_thresholds self));
     let acc := distress_indicators self th user_id data in
     let indicators := acc.1 in
     let confidence := acc.2 in
     if (2 <=? length indicators)%nat || Py.gt confidence 0.5%float then
       Ok (Some (Alert user_id distress_detected medium
                   (Py.min2 confidence 0.9%float)
                   ("Distress indicators detected: " +:+
                      String.concat ", " indicators)
                   "rule_based" now
                   (DistressDetails indicators true)))
     else Ok None)
    (fun _ => Ok None).

(** The clock values read during one call of [process_data]. *)
Record process_clock : Type := ProcessClock {
  pc_update : update_clock;
  pc_fall : timestamp;
  pc_crash_recent : timestamp;
  pc_crash_alert : timestamp;
  pc_distress : timestamp
}.

(** Truthiness of [sensor_data.get('imu_data')]. *)
Definition imu_present (data : sensor_data) : option (list imu_sample) :=
  match sd_imu_data data with
  | Some (s :: l) => Some (s :: l)
  | _ => None
  end.

Definition append_alert (a : option alert) (alerts : list alert)
  : list alert :=
  match a with
  | Some x => alerts ++ [x]
  | None => alerts
  end.

(** [process_data]: the detector after the call and the returned
    alerts. *)
Definition process_data (clk : process_clock) (self : system)
    (user_id : string) (data : sensor_data)
  : system * result (list alert) :=
  let self1 := if is_initialized self then self else initialize self in
  let self2 := _update_user_buffer (pc_update clk) self1 user_id data in
  (self2,
   try_except
     (alerts1 ←
        match imu_present data with
        | Some imu =>
            fall_alert ← _detect_fall_rule_based self2 (pc_fall clk)
                           user_id imu;
            Ok (append_alert fall_alert [])
        | None => Ok []
        end;
      alerts2 ←
        match imu_present data, sd_location data with
        | Some _, Some _ =>
            crash_alert ← _detect_crash_rule_based self2
                            (pc_crash_recent clk) (pc_crash_alert clk)
                            user_id data;
            Ok (append_alert crash_alert alerts1)
        | _, _ => Ok alerts1
        end;
      distress_alert ← _detect_distress_rule_based self2
                         (pc_distress clk) user_id data;
      Ok (append_alert distress_alert alerts2))
     (fun _ => Ok [])).

End Detectors.

(** [is_ready] *)
Definition is_ready (self : system) : bool := is_initialized self.

(** [_get_user_history]: the user's ['data_history'] and ['locations']. *)
Definition _get_user_history (self : system) (user_id : string)
  : list history_item * list location_item :=
  match user_data_buffer self !! user_id with
  | None => ([], [])
  | Some buffer => (data_history buffer, locations buffer)
  end.

(** [(t2 - t1).total_seconds()] for a difference of [d] microseconds: the
    quotient of two integers, exact up to one rounding below [2**53]
    microseconds. *)
Definition total_seconds (d : Z) : float :=
  (PyNum.float_of_Z d / 1000000)%float.

(** The value a check returns when its [try] block raised. *)
Definition or_false (body : result bool) : bool :=
  match body with
  | Ok b => b
  | Raise _ => false
  end.

Section Checks.

(** [_calculate_distance] and [_calculate_bearing] are built on [math.sin],
    [math.cos], [math.atan2] and [math.sqrt], which raise outside their
    domain; [_calculate_bearing] also reads the coordinates of its two
    arguments.  Both are parameters that may raise. *)
Variable _calculate_distance : float -> float -> float -> float -> result float.
Variable _calculate_bearing : location -> location -> result float.

(** [_check_prolonged_inactivity] *)
Definition _check_prolonged_inactivity (self : system) (user_id : string)
    (threshold_hours : float) : bool :=
  or_false
    (let history := _get_user_history self user_id in
     match history.2 with
     | [] => Ok false
     | _ =>
         let recent_locations := last_n 20 history.2 in
         if (length recent_locations <? 2)%nat then Ok false
         else
           first_item ← Py.index recent_locations 0;
           last_item ← Py.index recent_locations
                         (length recent_locations - 1);
           let first_location := l_location first_item in
           let last_location := l_location last_item in
           lat1 ← Py.getitem (latitude first_location);
           lng1 ← Py.getitem (longitude first_location);
           lat2 ← Py.getitem (latitude last_location);
           lng2 ← Py.getitem (longitude last_location);
           distance ← _calculate_distance lat1 lng1 lat2 lng2;
           let time_diff :=
             (total_seconds (l_timestamp last_item - l_timestamp first_item)
              / 3600)%float in
           Ok (Py.lt distance 0.1%float && Py.gt time_diff threshold_hours)
     end).

(** The loop of [_check_erratic_movement] over [range(2, len(locations))],
    returning [direction_changes]. *)
Fixpoint direction_changes_loop (locs : list location_item)
    (idxs : list nat) (direction_changes : nat) : result nat :=
  match idxs with
  | [] => Ok direction_changes
  | i :: rest =>
      a ← Py.index locs (i - 2);
      b ← Py.index locs (i - 1);
      bearing1 ← _calculate_bearing (l_location a) (l_location b);
      b' ← Py.index locs (i - 1);
      c ← Py.index locs i;
      bearing2 ← _calculate_bearing (l_location b') (l_location c);
      let bearing_diff := abs (bearing2 - bearing1)%float in
      let bearing_diff :=
        if Py.gt bearing_diff 180%float then (360 - bearing_diff)%float
        else bearing_diff in
      direction_changes_loop locs rest
        (if Py.gt bearing_diff 45%float then S direction_changes
         else direction_changes)
  end.

(** [_check_erratic_movement] *)
Definition _check_erratic_movement (self : system) (user_id : string)
  : bool :=
  or_false
    (let history := _get_user_history self user_id in
     let locs := last_n 10 history.2 in
     if (length locs <? 5)%nat then Ok false
     else
       direction_changes ←
         direction_changes_loop locs (seq 2 (length locs - 2)) 0;
       Ok (Py.gt (PyNum.float_of_nat direction_changes)
                 (PyNum.float_of_nat (length locs) * 0.6)%float)).

(** [sum(loc[key] for loc in locations)] *)
Fixpoint sum_coordinate (field : location -> option float)
    (locs : list location) (acc : float) : result float :=
  match locs with
  | [] => Ok acc
  | loc :: rest =>
      c ← Py.getitem (field loc);
      sum_coordinate field rest (acc + c)%float
  end.

(** [_check_unusual_location] *)
Definition _check_unusual_location (self : system) (user_id : string)
    (current_location : location) : bool :=
  or_false
    (let history := _get_user_history self user_id in
     let locs := l_location <$> history.2 in
     if (length locs <? 10)%nat then Ok false
     else
       lat_sum ← sum_coordinate latitude locs 0%float;
       avg_lat ← Py.truediv lat_sum (PyNum.float_of_nat (length locs));
       lng_sum ← sum_coordinate longitude locs 0%float;
       avg_lng ← Py.truediv lng_sum (PyNum.float_of_nat (length locs));
       lat ← Py.getitem (latitude current_location);
       lng ← Py.getitem (longitude current_location);
       distance ← _calculate_distance lat lng avg_lat avg_lng;
       Ok (Py.gt distance 10.0%float)).

(** The loop of [_check_signal_loss_pattern] over consecutive entries,
    [previous] being [recent_data[i-1]]. *)
Fixpoint gap_loop (previous : history_item) (rest : list history_item)
  : bool :=
  match rest with
  | [] => false
  | item :: rest' =>
      let time_gap :=
        total_seconds (h_timestamp item - h_timestamp previous) in
      if Py.gt time_gap 1800%float then true else gap_loop item rest'
  end.

(** [_check_signal_loss_pattern] *)
Definition _check_signal_loss_pattern (self : system) (user_id : string)
  : bool :=
  or_false
    (let history := _get_user_history self user_id in
     if (length history.1 <? 5)%nat then Ok false
     else
       match last_n 10 history.1 with
       | [] => Ok false
       | first_item :: rest => Ok (gap_loop first_item rest)
       end).

(** The distress detector and [process_data] over these checks. *)
Definition detect_distress :=
  _detect_distress_rule_based _check_prolonged_inactivity
    _check_erratic_movement _check_unusual_location
    _check_signal_loss_pattern.

Definition process :=
  process_data _check_prolonged_inactivity _check_erratic_movement
    _check_unusual_location _check_signal_loss_pattern.

End Checks.

End Platform.

End RuleBased.

(** ** [backend/utils/geo_utils.py], continued *)

Module GeoUtilsMore.

(** The dictionary returned by [get_bounding_box]. *)
Record bounding_box : Type := BoundingBox {
  min_lat : float;
  max_lat : float;
  min_lng : float;
  max_lng : float
}.

(** [[p[key] for p in points]] *)
Fixpoint coordinates_of (field : vertex -> option float) (points : polygon)
  : result (list float) :=
  match points with
  | [] => Ok []
  | p :: rest =>
      c ← Py.getitem (field p);
      cs ← coordinates_of field rest;
      Ok (c :: cs)
  end.

(** [get_bounding_box] *)
Definition get_bounding_box (points : polygon) : result bounding_box :=
  try_except
    (match points with
     | [] => Ok (BoundingBox 0 0 0 0)
     | _ =>
         lats ← coordinates_of v_lat points;
         lngs ← coordinates_of v_lng points;
         match lats, lngs with
         | lat :: lats', lng :: lngs' =>
             Ok (BoundingBox (PyNum.list_min lat lats')
                             (PyNum.list_max lat lats')
                             (PyNum.list_min lng lngs')
                             (PyNum.list_max lng lngs'))
         | _, _ => Raise ValueError
         end
     end)
    (fun _ => Ok (BoundingBox 0 0 0 0)).

(** [get_polygon_center], returned as [(lat, lng)]: the computation of the
    zone store inside a handler. *)
Definition get_polygon_center (poly : polygon) : result (float * float) :=
  try_except (RedZone._calculate_polygon_center poly)
             (fun _ => Ok (0%float, 0%float)).

(** [validate_coordinates] *)
Definition validate_coordinates (lat lng : float) : bool :=
  (Py.le (-90) lat && Py.le lat 90) && (Py.le (-180) lng && Py.le lng 180).

(** [get_rajasthan_bounds] *)
Definition get_rajasthan_bounds : bounding_box :=
  BoundingBox 23.03 30.12 69.30 78.17.

(** [is_in_rajasthan] *)
Definition is_in_rajasthan (lat lng : float) : bool :=
  let bounds := get_rajasthan_bounds in
  (Py.le (min_lat bounds) lat && Py.le lat (max_lat bounds)) &&
  (Py.le (min_lng bounds) lng && Py.le lng (max_lng bounds)).

(** An entry of the list of major cities. *)
Record city : Type := City {
  city_name : string;
  city_lat : float;
  city_lng : float
}.

Definition major_cities : list city :=
  [ City "Jaipur" 26.9124 75.7873;
    City "Jodhpur" 26.2389 73.0243;
    City "Udaipur" 24.5854 73.7125;
    City "Kota" 25.2138 75.8648;
    City "Ajmer" 26.4499 74.6399;
    City "Bikaner" 28.0229 73.3119;
    City "Pushkar" 26.4900 74.5500;
    City "Mount Abu" 24.5925 72.7156 ]%float.

(** The answer of [get_nearest_major_city]: a copy of a city with its
    ['distance_km'], or the dictionary
    [{'name': 'Unknown', 'distance_km': 0}]. *)
Inductive nearest_city : Type :=
| CityWithDistance (c : city) (distance_km : float)
| UnknownCity.

Section Distance.

(** [calculate_distance] is the Haversine formula inside a handler that
    returns [0.0]: a parameter that does not raise. *)
Variable calculate_distance : float -> float -> float -> float -> float.

(** [is_within_radius] *)
Definition is_within_radius (center_lat center_lng point_lat point_lng
    radius_km : float) : bool :=
  Py.le (calculate_distance center_lat center_lng point_lat point_lng)
        radius_km.

(** The loop of [get_nearest_major_city] over the state
    [(nearest_city, min_distance)]. *)
Fixpoint nearest_loop (lat lng : float) (cities : list city)
    (nearest : option (city * float)) (min_distance : float)
  : option (city * float) :=
  match cities with
  | [] => nearest
  | c :: rest =>
      let distance := calculate_distance lat lng (city_lat c) (city_lng c) in
      if Py.lt distance min_distance
      then nearest_loop lat lng rest (Some (c, distance)) distance
      else nearest_loop lat lng rest nearest min_distance
  end.

(** [get_nearest_major_city] *)
Definition get_nearest_major_city (lat lng : float) : nearest_city :=
  match nearest_loop lat lng major_cities None infinity with
  | Some (c, distance) => CityWithDistance c distance
  | None => UnknownCity
  end.

(** The zones are dictionaries of the caller; [get_nearby_zones] only reads
    their ['coordinates'] key, which may be missing. *)
Context {zone_dict : Type}.
Variable coordinates : zone_dict -> option polygon.

(** [zone.copy()] with the key ['distance_km'] set. *)
Definition zone_with_distance : Type := zone_dict * float.
Definition distance_km (z : zone_with_distance) : float := z.2.

(** [nearby_zones.sort(key=lambda x: x['distance_km'])]: a stable sort that
    only compares keys with [<].  [x] stood before the elements of [l]: it
    goes in front of the first key that is not smaller than its own. *)
Fixpoint insert_by_distance (x : zone_with_distance)
    (l : list zone_with_distance) : list zone_with_distance :=
  match l with
  | [] => [x]
  | y :: rest =>
      if Py.lt (distance_km y) (distance_km x)
      then y :: insert_by_distance x rest
      else x :: l
  end.

Definition sort_by_distance (l : list zone_with_distance)
  : list zone_with_distance :=
  foldr (fun x acc => insert_by_distance x acc) [] l.

(** The loop of [get_nearby_zones]; a zone whose centre is [(0, 0)] is
    skipped. *)
Fixpoint nearby_loop (lat lng max_distance_km : float)
    (zones : list zone_dict) (nearby_zones : list zone_with_distance)
  : result (list zone_with_distance) :=
  match zones with
  | [] => Ok nearby_zones
  | zone :: rest =>
      zone_center ← get_polygon_center (default [] (coordinates zone));
      if Py.eq zone_center.1 0 && Py.eq zone_center.2 0
      then nearby_loop lat lng max_distance_km rest nearby_zones
      else
        let distance :=
          calculate_distance lat lng zone_center.1 zone_center.2 in
        nearby_loop lat lng max_distance_km rest
          (if Py.le distance max_distance_km
           then nearby_zones ++ [(zone, distance)]
           else nearby_zones)
  end.

(** [get_nearby_zones] *)
Definition get_nearby_zones (lat lng : float) (zones : list zone_dict)
    (max_distance_km : float) : result (list zone_with_distance) :=
  try_except
    (nearby_zones ← nearby_loop lat lng max_distance_km zones [];
     Ok (sort_by_distance nearby_zones))
    (fun _ => Ok []).

End Distance.

End GeoUtilsMore.

(** * Specification vocabulary and scenarios *)

(** ** Fall detector inputs *)

(** A sample of magnitude [g], along the vertical axis. *)
Definition sample_of_magnitude (g : float) : RuleBased.imu_sample :=
  RuleBased.ImuSample (Some 0%float) (Some 0%float) (Some g).

(** Ten samples shaped as freefall, impact, stillness. *)
Definition ten_sample_fall : list RuleBased.imu_sample :=
  sample_of_magnitude <$> [1; 1; 1; 25; 1; 1; 1; 1; 1; 1]%float.

(** The synthetic fall of the demo client: 10 samples of magnitude 1, 5 of
    magnitude 25, 15 of magnitude 10. *)
Definition demo_fall_imu : list RuleBased.imu_sample :=
  repeat (sample_of_magnitude 1) 10 ++ repeat (sample_of_magnitude 25) 5 ++
  repeat (sample_of_magnitude 10) 15.

(** The three-phase pattern at start offset [i] of a magnitude series, by
    positions: three samples below [freefall_g_max], a sample above
    [impact_g_threshold] among the next two, and, at least ten samples
    further on still inside the series, the five samples after the impact
    window below [stillness_threshold]. *)
Definition three_phase_match (th : RuleBased.fall_thresholds)
    (magnitudes : list float) (i : nat) : Prop :=
  (forall k g, (i <= k < i + 3)%nat -> magnitudes !! k = Some g ->
               Py.lt g (RuleBased.fall_freefall_g_max th) = true) /\
  (exists k g, (i + 3 <= k < i + 5)%nat /\ magnitudes !! k = Some g /\
               Py.gt g (RuleBased.fall_impact_g_threshold th) = true) /\
  (i + 10 < length magnitudes)%nat /\
  (forall k g, (i + 5 <= k < i + 10)%nat -> magnitudes !! k = Some g ->
               Py.lt g (RuleBased.fall_stillness_threshold th) = true).

(** ** The library's squares *)

(** A library whose [x ** 2] is the correctly rounded product. *)
Definition rounded_product : RuleBased.Libm :=
  fun x =>
    let r := (x * x)%float in
    if PrimFloat.is_infinity r && negb (PrimFloat.is_infinity x)
    then Raise OverflowError else Ok r.

(** On each of the values [xs] the library returns the product.  The
    scenarios use it for small integers, whose squares are exact. *)
Definition exact_squares {libm : RuleBased.Libm} (xs : list float) : Prop :=
  Forall (fun x => RuleBased.square x = Ok (x * x)%float) xs.

(** ** Crash detector inputs *)

(** The speeds the vehicle-context gate looks at: those of the last five
    buffered samples of the last 30 seconds. *)
Definition recent_speeds (self : RuleBased.system)
    (now : RuleBased.timestamp) (user_id : string) : list float :=
  RuleBased.speed_of <$>
    RuleBased.last_n 5 (RuleBased._get_recent_user_data self now user_id 30).

(** A call of [_update_user_buffer] during which the clock reads [t]
    throughout. *)
Definition clock_at (t : RuleBased.timestamp) : RuleBased.update_clock :=
  RuleBased.UpdateClock t t t t t.

Definition tourist_location (v : float) : RuleBased.location :=
  RuleBased.Location (Some 26.9%float) (Some 75.78%float) (Some v).

(** A batch that only carries a location, with speed [v]. *)
Definition located_batch (v : float) : RuleBased.sensor_data :=
  RuleBased.SensorData None (Some (tourist_location v)).

(** A buffered drive: four samples at speed [v] and a last one at rest, all
    received at time 0, for one user. *)
Definition drive_then_stop (v : float) : RuleBased.system :=
  foldl (fun self s =>
           RuleBased._update_user_buffer (clock_at 0) self "tourist"
             (located_batch s))
        (RuleBased.initialize RuleBased.init) [v; v; v; v; 0%float].

(** An incoming batch whose IMU part holds a 30 G spike. *)
Definition spike_batch : RuleBased.sensor_data :=
  RuleBased.SensorData
    (Some (sample_of_magnitude <$> [9.8; 30; 9.8]%float))
    (Some (tourist_location 0)).

(** ** Distress trigger rule *)

(** The rule in the words of the specification: each indicator that holds
    adds its increment, and the alert fires on two or more indicators or on
    a sum above 0.5; the reported confidence is the sum capped at 0.9. *)
Module DistressSpec.

Record indicators : Type := Indicators {
  prolonged_inactivity : bool;
  erratic_movement : bool;
  unusual_location : bool;
  signal_loss_pattern : bool
}.

Definition count (i : indicators) : nat :=
  Nat.b2n (prolonged_inactivity i) + Nat.b2n (erratic_movement i) +
  Nat.b2n (unusual_location i) + Nat.b2n (signal_loss_pattern i).

Definition increment (hit : bool) (w : float) : float :=
  if hit then w else 0%float.

Definition confidence_sum (i : indicators) : float :=
  (increment (prolonged_inactivity i) 0.3 + increment (erratic_movement i) 0.2 +
   increment (unusual_location i) 0.3 + increment (signal_loss_pattern i) 0.2)%float.

Definition triggers (i : indicators) : bool :=
  (2 <=? count i)%nat || Py.gt (confidence_sum i) 0.5%float.

Definition capped (c : float) : float :=
  if Py.gt c 0.9%float then 0.9%float else c.

End DistressSpec.

(** The four indicators as the detector evaluates them; the unusual-location
    check only runs when the incoming batch carries a location. *)
Definition evaluated_indicators
    (_check_prolonged_inactivity : RuleBased.system -> string -> float -> bool)
    (_check_erratic_movement : RuleBased.system -> string -> bool)
    (_check_unusual_location :
       RuleBased.system -> string -> RuleBased.location -> bool)
    (_check_signal_loss_pattern : RuleBased.system -> string -> bool)
    (self : RuleBased.system) (th : RuleBased.distress_thresholds)
    (user_id : string) (data : RuleBased.sensor_data)
  : DistressSpec.indicators :=
  DistressSpec.Indicators
    (_check_prolonged_inactivity self user_id
       (RuleBased.distress_stationary_duration th))
    (_check_erratic_movement self user_id)
    (match RuleBased.sd_location data with
     | Some loc => _check_unusual_location self user_id loc
     | None => false
     end)
    (_check_signal_loss_pattern self user_id).

(** ** Zone store inputs *)

(** A triangle accepted by [add_zone]. *)
Definition triangle_zone_data : RedZone.zone_data :=
  RedZone.ZoneData (Some "Landslide Area") None
    (Some [mk_vertex 30.0 78.0; mk_vertex 30.0 78.1; mk_vertex 30.1 78.0])
    (Some 2).

(** A large square that covers the seeded wildlife zone. *)
Definition overlapping_zone_data : RedZone.zone_data :=
  RedZone.ZoneData (Some "Overlap") None
    (Some [mk_vertex 26.0 75.0; mk_vertex 26.0 76.0;
           mk_vertex 27.5 76.0; mk_vertex 27.5 75.0])
    (Some 1).

(** A segment: a polygon of two vertices. *)
Definition two_vertex_polygon : polygon :=
  [mk_vertex 0 0; mk_vertex 3 1].

(** A store holding a zone without vertices and a zone whose first vertex
    lacks its longitude. *)
Definition malformed_zones : list RedZone.zone :=
  [ RedZone.Zone 1 "No vertices" "Custom" [] 3;
    RedZone.Zone 2 "No longitude" "Custom"
      [Vertex (Some 1%float) None; mk_vertex 2 2; mk_vertex 3 1] 3 ].

(** No zone of [pre] contains the point: the test evaluates to [False] on
    each of them. *)
Definition all_outside (lat lng : float) (pre : list RedZone.zone) : Prop :=
  Forall (fun z =>
            RedZone._point_in_polygon_ray_casting lat lng
              (RedZone.z_coordinates z) = Ok false) pre.

(** The polygon of [zone] contains the point: the test answers [True]. *)
Definition contains (lat lng : float) (zone : RedZone.zone) : Prop :=
  RedZone._point_in_polygon_ray_casting lat lng (RedZone.z_coordinates zone)
  = Ok true.

(** The breach query as the specification words it: it answers with the
    first zone, in the order of the list, whose polygon contains the
    point. *)
Definition first_match_as_stated (red_zones : list RedZone.zone)
    (lat lng : float) : Prop :=
  forall pre zone post,
    red_zones = pre ++ zone :: post ->
    Forall (fun z => ~ contains lat lng z) pre ->
    contains lat lng zone ->
    exists info,
      RedZone.get_zone_info red_zones lat lng = Ok (Some info) /\
      RedZone.zi_zone_id info = Some (RedZone.z_id zone) /\
      RedZone.zi_breach_detected info = true.

(** A zone of three vertices, the first without its ['lng'] key. *)
Definition no_longitude_zone_data : RedZone.zone_data :=
  RedZone.ZoneData (Some "No longitude") None
    (Some [Vertex (Some 1%float) None; mk_vertex 2 2; mk_vertex 3 1])
    (Some 3).

(** The stores that the public methods build: empty at construction,
    seeded by [initialize], changed by [add_zone] and [remove_zone].  A
    coordinate list is a value here: a caller that changes the list object
    it passed to [add_zone] afterwards is outside these stores. *)
Inductive zone_store : list RedZone.zone -> Prop :=
| store_constructed : zone_store []
| store_initialized : zone_store RedZone.initialize
| store_add_zone red_zones data :
    zone_store red_zones -> zone_store (RedZone.add_zone red_zones data).1
| store_remove_zone red_zones zone_id :
    zone_store red_zones ->
    zone_store (RedZone.remove_zone red_zones zone_id).1.

(** ** Per-user buffer bounds *)

(** The bound as the specification words it: both histories hold no entry
    older than 24 hours at the instant [now] and at most [cap] entries. *)
Definition buffer_bounded (cap : nat) (now : RuleBased.timestamp)
    (b : RuleBased.user_buffer) : Prop :=
  Forall (fun item => now - RuleBased.h_timestamp item <= RuleBased.hours 24)
         (RuleBased.data_history b) /\
  (length (RuleBased.data_history b) <= cap)%nat /\
  Forall (fun item => now - RuleBased.l_timestamp item <= RuleBased.hours 24)
         (RuleBased.locations b) /\
  (length (RuleBased.locations b) <= cap)%nat.

(** The bound holds for the updated user once [_update_user_buffer] has
    run. *)
Definition bounded_after_update (cap : nat) (clk : RuleBased.update_clock)
    (self : RuleBased.system) (user_id : string)
    (data : RuleBased.sensor_data) : Prop :=
  forall b,
    RuleBased.user_data_buffer
      (RuleBased._update_user_buffer clk self user_id data) !! user_id = Some b ->
    buffer_bounded cap (RuleBased.uc_cutoff clk) b.

(** What the code maintains for the location histories: a count cap of
    100. *)
Definition locations_capped (self : RuleBased.system) : Prop :=
  forall user_id b,
    RuleBased.user_data_buffer self !! user_id = Some b ->
    (length (RuleBased.locations b) <= 100)%nat.

(** The states a detector object goes through: created by [__init__], then
    changed by [initialize] and [_update_user_buffer] only. *)
Inductive reachable : RuleBased.system -> Prop :=
| reachable_init : reachable RuleBased.init
| reachable_initialize (self : RuleBased.system) :
    reachable self -> reachable (RuleBased.initialize self)
| reachable_update (clk : RuleBased.update_clock) (self : RuleBased.system)
    (user_id : string) (data : RuleBased.sensor_data) :
    reachable self ->
    reachable (RuleBased._update_user_buffer clk self user_id data).

(** ** Float comparisons and polygons *)

(** The comparison of two floats, as the specification of the primitive
    operations gives it. *)
Definition fcompare (a b : float) : option comparison :=
  SFcompare (Prim2SF a) (Prim2SF b).

(** The point [(lat, lng)] lies beyond the polygon on one side: north of
    every vertex, or at the latitude of the southernmost vertex or south of
    it, or east of every vertex.  Only the coordinates that are present
    count. *)
Definition north_of (lat : float) (poly : polygon) : Prop :=
  forall v a, v ∈ poly -> v_lat v = Some a -> Py.lt a lat = true.

Definition not_north_of_any (lat : float) (poly : polygon) : Prop :=
  forall v a, v ∈ poly -> v_lat v = Some a -> Py.le lat a = true.

Definition east_of (lng : float) (poly : polygon) : Prop :=
  forall v a, v ∈ poly -> v_lng v = Some a -> Py.lt a lng = true.

Definition beyond_polygon (lat lng : float) (poly : polygon) : Prop :=
  north_of lat poly \/ not_north_of_any lat poly \/ east_of lng poly.

(** A vertex with both coordinates, neither of them NaN. *)
Definition well_formed_vertex (v : vertex) : Prop :=
  exists lat lng,
    v = mk_vertex lat lng /\
    PyNum.ordered lat = true /\ PyNum.ordered lng = true.

(** ** Nearby zones *)

(** A list of nearby zones in ascending order of distance. *)
Definition distance_sorted (l : list RedZone.nearby_zone) : Prop :=
  StronglySorted
    (fun a b =>
       Py.le (RedZone.nz_distance_km a) (RedZone.nz_distance_km b) = true) l.

(** The entry that the nearby-zones query builds for [zone]: the zone's
    fields with the distance [d] from the point to the zone's centre. *)
Definition nearby_entry
    (_calculate_distance : float -> float -> float -> float -> result float)
    (lat lng : float) (zone : RedZone.zone) (d : float)
    (entry : RedZone.nearby_zone) : Prop :=
  exists center,
    RedZone._calculate_polygon_center (RedZone.z_coordinates zone)
    = Ok center /\
    _calculate_distance lat lng center.1 center.2 = Ok d /\
    entry = RedZone.NearbyZone (RedZone.z_id zone) (RedZone.z_name zone)
              (RedZone.z_type zone) (RedZone.z_risk_level zone) d
              (RedZone.z_coordinates zone).

(** What holds of every entry of the answer for a store [all_zones]: it
    lies within the radius and is the entry of one of the zones. *)
Definition listed_nearby
    (_calculate_distance : float -> float -> float -> float -> result float)
    (lat lng radius_km : float) (all_zones : list RedZone.zone)
    (entry : RedZone.nearby_zone) : Prop :=
  Py.le (RedZone.nz_distance_km entry) radius_km = true /\
  exists zone,
    zone ∈ all_zones /\
    nearby_entry _calculate_distance lat lng zone
      (RedZone.nz_distance_km entry) entry.

(** ** Batches and alerts *)

(** A batch without IMU data and without location. *)
Definition empty_batch : RuleBased.sensor_data :=
  RuleBased.SensorData None None.

(** Six such batches received one hour apart by one user. *)
Definition hourly_batches : RuleBased.system :=
  foldl (fun self h =>
           RuleBased._update_user_buffer (clock_at (RuleBased.hours h)) self
             "tourist" empty_batch)
        (RuleBased.initialize RuleBased.init) [0; 1; 2; 3; 4; 5].

(** Distance and bearing functions for scenarios on one spot. *)
Definition zero_distance : float -> float -> float -> float -> result float :=
  fun _ _ _ _ => Ok 0%float.
Definition zero_bearing
  : RuleBased.location -> RuleBased.location -> result float :=
  fun _ _ => Ok 0%float.

(** The alert carries the user and the mark of the rule-based system. *)
Definition tagged (user_id : string) (a : RuleBased.alert) : Prop :=
  RuleBased.a_user_id a = user_id /\
  RuleBased.a_detection_method a = "rule_based".

(** ** Nearby zones of the geographic utilities *)

(** Ascending order of the ['distance_km'] key. *)
Definition by_distance {zone_dict : Type}
    (l : list (@GeoUtilsMore.zone_with_distance zone_dict)) : Prop :=
  StronglySorted
    (fun a b =>
       Py.le (GeoUtilsMore.distance_km a) (GeoUtilsMore.distance_km b) = true)
    l.

(** The entry [e] is a zone of [zones] whose centre is not [(0, 0)] and
    lies within [max_distance_km] of the point, with that distance. *)
Definition within_distance {zone_dict : Type}
    (calculate_distance : float -> float -> float -> float -> float)
    (coordinates : zone_dict -> option polygon)
    (lat lng max_distance_km : float) (zones : list zone_dict)
    (e : @GeoUtilsMore.zone_with_distance zone_dict) : Prop :=
  e.1 ∈ zones /\
  exists center,
    GeoUtilsMore.get_polygon_center (default [] (coordinates e.1))
    = Ok center /\
    (Py.eq center.1 0 && Py.eq center.2 0) = false /\
    e.2 = calculate_distance lat lng center.1 center.2 /\
    Py.le e.2 max_distance_km = true.

(** Three zone dictionaries, named by a number: zone 1 has a polygon around
    (2, 2), zone 2 has an empty polygon and zone 3 has no ['coordinates']
    key. *)
Definition numbered_zone_coordinates (zone : nat) : option polygon :=
  match zone with
  | 1%nat => Some [mk_vertex 1 1; mk_vertex 3 1; mk_vertex 2 4]%float
  | 2%nat => Some []
  | _ => None
  end.

(** * Properties *)

(** ** Reasoning about the error monad *)

Lemma bind_Ok {A B} (m : result A) (k : A -> result B) (b : B) :
  (m ≫= k) = Ok b -> exists a, m = Ok a /\ k a = Ok b.
Proof. destruct m as [a|e]; cbn; [eauto | discriminate]. Qed.

Lemma try_except_total {A} (body : result A) (d : A) :
  exists a, try_except body (fun _ => Ok d) = Ok a.
Proof. destruct body; cbn; eauto. Qed.

Lemma try_except_default {A} (body : result A) (d : A) :
  Py.raises body = true -> try_except body (fun _ => Ok d) = Ok d.
Proof. destruct body; cbn; [discriminate | reflexivity]. Qed.

Ltac py_bind m :=
  let E := fresh "E" in
  destruct m eqn:E; cbn [mbind result_bind Py.bind Py.try_except].

(** ** Fall detector *)

Section Fall.

Import RuleBased.

Context {libm : Libm}.

Lemma magnitudes_of_length (imu_data : list imu_sample) (ms : list float) :
  magnitudes_of imu_data = Ok ms -> length ms = length imu_data.
Proof.
  revert ms. induction imu_data as [|s rest IH]; intros ms H; cbn in H.
  - injection H as <-. reflexivity.
  - apply bind_Ok in H as (m & _ & H).
    apply bind_Ok in H as (ms' & Hrest & H).
    injection H as <-. cbn. f_equal. auto.
Qed.

(** The stillness phase is only examined at offsets [i] with
    [i + 10 < len(magnitudes)]. *)
Lemma fall_pattern_at_needs_room th (magnitudes : list float) (i : nat) :
  (length magnitudes <= i + 10)%nat ->
  fall_pattern_at th magnitudes i = false.
Proof.
  intros H. unfold fall_pattern_at.
  replace (i + 10 <? length magnitudes)%nat with false
    by (symmetry; apply Nat.ltb_ge; lia).
  repeat match goal with |- context [if ?b then _ else _] => destruct b end;
    reflexivity.
Qed.

Lemma fall_scan_short th (magnitudes : list float) (offsets : list nat) :
  (length magnitudes <= 10)%nat ->
  fall_scan th magnitudes offsets = false.
Proof.
  intros H. induction offsets as [|i rest IH]; cbn; [reflexivity|].
  rewrite fall_pattern_at_needs_room by lia. exact IH.
Qed.

End Fall.

(** ** Scenarios whose squares are exact *)

Section ExactSquares.

Import RuleBased.

Context {libm : Libm}.

Lemma magnitude_on_axis (g : float) :
  square 0 = Ok (0 * 0)%float -> square g = Ok (g * g)%float ->
  magnitude (sample_of_magnitude g)
  = math_sqrt (0 * 0 + 0 * 0 + g * g)%float.
Proof.
  intros H0 Hg. unfold magnitude, sample_of_magnitude.
  cbn [acceleration_x acceleration_y acceleration_z Py.getitem
       mbind result_bind Py.bind].
  rewrite H0. cbn [mbind result_bind Py.bind].
  rewrite Hg. reflexivity.
Qed.

Lemma exact_squares_elem (xs : list float) (g : float) :
  exact_squares xs -> g ∈ xs -> square g = Ok (g * g)%float.
Proof.
  unfold exact_squares. rewrite Forall_forall. intros H Hg. exact (H g Hg).
Qed.

End ExactSquares.

(** On samples along one axis whose squares are exact, the magnitudes do
    not depend on the library. *)
Lemma magnitudes_of_on_axis (l1 l2 : RuleBased.Libm) (xs gs : list float) :
  exact_squares (libm := l1) xs -> exact_squares (libm := l2) xs ->
  Forall (fun g => g ∈ xs) (0%float :: gs) ->
  RuleBased.magnitudes_of (libm := l1) (sample_of_magnitude <$> gs)
  = RuleBased.magnitudes_of (libm := l2) (sample_of_magnitude <$> gs).
Proof.
  intros H1 H2 Hin. apply Forall_cons in Hin as [H0 Hin].
  induction Hin as [|g gs Hg _ IH]; [reflexivity|].
  cbn [fmap list_fmap RuleBased.magnitudes_of].
  rewrite (magnitude_on_axis (libm := l1) g),
          (magnitude_on_axis (libm := l2) g)
    by eauto using exact_squares_elem.
  fold (fmap (M := list) sample_of_magnitude gs). rewrite IH. reflexivity.
Qed.

Lemma detect_fall_on_axis (l1 l2 : RuleBased.Libm) (xs gs : list float)
    (self : RuleBased.system) (now : RuleBased.timestamp) (user_id : string) :
  exact_squares (libm := l1) xs -> exact_squares (libm := l2) xs ->
  Forall (fun g => g ∈ xs) (0%float :: gs) ->
  RuleBased._detect_fall_rule_based (libm := l1) self now user_id
    (sample_of_magnitude <$> gs)
  = RuleBased._detect_fall_rule_based (libm := l2) self now user_id
      (sample_of_magnitude <$> gs).
Proof.
  intros H1 H2 Hin. unfold RuleBased._detect_fall_rule_based.
  rewrite (magnitudes_of_on_axis l1 l2 xs gs H1 H2 Hin). reflexivity.
Qed.

Ltac exact_squares_computed :=
  repeat (apply List.Forall_cons; [vm_compute; reflexivity|]);
  apply List.Forall_nil.

Ltac all_listed :=
  repeat (apply List.Forall_cons; [repeat constructor|]);
  apply List.Forall_nil.

(** Evaluate the fall detector on the samples [gs] along one axis with the
    correctly rounding library, [H] saying that the squares of [xs] are
    exact. *)
Ltac fall_on_axis xs gs H :=
  let l := eval cbv in gs in
  etransitivity;
  [ exact (detect_fall_on_axis _ rounded_product xs l _ _ _ H
             ltac:(exact_squares_computed) ltac:(all_listed)) | ].

(** C10: an IMU batch of fewer than 11 samples, the documented minimum of
    10 included, never produces a fall alert, whatever the magnitudes:
    the stillness phase is only checked at offsets [i] with
    [i + 10 < len(magnitudes)]. *)
Theorem fall_needs_eleven_samples {libm : RuleBased.Libm}
    (self : RuleBased.system) (now : RuleBased.timestamp) (user_id : string)
    (imu_data : list RuleBased.imu_sample) :
  (length imu_data < 11)%nat ->
  RuleBased._detect_fall_rule_based self now user_id imu_data = Ok None.
Proof.
  intros Hlen. unfold RuleBased._detect_fall_rule_based.
  destruct (length imu_data <? 10)%nat eqn:Hguard; [reflexivity|].
  py_bind (Py.getitem (RuleBased.th_fall (RuleBased.detection_thresholds self)));
    [|reflexivity].
  py_bind (RuleBased.magnitudes_of imu_data); [|reflexivity].
  match goal with H : RuleBased.magnitudes_of _ = Ok ?ms |- _ =>
    apply magnitudes_of_length in H; rename H into Hms end.
  rewrite fall_scan_short by lia. reflexivity.
Qed.

Lemma fall_needs_eleven_samples_witness :
  (length ten_sample_fall < 11)%nat /\
  RuleBased._detect_fall_rule_based (libm := rounded_product)
    (RuleBased.initialize RuleBased.init) 0 "tourist" ten_sample_fall = Ok None.
Proof.
  split; [cbn; lia|].
  apply (fall_needs_eleven_samples
           (RuleBased.initialize RuleBased.init) 0 "tourist" ten_sample_fall).
  cbn; lia.
Defined.

(** The same ten samples followed by one more still sample are detected. *)
Example eleven_sample_fall_detected {libm : RuleBased.Libm} :
  exact_squares [0; 1; 25]%float ->
  exists a,
    RuleBased._detect_fall_rule_based
      (RuleBased.initialize RuleBased.init) 0 "tourist"
      (ten_sample_fall ++ [sample_of_magnitude 1])
    = Ok (Some a) /\
    RuleBased.a_alert_type a = RuleBased.fall_detected /\
    RuleBased.a_confidence a = 0.75%float.
Proof.
  intros Hx. eexists. split.
  - fall_on_axis [0; 1; 25]%float
      [1; 1; 1; 25; 1; 1; 1; 1; 1; 1; 1]%float Hx.
    vm_compute. reflexivity.
  - split; reflexivity.
Qed.

Example demo_fall_imu_magnitudes {libm : RuleBased.Libm} :
  exact_squares [0; 1; 10; 25]%float ->
  RuleBased.magnitudes_of demo_fall_imu =
  Ok (repeat 1%float 10 ++ repeat 25%float 5 ++ repeat 10%float 15).
Proof.
  intros Hx.
  etransitivity;
    [exact (magnitudes_of_on_axis _ rounded_product [0; 1; 10; 25]%float
              (repeat 1 10 ++ repeat 25 5 ++ repeat 10 15)%float Hx
              ltac:(exact_squares_computed)
              ltac:(cbv [repeat app]; all_listed))|].
  vm_compute. reflexivity.
Qed.

Example initialized_fall_thresholds :
  RuleBased.th_fall (RuleBased.detection_thresholds (RuleBased.initialize RuleBased.init))
  = Some (RuleBased.FallThresholds 0.5 2.0 15.0 0.3 2.0 3.0).
Proof. reflexivity. Qed.

(** C1: on the 30-sample sequence (10 at magnitude 1, 5 at magnitude 25, 15
    at magnitude 10) and under the initialized thresholds the detector
    returns no alert: the samples at rest have magnitude 10, which is not
    below [stillness_threshold = 2.0], so phase 3 never matches.  The
    squares of 0, 1, 10 and 25 are exact, and the library is taken to
    return them as they are. *)
Theorem demo_fall_sequence_yields_no_alert {libm : RuleBased.Libm}
    (now : RuleBased.timestamp) (user_id : string) :
  exact_squares [0; 1; 10; 25]%float ->
  RuleBased._detect_fall_rule_based
    (RuleBased.initialize RuleBased.init) now user_id demo_fall_imu = Ok None.
Proof.
  intros Hx.
  fall_on_axis [0; 1; 10; 25]%float
    (repeat 1 10 ++ repeat 25 5 ++ repeat 10 15)%float Hx.
  vm_compute. reflexivity.
Qed.

Lemma demo_fall_sequence_yields_no_alert_witness :
  exact_squares (libm := rounded_product) [0; 1; 10; 25]%float /\
  RuleBased._detect_fall_rule_based (libm := rounded_product)
    (RuleBased.initialize RuleBased.init) 0 "tourist" demo_fall_imu = Ok None.
Proof.
  assert (H : exact_squares (libm := rounded_product) [0; 1; 10; 25]%float)
    by exact_squares_computed.
  split; [exact H|].
  exact (demo_fall_sequence_yields_no_alert 0 "tourist" H).
Defined.

(** With a stillness threshold above the resting magnitude, the same
    sequence is reported, with confidence 0.75: phase 3 is what rejects
    it. *)
Example demo_fall_detected_with_lenient_stillness {libm : RuleBased.Libm} :
  exact_squares [0; 1; 10; 25]%float ->
  let self :=
    RuleBased.System true
      (RuleBased.ThresholdTable
         (Some (RuleBased.FallThresholds 0.5 2.0 15.0 0.3 30.0 3.0))
         None None None) ∅ in
  exists a,
    RuleBased._detect_fall_rule_based self 0 "tourist" demo_fall_imu
    = Ok (Some a) /\
    RuleBased.a_alert_type a = RuleBased.fall_detected /\
    RuleBased.a_confidence a = 0.75%float.
Proof.
  intros Hx. cbv zeta. eexists. split.
  - fall_on_axis [0; 1; 10; 25]%float
      (repeat 1 10 ++ repeat 25 5 ++ repeat 10 15)%float Hx.
    vm_compute. reflexivity.
  - split; reflexivity.
Qed.

(** ** Crash detector *)

(** C5: vehicle-context gate.  Whenever the maximum of the recent speeds is
    below [min_vehicle_speed], the crash detector returns no alert, for
    every deceleration and every IMU batch. *)
Theorem crash_vehicle_context_gate {libm : RuleBased.Libm}
    (self : RuleBased.system) (now_recent now_alert : RuleBased.timestamp)
    (user_id : string) (data : RuleBased.sensor_data)
    (th : RuleBased.crash_thresholds) :
  RuleBased.th_crash (RuleBased.detection_thresholds self) = Some th ->
  Py.lt (RuleBased.max_recent_speed (recent_speeds self now_recent user_id))
        (RuleBased.crash_min_vehicle_speed th) = true ->
  RuleBased._detect_crash_rule_based self now_recent now_alert user_id data
  = Ok None.
Proof.
  intros Hth Hgate. unfold RuleBased._detect_crash_rule_based.
  rewrite Hth. cbn [Py.getitem mbind result_bind Py.bind].
  destruct (length _ <? 5)%nat; [reflexivity|].
  unfold recent_speeds in Hgate. rewrite Hgate. reflexivity.
Qed.

Example initialized_min_vehicle_speed :
  RuleBased.crash_min_vehicle_speed <$>
    RuleBased.th_crash (RuleBased.detection_thresholds (RuleBased.initialize RuleBased.init))
  = Some 25%float.
Proof. reflexivity. Qed.

(** From 80 km/h the spike is reported as a crash, here with a correctly
    rounding library ... *)
Example crash_detected_from_80 :
  exists a,
    RuleBased._detect_crash_rule_based (libm := rounded_product)
      (drive_then_stop 80)
      (RuleBased.seconds 1) (RuleBased.seconds 1) "tourist" spike_batch
    = Ok (Some a) /\
    RuleBased.a_alert_type a = RuleBased.crash_detected /\
    RuleBased.a_confidence a = 0.8%float.
Proof. eexists. vm_compute. repeat split. Qed.

(** ... and from 20 km/h, with the same spike and a deceleration beyond the
    threshold, the gate holds. *)
Lemma crash_vehicle_context_gate_witness :
  Py.lt (RuleBased.max_recent_speed
           (recent_speeds (drive_then_stop 20) (RuleBased.seconds 1) "tourist"))
        25%float = true /\
  RuleBased._detect_crash_rule_based (libm := rounded_product)
    (drive_then_stop 20)
    (RuleBased.seconds 1) (RuleBased.seconds 1) "tourist" spike_batch
  = Ok None.
Proof.
  split; [vm_compute; reflexivity|].
  apply (crash_vehicle_context_gate (drive_then_stop 20)
           (RuleBased.seconds 1) (RuleBased.seconds 1) "tourist" spike_batch
           (RuleBased.CrashThresholds 25.0 (-8.0) 20.0 0.8 3.0)).
  - reflexivity.
  - vm_compute; reflexivity.
Defined.

(** ** Distress detector *)

Section Distress.

Import RuleBased.

Variable _check_prolonged_inactivity : system -> string -> float -> bool.
Variable _check_erratic_movement : system -> string -> bool.
Variable _check_unusual_location : system -> string -> location -> bool.
Variable _check_signal_loss_pattern : system -> string -> bool.

Let detect :=
  _detect_distress_rule_based _check_prolonged_inactivity
    _check_erratic_movement _check_unusual_location _check_signal_loss_pattern.

Let indicators_of :=
  evaluated_indicators _check_prolonged_inactivity
    _check_erratic_movement _check_unusual_location _check_signal_loss_pattern.

(** C4: the distress detector emits an alert exactly when at least two of
    the four indicators hold or the summed increments (0.3/0.2/0.3/0.2)
    exceed 0.5; the alert is a [distress_detected] one whose confidence is
    the sum capped at 0.9; otherwise nothing is emitted. *)
Theorem distress_trigger_rule
    (self : system) (now : timestamp) (user_id : string) (data : sensor_data)
    (th : distress_thresholds) :
  th_distress (detection_thresholds self) = Some th ->
  let i := indicators_of self th user_id data in
  if DistressSpec.triggers i then
    exists a,
      detect self now user_id data = Ok (Some a) /\
      a_alert_type a = distress_detected /\
      a_confidence a = DistressSpec.capped (DistressSpec.confidence_sum i)
  else detect self now user_id data = Ok None.
Proof.
  intros Hth i. subst i detect indicators_of.
  unfold _detect_distress_rule_based, distress_indicators,
    evaluated_indicators.
  rewrite Hth. cbn [Py.getitem mbind result_bind Py.bind].
  destruct (_check_prolonged_inactivity self user_id _),
    (_check_erratic_movement self user_id),
    (_check_signal_loss_pattern self user_id),
    (sd_location data) as [loc|];
    try destruct (_check_unusual_location self user_id loc);
    vm_compute; try reflexivity; eexists; repeat split.
Qed.

End Distress.

(** Inactivity and signal loss together, for a batch without location. *)
Lemma distress_trigger_rule_witness :
  let self := RuleBased.initialize RuleBased.init in
  let data := RuleBased.SensorData None None in
  RuleBased.th_distress (RuleBased.detection_thresholds self)
  = Some (RuleBased.DistressThresholds 4.0 5 2.0 2.0) /\
  exists a,
    RuleBased._detect_distress_rule_based
      (fun _ _ _ => true) (fun _ _ => false) (fun _ _ _ => false)
      (fun _ _ => true) self 0 "tourist" data = Ok (Some a) /\
    RuleBased.a_alert_type a = RuleBased.distress_detected /\
    RuleBased.a_confidence a = 0.5%float.
Proof.
  split; [reflexivity|].
  exact (distress_trigger_rule
           (fun _ _ _ => true) (fun _ _ => false) (fun _ _ _ => false)
           (fun _ _ => true)
           (RuleBased.initialize RuleBased.init) 0 "tourist"
           (RuleBased.SensorData None None)
           (RuleBased.DistressThresholds 4.0 5 2.0 2.0) eq_refl).
Defined.

(** ** Zone store: identifiers *)

Section Zones.

Import RedZone.

Lemma remove_zone_filter_twice (zones : list zone) (zone_id : Z) :
  filter (fun zone => z_id zone ≠ zone_id)
         (filter (fun zone => z_id zone ≠ zone_id) zones)
  = filter (fun zone => z_id zone ≠ zone_id) zones.
Proof.
  induction zones as [|z rest IH]; [reflexivity|].
  rewrite (filter_cons _ z rest).
  destruct (decide (z_id z ≠ zone_id)) as [Hne|Heq]; [|exact IH].
  rewrite filter_cons. rewrite decide_True by exact Hne.
  f_equal. exact IH.
Qed.

Lemma remove_zone_absent (zones : list zone) (zone_id : Z) :
  zone_id ∉ z_id <$> zones ->
  filter (fun zone => z_id zone ≠ zone_id) zones = zones.
Proof.
  induction zones as [|z rest IH]; intros Hnot; [reflexivity|].
  rewrite fmap_cons in Hnot. apply not_elem_of_cons in Hnot as [Hne Hrest].
  rewrite filter_cons. rewrite decide_True by (intros E; apply Hne; symmetry; exact E).
  f_equal. auto.
Qed.

Lemma remove_zone_removes (zones : list zone) (zone_id : Z) :
  zone_id ∉ z_id <$> (remove_zone zones zone_id).1.
Proof.
  cbn. intros Hin. apply list_elem_of_fmap in Hin as (z & -> & Hz).
  apply list_elem_of_filter in Hz as [Hne _]. apply Hne. reflexivity.
Qed.

End Zones.

(** C9: [remove_zone] is idempotent and always reports success: removing an
    id twice gives the end state of removing it once, the flag is [True]
    for every store and id, and an id that is absent leaves the store as it
    was. *)
Theorem remove_zone_idempotent (zones : list RedZone.zone) (zone_id : Z) :
  RedZone.remove_zone (RedZone.remove_zone zones zone_id).1 zone_id
  = RedZone.remove_zone zones zone_id /\
  (RedZone.remove_zone zones zone_id).2 = true /\
  (zone_id ∉ RedZone.z_id <$> zones ->
   RedZone.remove_zone zones zone_id = (zones, true)).
Proof.
  unfold RedZone.remove_zone; cbn [fst snd]. split; [|split].
  - f_equal. apply remove_zone_filter_twice.
  - reflexivity.
  - intros Hnot. f_equal. apply remove_zone_absent, Hnot.
Qed.

Example remove_seeded_zone_twice :
  (RedZone.remove_zone (RedZone.remove_zone RedZone.initialize 2).1 2).1
  = (RedZone.remove_zone RedZone.initialize 2).1 /\
  RedZone.z_id <$> (RedZone.remove_zone RedZone.initialize 2).1 = [1; 3; 4] /\
  RedZone.remove_zone RedZone.initialize 7 = (RedZone.initialize, true).
Proof. vm_compute. repeat split. Qed.

(** C2: identifiers are not always unique.  From the seeded store, removing
    zone 2 and then adding a zone succeeds and gives the new zone the
    identifier [len(red_zones) + 1 = 4], which the seeded mining zone
    already carries. *)
Theorem add_zone_after_remove_duplicates_id :
  let removed := (RedZone.remove_zone RedZone.initialize 2).1 in
  let added := RedZone.add_zone removed triangle_zone_data in
  added.2 = true /\
  RedZone.z_id <$> added.1 = [1; 3; 4; 4] /\
  RedZone.z_name <$> filter (fun z => RedZone.z_id z = 4) added.1
  = ["Mining Area - Dangerous"; "Landslide Area"] /\
  ~ NoDup (RedZone.z_id <$> added.1).
Proof.
  cbv zeta. split; [reflexivity|]. split; [reflexivity|].
  split; [vm_compute; reflexivity|].
  replace (RedZone.z_id <$> _) with [1; 3; 4; 4] by reflexivity.
  intros H. apply NoDup_cons in H as [_ H]. apply NoDup_cons in H as [_ H].
  apply NoDup_cons in H as [H _]. apply H. left.
Qed.

(** Without removals the scheme does give fresh identifiers: a store whose
    identifiers are [1 .. n] keeps that shape under [add_zone]. *)
Lemma add_zone_ids_consecutive (zones : list RedZone.zone)
    (data : RedZone.zone_data) :
  RedZone.z_id <$> zones = Z.of_nat <$> seq 1 (length zones) ->
  let zones' := (RedZone.add_zone zones data).1 in
  RedZone.z_id <$> zones' = Z.of_nat <$> seq 1 (length zones').
Proof.
  intros Hids. unfold RedZone.add_zone. cbv zeta.
  destruct (length _ <? 3)%nat; cbn [fst]; [exact Hids|].
  rewrite fmap_app, length_app, Hids. cbn [length fmap list_fmap RedZone.z_id].
  rewrite seq_app, fmap_app. cbn. do 3 f_equal. lia.
Qed.

(** ** Point in polygon on small polygons *)

(** [GeoUtils.point_in_polygon] guards on the number of vertices. *)
Lemma geo_point_in_polygon_small (lat lon : float) (poly : polygon) :
  (length poly < 3)%nat ->
  GeoUtils.point_in_polygon lat lon poly = Ok false.
Proof.
  intros H. unfold GeoUtils.point_in_polygon.
  apply Nat.ltb_lt in H. rewrite H. reflexivity.
Qed.

Lemma geo_point_in_polygon_small_witness :
  (length two_vertex_polygon < 3)%nat /\
  GeoUtils.point_in_polygon 1 0.33333333333333337 two_vertex_polygon
  = Ok false.
Proof.
  split; [cbn; lia|].
  apply (geo_point_in_polygon_small 1 0.33333333333333337 two_vertex_polygon).
  cbn; lia.
Defined.

(** The two traversals of the one edge of [two_vertex_polygon] compute the
    crossing abscissa at latitude 1 with different roundings. *)
Example two_vertex_crossings :
  (1 / 3 + 0 = 0.3333333333333333)%float /\
  ((1 - 3) * (0 - 1) / (0 - 3) + 1 = 0.33333333333333337)%float.
Proof. vm_compute. split; reflexivity. Qed.

(** The red-zone copy of the test has neither the guard nor the handler of
    [GeoUtils.point_in_polygon].  Called on its own, it raises [IndexError]
    at [polygon[0]] on the empty polygon, for every point, and it can
    answer [True] on a polygon of two vertices: the point lies between the
    two rounded crossings of the single edge, which is then counted
    once. *)
Example ray_casting_small_polygon_not_false :
  (forall lat lng : float,
     RedZone._point_in_polygon_ray_casting lat lng [] = Raise IndexError) /\
  length two_vertex_polygon = 2%nat /\
  RedZone._point_in_polygon_ray_casting 1 0.33333333333333337
    two_vertex_polygon = Ok true.
Proof.
  split; [reflexivity|]. split; [reflexivity|]. vm_compute. reflexivity.
Qed.

(** The zone store calls its test on stored polygons only, and those have
    at least three vertices: the seeded ones have four, and [add_zone]
    refuses shorter ones. *)
Lemma zone_store_polygons (red_zones : list RedZone.zone) :
  zone_store red_zones ->
  Forall (fun zone => (3 <= length (RedZone.z_coordinates zone))%nat)
         red_zones.
Proof.
  induction 1 as [| |red_zones data _ IH|red_zones zone_id _ IH].
  - constructor.
  - unfold RedZone.initialize.
    repeat (apply List.Forall_cons; [cbn; lia|]). apply List.Forall_nil.
  - unfold RedZone.add_zone. cbv zeta. cbn [RedZone.z_coordinates].
    destruct (length _ <? 3)%nat eqn:E; cbn [fst]; [exact IH|].
    apply Forall_app. split; [exact IH|].
    apply Nat.ltb_ge in E. repeat constructor. exact E.
  - unfold RedZone.remove_zone. cbn [fst].
    rewrite Forall_forall in IH |- *. intros zone Hin.
    apply list_elem_of_filter in Hin as [_ Hin]. exact (IH zone Hin).
Qed.

(** C8: a polygon with fewer than 3 vertices never contains a point.
    [GeoUtils.point_in_polygon] answers [False] on it, for every point.
    The zone store runs its own, unguarded test on stored polygons only,
    and the polygon is never stored: [add_zone] refuses it and leaves the
    store as it is, and no store that the public methods build holds a
    zone with it, so the breach queries never test it. *)
Theorem small_polygon_never_contains (lat lng : float) (poly : polygon) :
  (length poly < 3)%nat ->
  GeoUtils.point_in_polygon lat lng poly = Ok false /\
  forall red_zones : list RedZone.zone,
    zone_store red_zones ->
    (forall data,
       default [] (RedZone.zd_coordinates data) = poly ->
       RedZone.add_zone red_zones data = (red_zones, false)) /\
    (forall zone,
       zone ∈ red_zones -> RedZone.z_coordinates zone <> poly).
Proof.
  intros Hlen. split.
  { unfold GeoUtils.point_in_polygon.
    apply Nat.ltb_lt in Hlen. rewrite Hlen. reflexivity. }
  intros red_zones Hstore.
  pose proof (zone_store_polygons red_zones Hstore) as Hall.
  rewrite Forall_forall in Hall.
  assert (Hnot : forall zone,
            zone ∈ red_zones -> RedZone.z_coordinates zone <> poly).
  { intros zone Hin Heq. specialize (Hall zone Hin). rewrite Heq in Hall.
    lia. }
  split.
  - intros data Hdata. unfold RedZone.add_zone. cbv zeta.
    cbn [RedZone.z_coordinates]. rewrite Hdata.
    apply Nat.ltb_lt in Hlen. rewrite Hlen. reflexivity.
  - exact Hnot.
Qed.

(** The segment of two vertices, and the point that the unguarded test
    counts as inside it. *)
Lemma small_polygon_never_contains_witness :
  (length two_vertex_polygon < 3)%nat /\
  GeoUtils.point_in_polygon 1 0.33333333333333337 two_vertex_polygon
  = Ok false /\
  RedZone.add_zone RedZone.initialize
    (RedZone.ZoneData (Some "Segment") None (Some two_vertex_polygon) None)
  = (RedZone.initialize, false).
Proof.
  assert (H : (length two_vertex_polygon < 3)%nat) by (cbn; lia).
  split; [exact H|].
  destruct (small_polygon_never_contains 1 0.33333333333333337
              two_vertex_polygon H) as [Hgeo Hstore].
  split; [exact Hgeo|].
  destruct (Hstore RedZone.initialize store_initialized) as [Hadd _].
  apply Hadd. reflexivity.
Defined.

(** ** Zone store: breach query *)

Section Breach.

Import RedZone.

Variables lat lng : float.

Lemma zone_info_loop_skip (pre rest : list zone) :
  all_outside lat lng pre ->
  zone_info_loop lat lng (pre ++ rest) = zone_info_loop lat lng rest.
Proof.
  induction 1 as [|z pre Hz _ IH]; [reflexivity|].
  cbn [app zone_info_loop]. rewrite Hz. exact IH.
Qed.

Lemma check_point_loop_skip (pre rest : list zone) :
  all_outside lat lng pre ->
  check_point_loop lat lng (pre ++ rest) = check_point_loop lat lng rest.
Proof.
  induction 1 as [|z pre Hz _ IH]; [reflexivity|].
  cbn [app check_point_loop]. rewrite Hz. exact IH.
Qed.

End Breach.

(** C6 (amended): first match wins, as long as the test raises no error.
    When the test answers [False] on every zone of [pre], a store that is
    just [pre] answers with the no-breach record; a store that continues
    with a zone containing the point answers with the identifier, name,
    type and risk level of that zone, whatever zones are listed after it;
    and a store that continues with a zone on which the test raises
    answers [None]. *)
Theorem get_zone_info_first_match
    (lat lng : float) (pre : list RedZone.zone) :
  all_outside lat lng pre ->
  (exists info,
     RedZone.get_zone_info pre lat lng = Ok (Some info) /\
     RedZone.zi_zone_id info = None /\
     RedZone.zi_breach_detected info = false) /\
  (forall (zone : RedZone.zone) (post : list RedZone.zone),
     contains lat lng zone ->
     exists info,
       RedZone.get_zone_info (pre ++ zone :: post) lat lng = Ok (Some info) /\
       RedZone.zi_zone_id info = Some (RedZone.z_id zone) /\
       RedZone.zi_zone_name info = RedZone.z_name zone /\
       RedZone.zi_zone_type info = RedZone.z_type zone /\
       RedZone.zi_risk_level info = RedZone.z_risk_level zone /\
       RedZone.zi_breach_detected info = true) /\
  (forall (zone : RedZone.zone) (post : list RedZone.zone),
     Py.raises (RedZone._point_in_polygon_ray_casting lat lng
                  (RedZone.z_coordinates zone)) = true ->
     RedZone.get_zone_info (pre ++ zone :: post) lat lng = Ok None).
Proof.
  intros Hpre. unfold RedZone.get_zone_info. split; [|split].
  - rewrite <- (app_nil_r pre), zone_info_loop_skip by exact Hpre.
    eexists. split; [reflexivity|]. split; reflexivity.
  - intros zone post Hin. unfold contains in Hin.
    rewrite zone_info_loop_skip by exact Hpre.
    cbn [RedZone.zone_info_loop]. rewrite Hin.
    eexists. split; [reflexivity|]. repeat split.
  - intros zone post Hraise.
    rewrite zone_info_loop_skip by exact Hpre.
    cbn [RedZone.zone_info_loop].
    destruct (RedZone._point_in_polygon_ray_casting lat lng _);
      [discriminate Hraise|reflexivity].
Qed.

(** The centre of the seeded wildlife zone lies in the second zone of the
    seeded list and not in the first. *)
Lemma get_zone_info_first_match_witness :
  all_outside 26.92 75.805 (take 1 RedZone.initialize) /\
  exists info,
    RedZone.get_zone_info RedZone.initialize 26.92 75.805 = Ok (Some info) /\
    RedZone.zi_zone_id info = Some 2 /\
    RedZone.zi_zone_name info = "Wildlife Sanctuary - Restricted Area" /\
    RedZone.zi_zone_type info = "Wildlife" /\
    RedZone.zi_risk_level info = 3 /\
    RedZone.zi_breach_detected info = true.
Proof.
  assert (H : all_outside 26.92 75.805 (take 1 RedZone.initialize)).
  { repeat constructor. }
  split; [exact H|].
  refine (proj1 (proj2 (get_zone_info_first_match 26.92 75.805
                          (take 1 RedZone.initialize) H))
                (RedZone.Zone 2 "Wildlife Sanctuary - Restricted Area"
                   "Wildlife"
                   [ mk_vertex 26.9200 75.8000; mk_vertex 26.9250 75.8050;
                     mk_vertex 26.9200 75.8100; mk_vertex 26.9150 75.8050 ] 3)
                (drop 2 RedZone.initialize) _).
  vm_compute. reflexivity.
Defined.

(** C6 (as stated) fails on a store built by two successful [add_zone]
    calls: the first adds a zone whose first vertex has no ['lng'] key, the
    second a triangle.  For a point inside the triangle and outside every
    other zone the query answers [None], not the triangle: the test raises
    on the zone before it. *)
Lemma malformed_zone_hides_later_breach :
  let added := RedZone.add_zone RedZone.initialize no_longitude_zone_data in
  let red_zones := (RedZone.add_zone added.1 triangle_zone_data).1 in
  added.2 = true /\
  (RedZone.add_zone added.1 triangle_zone_data).2 = true /\
  RedZone.get_zone_info red_zones 30.02 78.02 = Ok None /\
  ~ first_match_as_stated red_zones 30.02 78.02.
Proof.
  cbv zeta. split; [reflexivity|]. split; [reflexivity|].
  split; [vm_compute; reflexivity|].
  intros H.
  destruct (H (RedZone.initialize ++
               [RedZone.Zone 5 "No longitude" "Custom"
                  [Vertex (Some 1%float) None; mk_vertex 2 2; mk_vertex 3 1]
                  3])
              (RedZone.Zone 6 "Landslide Area" "Custom"
                 [mk_vertex 30.0 78.0; mk_vertex 30.0 78.1;
                  mk_vertex 30.1 78.0] 2)
              [])
    as (info & Hinfo & _).
  - reflexivity.
  - repeat (apply List.Forall_cons; [vm_compute; discriminate|]).
    apply List.Forall_nil.
  - vm_compute. reflexivity.
  - vm_compute in Hinfo. discriminate Hinfo.
Qed.

Example wildlife_zone_centre :
  RedZone._calculate_polygon_center
    (RedZone.z_coordinates
       (default (RedZone.Zone 0 "" "" [] 0) (RedZone.initialize !! 1%nat)))
  = Ok (26.92, 75.805)%float.
Proof. vm_compute. reflexivity. Qed.

(** With an overlapping zone added after it, the seeded zone still wins. *)
Example overlapping_zone_first_wins :
  let zones := (RedZone.add_zone RedZone.initialize overlapping_zone_data).1 in
  RedZone._point_in_polygon_ray_casting 26.92 75.805
    (default [] (RedZone.zd_coordinates overlapping_zone_data)) = Ok true /\
  exists zone,
    RedZone.initialize !! 1%nat = Some zone /\
    RedZone.get_zone_info zones 26.92 75.805
    = Ok (Some (RedZone.breach_info zone)).
Proof.
  cbv zeta. split; [vm_compute; reflexivity|].
  eexists. split; [reflexivity|]. vm_compute. reflexivity.
Qed.

(** A point outside every seeded zone, and the first vertex of the seeded
    military zone, which the test does not count as inside. *)
Example seeded_zones_outside :
  RedZone.get_zone_info RedZone.initialize 26.9000 75.7800
  = Ok (Some RedZone.safe_area) /\
  RedZone.check_point_in_polygon RedZone.initialize 26.9000 75.7800
  = Ok false /\
  RedZone.get_zone_info RedZone.initialize 26.9124 75.7873
  = Ok (Some RedZone.safe_area).
Proof. vm_compute. repeat split. Qed.

(** ** Zone store: failure semantics *)

(** C7: the breach check and the nearby-zones query never raise.  For every
    store (malformed polygons included), point, radius and distance
    function, the breach check returns a boolean, which is [False] when its
    body raised and [True] only when the body found a containing zone; the
    nearby query returns a list, which is empty when its body raised. *)
Theorem zone_queries_never_raise
    (_calculate_distance : float -> float -> float -> float -> result float)
    (red_zones : list RedZone.zone) (lat lng radius_km : float) :
  (exists b, RedZone.check_point_in_polygon red_zones lat lng = Ok b) /\
  (Py.raises (RedZone.check_point_loop lat lng red_zones) = true ->
   RedZone.check_point_in_polygon red_zones lat lng = Ok false) /\
  (RedZone.check_point_in_polygon red_zones lat lng = Ok true ->
   RedZone.check_point_loop lat lng red_zones = Ok true) /\
  (exists l, RedZone.get_nearby_zones _calculate_distance
               red_zones lat lng radius_km = Ok l) /\
  (Py.raises (RedZone.nearby_zones_sorted _calculate_distance
                red_zones lat lng radius_km) = true ->
   RedZone.get_nearby_zones _calculate_distance red_zones lat lng radius_km
   = Ok []).
Proof.
  unfold RedZone.check_point_in_polygon, RedZone.get_nearby_zones.
  repeat split.
  - apply try_except_total.
  - apply try_except_default.
  - destruct (RedZone.check_point_loop lat lng red_zones); cbn; congruence.
  - apply try_except_total.
  - apply try_except_default.
Qed.

(** On the malformed store the bodies do raise, and the callers see the
    defaults. *)
Example malformed_zones_defaults :
  RedZone.check_point_loop 1 1 malformed_zones = Raise IndexError /\
  RedZone.check_point_in_polygon malformed_zones 1 1 = Ok false /\
  RedZone.check_point_loop 1 1 (drop 1 malformed_zones) = Raise KeyError /\
  RedZone.check_point_in_polygon (drop 1 malformed_zones) 1 1 = Ok false /\
  RedZone.get_zone_info malformed_zones 1 1 = Ok None /\
  RedZone.get_nearby_zones (fun _ _ _ _ => Ok 0%float)
    malformed_zones 1 1 5 = Ok [] /\
  RedZone.get_nearby_zones (fun _ _ _ _ => Raise ValueError)
    RedZone.initialize 1 1 5 = Ok [].
Proof. vm_compute. repeat split. Qed.

(** With a distance function that succeeds, the seeded zones within the
    radius come back sorted by distance; equal distances keep their
    order. *)
Example nearby_zones_sorted_by_distance :
  (exists l,
     RedZone.get_nearby_zones
       (fun lat1 lng1 lat2 lng2 =>
          Ok (abs (lat2 - lat1) + abs (lng2 - lng1))%float)
       RedZone.initialize 26.0 75.0 3.0 = Ok l /\
     RedZone.nz_zone_id <$> l = [4; 1; 2]) /\
  RedZone.nz_zone_id <$>
    RedZone.sort_by_distance
      [RedZone.NearbyZone 1 "" "" 0 2 []; RedZone.NearbyZone 2 "" "" 0 1 [];
       RedZone.NearbyZone 3 "" "" 0 2 []; RedZone.NearbyZone 4 "" "" 0 1 []]
  = [2; 4; 1; 3].
Proof.
  split; [eexists; split; vm_compute; reflexivity|].
  vm_compute. reflexivity.
Qed.

(** ** Per-user buffer *)

Section Buffer.

Import RuleBased.

Lemma last_n_length {A} (n : nat) (l : list A) :
  (length (last_n n l) <= n)%nat.
Proof. unfold last_n. rewrite length_drop. lia. Qed.

Lemma filter_repeat_all {A} (P : A -> Prop) `{!forall x, Decision (P x)}
    (x : A) (n : nat) :
  P x -> filter P (repeat x n) = repeat x n.
Proof.
  intros Hx. induction n as [|n IH]; [reflexivity|].
  cbn [repeat]. rewrite filter_cons, decide_True by exact Hx.
  f_equal. exact IH.
Qed.

Lemma repeat_snoc {A} (x : A) (n : nat) :
  repeat x n ++ [x] = repeat x (S n).
Proof.
  induction n as [|n IH]; [reflexivity|]. cbn [repeat app]. f_equal. exact IH.
Qed.

Lemma update_keeps_fresh_history (self : system) (b : user_buffer) (n : nat) :
  user_data_buffer self !! "tourist" = Some b ->
  data_history b = repeat (HistoryItem 0 (located_batch 0)) n ->
  exists b',
    user_data_buffer
      (_update_user_buffer (clock_at 0) self "tourist" (located_batch 0))
      !! "tourist" = Some b' /\
    data_history b' = repeat (HistoryItem 0 (located_batch 0)) (S n).
Proof.
  intros Hb Hhist. unfold _update_user_buffer.
  rewrite Hb. cbn [user_data_buffer].
  eexists. split; [apply lookup_insert_eq|].
  cbn [data_history uc_appended uc_cutoff clock_at].
  rewrite Hhist, repeat_snoc.
  apply (filter_repeat_all (fun item => h_timestamp item > 0 - hours 24)).
  cbn. unfold hours. lia.
Qed.

(** The sensor-data history has no count cap: [n + 1] batches received at
    one instant are all kept. *)
Lemma data_history_grows (n : nat) :
  exists b,
    user_data_buffer
      (Nat.iter (S n)
         (fun self => _update_user_buffer (clock_at 0) self "tourist"
                        (located_batch 0)) init) !! "tourist" = Some b /\
    data_history b = repeat (HistoryItem 0 (located_batch 0)) (S n).
Proof.
  induction n as [|n (b & Hb & Hhist)].
  - eexists. split; [cbn; apply lookup_insert_eq|]. reflexivity.
  - rewrite Nat.iter_succ.
    exact (update_keeps_fresh_history _ b (S n) Hb Hhist).
Qed.

End Buffer.

(** C3 (as stated) fails: a location recorded at time 0 is still in the
    location history after an update made 25 hours later, so no count cap
    makes both histories age-bounded. *)
Lemma buffer_not_age_bounded :
  ~ exists cap,
      bounded_after_update cap (clock_at (RuleBased.hours 25))
        (RuleBased._update_user_buffer (clock_at 0) RuleBased.init
           "tourist" (located_batch 0))
        "tourist" (located_batch 0).
Proof.
  intros [cap H].
  specialize (H (RuleBased.UserBuffer
                   [RuleBased.HistoryItem (RuleBased.hours 25) (located_batch 0)]
                   [RuleBased.LocationItem 0 (tourist_location 0);
                    RuleBased.LocationItem (RuleBased.hours 25)
                      (tourist_location 0)]
                   (RuleBased.hours 25))).
  destruct H as (_ & _ & Hage & _); [vm_compute; reflexivity|].
  apply Forall_cons in Hage as [Hold _].
  vm_compute in Hold. apply Hold. reflexivity.
Qed.

Section BufferBounds.

Import RuleBased.

Lemma update_locations_capped (clk : update_clock) (self : system)
    (user_id : string) (data : sensor_data) :
  locations_capped self ->
  locations_capped (_update_user_buffer clk self user_id data).
Proof.
  intros Hcap u b Hb. unfold _update_user_buffer in Hb.
  cbn [user_data_buffer] in Hb.
  destruct (decide (u = user_id)) as [->|Hne].
  - rewrite lookup_insert_eq in Hb. injection Hb as <-. cbn [locations].
    destruct (sd_location data); [apply last_n_length|].
    destruct (user_data_buffer self !! user_id) as [b0|] eqn:E.
    + exact (Hcap user_id b0 E).
    + cbn. lia.
  - rewrite lookup_insert_ne in Hb by congruence. exact (Hcap u b Hb).
Qed.

Lemma reachable_locations_capped (self : system) :
  reachable self -> locations_capped self.
Proof.
  induction 1 as [|self _ IH|clk self user_id data _ IH].
  - intros u b Hb. cbn in Hb. rewrite lookup_empty in Hb. discriminate.
  - exact IH.
  - apply update_locations_capped, IH.
Qed.

Lemma update_history_recent (clk : update_clock) (self : system)
    (user_id : string) (data : sensor_data) :
  exists b,
    user_data_buffer (_update_user_buffer clk self user_id data) !! user_id
    = Some b /\
    Forall (fun item => uc_cutoff clk - h_timestamp item < hours 24)
           (data_history b).
Proof.
  unfold _update_user_buffer. cbn [user_data_buffer].
  eexists. split; [apply lookup_insert_eq|].
  cbn [data_history]. apply Forall_forall. intros item Hin.
  apply list_elem_of_filter in Hin as [Hnew _]. lia.
Qed.

(** [process_data] moves between reachable states. *)
Lemma process_data_reachable {libm : Libm} c1 c2 c3 c4 (clk : process_clock)
    (self : system) (user_id : string) (data : sensor_data) :
  reachable self ->
  reachable (process_data c1 c2 c3 c4 clk self user_id data).1.
Proof.
  intros H. unfold process_data. cbn [fst].
  apply reachable_update. destruct (is_initialized self); [exact H|].
  apply reachable_initialize, H.
Qed.

End BufferBounds.

(** C3 (amended): after every buffer update, every entry of the updated
    user's sensor-data history is stamped less than 24 hours before the
    cutoff instant, and every user's location history holds at most 100
    entries. *)
Theorem update_user_buffer_bounds
    (clk : RuleBased.update_clock) (self : RuleBased.system)
    (user_id : string) (data : RuleBased.sensor_data) :
  reachable self ->
  let self' := RuleBased._update_user_buffer clk self user_id data in
  (exists b,
     RuleBased.user_data_buffer self' !! user_id = Some b /\
     Forall (fun item =>
               RuleBased.uc_cutoff clk - RuleBased.h_timestamp item
               < RuleBased.hours 24)
            (RuleBased.data_history b)) /\
  locations_capped self'.
Proof.
  intros Hreach self'. split.
  - apply update_history_recent.
  - apply update_locations_capped, reachable_locations_capped, Hreach.
Qed.

Lemma update_user_buffer_bounds_witness :
  let self := RuleBased._update_user_buffer (clock_at 0) RuleBased.init
                "tourist" (located_batch 0) in
  let self' := RuleBased._update_user_buffer (clock_at (RuleBased.hours 25))
                 self "tourist" (located_batch 0) in
  reachable self /\
  (exists b,
     RuleBased.user_data_buffer self' !! "tourist" = Some b /\
     Forall (fun item =>
               RuleBased.hours 25 - RuleBased.h_timestamp item
               < RuleBased.hours 24)
            (RuleBased.data_history b)) /\
  locations_capped self'.
Proof.
  cbv zeta.
  assert (H : reachable (RuleBased._update_user_buffer (clock_at 0)
                           RuleBased.init "tourist" (located_batch 0))).
  { apply reachable_update, reachable_init. }
  split; [exact H|].
  exact (update_user_buffer_bounds (clock_at (RuleBased.hours 25)) _
           "tourist" (located_batch 0) H).
Defined.

(** ** Further properties *)

Section DistressCount.

Import RuleBased.

Variable _check_prolonged_inactivity : system -> string -> float -> bool.
Variable _check_erratic_movement : system -> string -> bool.
Variable _check_unusual_location : system -> string -> location -> bool.
Variable _check_signal_loss_pattern : system -> string -> bool.

(** The confidence disjunct of the trigger rule never decides: no single
    increment exceeds 0.5, so an alert is emitted exactly when two or more
    indicators hold. *)
Theorem distress_alert_iff_two_indicators
    (self : system) (now : timestamp) (user_id : string) (data : sensor_data)
    (th : distress_thresholds) :
  th_distress (detection_thresholds self) = Some th ->
  (exists a,
     _detect_distress_rule_based _check_prolonged_inactivity
       _check_erratic_movement _check_unusual_location
       _check_signal_loss_pattern self now user_id data = Ok (Some a)) <->
  (2 <= DistressSpec.count
          (evaluated_indicators _check_prolonged_inactivity
             _check_erratic_movement _check_unusual_location
             _check_signal_loss_pattern self th user_id data))%nat.
Proof.
  intros Hth.
  unfold _detect_distress_rule_based, distress_indicators,
    evaluated_indicators.
  rewrite Hth. cbn [Py.getitem mbind result_bind Py.bind].
  destruct (_check_prolonged_inactivity self user_id _),
    (_check_erratic_movement self user_id),
    (_check_signal_loss_pattern self user_id),
    (sd_location data) as [loc|];
    try destruct (_check_unusual_location self user_id loc);
    vm_compute;
    (split;
     [ intros [a Ha]; first [discriminate Ha | repeat constructor]
     | intros Hle; first [eexists; reflexivity | exfalso; lia] ]).
Qed.

End DistressCount.

(** Inactivity together with erratic movement emits an alert. *)
Lemma distress_alert_iff_two_indicators_witness :
  let self := RuleBased.initialize RuleBased.init in
  RuleBased.th_distress (RuleBased.detection_thresholds self)
  = Some (RuleBased.DistressThresholds 4.0 5 2.0 2.0) /\
  exists a,
    RuleBased._detect_distress_rule_based
      (fun _ _ _ => true) (fun _ _ => true) (fun _ _ _ => false)
      (fun _ _ => false) self 0 "tourist" (located_batch 0) = Ok (Some a).
Proof.
  split; [reflexivity|].
  apply (proj2 (distress_alert_iff_two_indicators
                  (fun _ _ _ => true) (fun _ _ => true) (fun _ _ _ => false)
                  (fun _ _ => false)
                  (RuleBased.initialize RuleBased.init) 0 "tourist"
                  (located_batch 0)
                  (RuleBased.DistressThresholds 4.0 5 2.0 2.0) eq_refl)).
  cbn. lia.
Defined.

(** A single indicator, here an unusual location, emits nothing. *)
Example single_indicator_no_alert :
  RuleBased._detect_distress_rule_based
    (fun _ _ _ => false) (fun _ _ => false) (fun _ _ _ => true)
    (fun _ _ => false) (RuleBased.initialize RuleBased.init) 0 "tourist"
    (located_batch 0) = Ok None.
Proof. vm_compute. reflexivity. Qed.

Lemma add_zone_ids_consecutive_witness :
  RedZone.z_id <$> RedZone.initialize
  = Z.of_nat <$> seq 1 (length RedZone.initialize) /\
  RedZone.z_id <$> (RedZone.add_zone RedZone.initialize triangle_zone_data).1
  = [1; 2; 3; 4; 5].
Proof.
  split; [reflexivity|].
  exact (add_zone_ids_consecutive RedZone.initialize triangle_zone_data
           eq_refl).
Defined.

Section FallPattern.

Import RuleBased.

Lemma forallb_slice (f : float -> bool) (l : list float) (i j : nat) :
  forallb f (slice l i j) = true <->
  forall k g, (i <= k < j)%nat -> l !! k = Some g -> f g = true.
Proof.
  unfold slice. rewrite forallb_forall. split.
  - intros H k g Hk Hg. apply H, list_elem_of_In, list_elem_of_lookup.
    exists (k - i)%nat. apply lookup_take_Some. split; [|lia].
    rewrite lookup_drop. replace (i + (k - i))%nat with k by lia. exact Hg.
  - intros H g Hin.
    apply list_elem_of_In, list_elem_of_lookup in Hin as [k Hk].
    apply lookup_take_Some in Hk as [Hk Hlt]. rewrite lookup_drop in Hk.
    apply (H (i + k)%nat g); [lia | exact Hk].
Qed.

Lemma existsb_slice (f : float -> bool) (l : list float) (i j : nat) :
  existsb f (slice l i j) = true <->
  exists k g, (i <= k < j)%nat /\ l !! k = Some g /\ f g = true.
Proof.
  unfold slice. rewrite existsb_exists. split.
  - intros (g & Hin & Hg).
    apply list_elem_of_In, list_elem_of_lookup in Hin as [k Hk].
    apply lookup_take_Some in Hk as [Hk Hlt]. rewrite lookup_drop in Hk.
    exists (i + k)%nat, g. split; [lia|]. split; [exact Hk | exact Hg].
  - intros (k & g & Hk & Hl & Hg). exists g. split; [|exact Hg].
    apply list_elem_of_In, list_elem_of_lookup.
    exists (k - i)%nat. apply lookup_take_Some. split; [|lia].
    rewrite lookup_drop. replace (i + (k - i))%nat with k by lia. exact Hl.
Qed.

Lemma fall_pattern_at_spec th (magnitudes : list float) (i : nat) :
  fall_pattern_at th magnitudes i = true <->
  three_phase_match th magnitudes i.
Proof.
  unfold fall_pattern_at, three_phase_match.
  rewrite <- forallb_slice, <- existsb_slice, <- forallb_slice.
  rewrite <- Nat.ltb_lt.
  destruct (forallb _ (slice magnitudes i (i + 3)));
    destruct (existsb _ (slice magnitudes (i + 3) (i + 5)));
    destruct (i + 10 <? length magnitudes)%nat;
    destruct (forallb _ (slice magnitudes (i + 5) (i + 10)));
    intuition congruence.
Qed.

Lemma fall_scan_spec th (magnitudes : list float) (offsets : list nat) :
  fall_scan th magnitudes offsets = true <->
  exists i, i ∈ offsets /\ fall_pattern_at th magnitudes i = true.
Proof.
  induction offsets as [|i rest IH]; cbn [fall_scan].
  - split; [discriminate|]. intros (i & Hin & _). inversion Hin.
  - destruct (fall_pattern_at th magnitudes i) eqn:Hi.
    + split; [|reflexivity]. intros _. exists i. split; [left | exact Hi].
    + rewrite IH. split.
      * intros (k & Hk & Hp). exists k. split; [right; exact Hk | exact Hp].
      * intros (k & Hk & Hp). apply elem_of_cons in Hk as [->|Hk].
        -- congruence.
        -- exists k. auto.
Qed.

End FallPattern.

(** The fall detector reports a fall exactly when its magnitude series
    holds the three-phase pattern at some offset; the alert is then a
    [fall_detected] one of critical priority and confidence 0.75. *)
Theorem fall_alert_iff_three_phase_match {libm : RuleBased.Libm}
    (self : RuleBased.system) (now : RuleBased.timestamp) (user_id : string)
    (imu_data : list RuleBased.imu_sample)
    (th : RuleBased.fall_thresholds) (magnitudes : list float) :
  RuleBased.th_fall (RuleBased.detection_thresholds self) = Some th ->
  RuleBased.magnitudes_of imu_data = Ok magnitudes ->
  ((exists i, three_phase_match th magnitudes i) ->
   exists a,
     RuleBased._detect_fall_rule_based self now user_id imu_data = Ok (Some a) /\
     RuleBased.a_alert_type a = RuleBased.fall_detected /\
     RuleBased.a_priority a = RuleBased.critical /\
     RuleBased.a_confidence a = 0.75%float) /\
  ((forall i, ~ three_phase_match th magnitudes i) ->
   RuleBased._detect_fall_rule_based self now user_id imu_data = Ok None).
Proof.
  intros Hth Hms. pose proof (magnitudes_of_length _ _ Hms) as Hlen.
  unfold RuleBased._detect_fall_rule_based.
  rewrite Hth, Hms. cbn [Py.getitem mbind result_bind Py.bind].
  split.
  - intros (i & Hi).
    assert (Hroom : (i + 10 < length magnitudes)%nat) by apply Hi.
    replace (length imu_data <? 10)%nat with false
      by (symmetry; apply Nat.ltb_ge; lia).
    assert (Hscan : RuleBased.fall_scan th magnitudes
                      (seq 0 (length magnitudes - 5)) = true).
    { apply fall_scan_spec. exists i. split.
      - apply list_elem_of_In, in_seq. lia.
      - apply fall_pattern_at_spec, Hi. }
    rewrite Hscan. destruct magnitudes as [|m ms]; [cbn in Hroom; lia|].
    cbn [Py.try_except]. eexists. repeat split.
  - intros Hnone.
    destruct (length imu_data <? 10)%nat; [reflexivity|].
    destruct (RuleBased.fall_scan th magnitudes _) eqn:Hscan; [|reflexivity].
    apply fall_scan_spec in Hscan as (i & _ & Hi).
    apply fall_pattern_at_spec in Hi. destruct (Hnone i Hi).
Qed.

Lemma fall_alert_iff_three_phase_match_witness :
  let self := RuleBased.initialize RuleBased.init in
  let imu_data := ten_sample_fall ++ [sample_of_magnitude 1] in
  exists a,
    RuleBased._detect_fall_rule_based (libm := rounded_product)
      self 0 "tourist" imu_data = Ok (Some a) /\
    RuleBased.a_alert_type a = RuleBased.fall_detected /\
    RuleBased.a_priority a = RuleBased.critical /\
    RuleBased.a_confidence a = 0.75%float.
Proof.
  cbv zeta.
  apply (proj1 (fall_alert_iff_three_phase_match (libm := rounded_product)
                  (RuleBased.initialize RuleBased.init) 0 "tourist"
                  (ten_sample_fall ++ [sample_of_magnitude 1])
                  (RuleBased.FallThresholds 0.5 2.0 15.0 0.3 2.0 3.0)
                  [1; 1; 1; 25; 1; 1; 1; 1; 1; 1; 1]%float
                  eq_refl eq_refl)).
  exists 0%nat. apply fall_pattern_at_spec. vm_compute. reflexivity.
Defined.

(** ** The order on floats *)

Section FloatOrder.

Ltac sf_cases :=
  repeat match goal with
  | |- context [Z.compare ?a ?b] => destruct (Z.compare_spec a b); subst
  | H : context [Z.compare ?a ?b] |- _ => destruct (Z.compare_spec a b); subst
  | |- context [Pos.compare ?a ?b] => destruct (Pos.compare_spec a b); subst
  | H : context [Pos.compare ?a ?b] |- _ =>
      destruct (Pos.compare_spec a b); subst
  end;
  cbn in *; try congruence; try lia.

Lemma SFcompare_antisym (x y : spec_float) (c : comparison) :
  SFcompare x y = Some c -> SFcompare y x = Some (CompOpp c).
Proof.
  destruct x as [[]|[]| |[] m1 e1], y as [[]|[]| |[] m2 e2]; cbn;
    change (Pos.compare_cont Eq) with Pos.compare;
    intros H; try discriminate; try (injection H as <-; reflexivity);
    injection H as <-; f_equal; sf_cases.
Qed.

Lemma SFcompare_trans_lt (x y z : spec_float) :
  SFcompare x y = Some Lt -> SFcompare y z = Some Lt ->
  SFcompare x z = Some Lt.
Proof.
  destruct x as [[]|[]| |[] m1 e1], y as [[]|[]| |[] m2 e2],
    z as [[]|[]| |[] m3 e3]; cbn;
    change (Pos.compare_cont Eq) with Pos.compare;
    intros H1 H2; try discriminate; try reflexivity;
    f_equal; injection H1 as H1; injection H2 as H2; sf_cases.
Qed.

Lemma SFcompare_trans_eq (x y z : spec_float) (c : comparison) :
  SFcompare x y = Some Eq -> SFcompare y z = Some c ->
  SFcompare x z = Some c.
Proof.
  destruct x as [[]|[]| |[] m1 e1], y as [[]|[]| |[] m2 e2],
    z as [[]|[]| |[] m3 e3]; cbn;
    change (Pos.compare_cont Eq) with Pos.compare;
    intros H1 H2; try discriminate; try exact H2;
    injection H1 as H1; injection H2 as <-; f_equal; sf_cases.
Qed.

Lemma SFcompare_total (x y : spec_float) :
  SFcompare x x = Some Eq -> SFcompare y y = Some Eq ->
  exists c, SFcompare x y = Some c.
Proof.
  destruct x as [[]|[]| |[] m1 e1], y as [[]|[]| |[] m2 e2]; cbn;
    intros H1 H2; try discriminate; eauto.
Qed.

Lemma lt_fcompare (a b : float) : Py.lt a b = true <-> fcompare a b = Some Lt.
Proof.
  unfold Py.lt, fcompare. rewrite FloatAxioms.ltb_spec. unfold SFltb.
  destruct (SFcompare _ _) as [[]|]; split; congruence.
Qed.

Lemma le_fcompare (a b : float) :
  Py.le a b = true <-> fcompare a b = Some Lt \/ fcompare a b = Some Eq.
Proof.
  unfold Py.le, fcompare. rewrite FloatAxioms.leb_spec. unfold SFleb.
  destruct (SFcompare _ _) as [[]|]; split; intuition congruence.
Qed.

Lemma eq_fcompare (a b : float) : Py.eq a b = true <-> fcompare a b = Some Eq.
Proof.
  unfold Py.eq, fcompare. rewrite FloatAxioms.eqb_spec. unfold SFeqb.
  destruct (SFcompare _ _) as [[]|]; split; congruence.
Qed.

Lemma ordered_fcompare (a : float) :
  PyNum.ordered a = true <-> fcompare a a = Some Eq.
Proof. apply eq_fcompare. Qed.

Lemma fcompare_ordered_l (a b : float) (c : comparison) :
  fcompare a b = Some c -> PyNum.ordered a = true.
Proof.
  intros H. apply ordered_fcompare. revert H. unfold fcompare.
  destruct (Prim2SF a) as [[]|[]| |[] m e], (Prim2SF b) as [[]|[]| |[] m' e'];
    cbn; try discriminate; intros _; try reflexivity;
    rewrite Z.compare_refl;
    change (Pos.compare_cont Eq) with Pos.compare;
    rewrite Pos.compare_refl; reflexivity.
Qed.

Lemma fcompare_ordered_r (a b : float) (c : comparison) :
  fcompare a b = Some c -> PyNum.ordered b = true.
Proof.
  intros H. apply SFcompare_antisym in H. exact (fcompare_ordered_l _ _ _ H).
Qed.

Lemma lt_not_le (a b : float) : Py.lt a b = true -> Py.le b a = false.
Proof.
  intros H. apply lt_fcompare in H. apply SFcompare_antisym in H.
  apply not_true_is_false. intros Hle. apply le_fcompare in Hle.
  unfold fcompare in Hle. rewrite H in Hle. cbn in Hle.
  destruct Hle; congruence.
Qed.

Lemma le_not_lt (a b : float) : Py.le a b = true -> Py.lt b a = false.
Proof.
  intros H. destruct (Py.lt b a) eqn:E; [|reflexivity].
  apply lt_not_le in E. congruence.
Qed.

Lemma lt_le (a b : float) : Py.lt a b = true -> Py.le a b = true.
Proof. intros H. apply lt_fcompare in H. apply le_fcompare. auto. Qed.

Lemma le_refl (a : float) : PyNum.ordered a = true -> Py.le a a = true.
Proof. intros H. apply ordered_fcompare in H. apply le_fcompare. auto. Qed.

Lemma le_ordered_l (a b : float) : Py.le a b = true -> PyNum.ordered a = true.
Proof.
  intros H. apply le_fcompare in H.
  destruct H as [H|H]; exact (fcompare_ordered_l _ _ _ H).
Qed.

Lemma le_ordered_r (a b : float) : Py.le a b = true -> PyNum.ordered b = true.
Proof.
  intros H. apply le_fcompare in H.
  destruct H as [H|H]; exact (fcompare_ordered_r _ _ _ H).
Qed.

Lemma fcompare_lt_eq (a b c : float) :
  fcompare a b = Some Lt -> fcompare b c = Some Eq -> fcompare a c = Some Lt.
Proof.
  unfold fcompare. intros H1 H2.
  apply SFcompare_antisym in H1, H2. cbn in H1, H2.
  pose proof (SFcompare_trans_eq _ _ _ _ H2 H1) as H.
  apply SFcompare_antisym in H. exact H.
Qed.

Lemma le_trans (a b c : float) :
  Py.le a b = true -> Py.le b c = true -> Py.le a c = true.
Proof.
  intros H1 H2. apply le_fcompare in H1, H2. apply le_fcompare.
  destruct H1 as [H1|H1], H2 as [H2|H2].
  - left. exact (SFcompare_trans_lt _ _ _ H1 H2).
  - left. exact (fcompare_lt_eq _ _ _ H1 H2).
  - left. exact (SFcompare_trans_eq _ _ _ _ H1 H2).
  - right. exact (SFcompare_trans_eq _ _ _ _ H1 H2).
Qed.

Lemma lt_le_trans (a b c : float) :
  Py.lt a b = true -> Py.le b c = true -> Py.lt a c = true.
Proof.
  intros H1 H2. apply lt_fcompare in H1. apply le_fcompare in H2.
  apply lt_fcompare. destruct H2 as [H2|H2].
  - exact (SFcompare_trans_lt _ _ _ H1 H2).
  - exact (fcompare_lt_eq _ _ _ H1 H2).
Qed.

Lemma le_lt_trans (a b c : float) :
  Py.le a b = true -> Py.lt b c = true -> Py.lt a c = true.
Proof.
  intros H1 H2. apply le_fcompare in H1. apply lt_fcompare in H2.
  apply lt_fcompare. destruct H1 as [H1|H1].
  - exact (SFcompare_trans_lt _ _ _ H1 H2).
  - exact (SFcompare_trans_eq _ _ _ _ H1 H2).
Qed.

(** On floats that are not NaN the order is total. *)
Lemma not_lt_le (a b : float) :
  PyNum.ordered a = true -> PyNum.ordered b = true ->
  Py.lt a b = false -> Py.le b a = true.
Proof.
  intros Ha Hb Hlt. apply ordered_fcompare in Ha, Hb.
  destruct (SFcompare_total _ _ Ha Hb) as [c Hc].
  apply le_fcompare. pose proof (SFcompare_antisym _ _ _ Hc) as Hc'.
  unfold fcompare. rewrite Hc'. destruct c; cbn; auto.
  assert (Py.lt a b = true) by (apply lt_fcompare; exact Hc). congruence.
Qed.

End FloatOrder.

(** ** Ray casting beyond the polygon *)

Section RayBeyond.

Variables x y : float.

(** A condition on vertices, given as [(lng, lat)], under which no edge
    between two of them passes the three comparisons of the loop body. *)
Variable ok : float -> float -> Prop.
Hypothesis ok_inactive : forall ax ay bx by_,
  ok ax ay -> ok bx by_ ->
  Py.gt y (Py.min2 ay by_) && Py.le y (Py.max2 ay by_) &&
  Py.le x (Py.max2 ax bx) = false.

Variable poly : polygon.
Hypothesis poly_ok : forall v vx vy,
  v ∈ poly -> v_lng v = Some vx -> v_lat v = Some vy -> ok vx vy.

Lemma index_elem_of (i : nat) (v : vertex) :
  Py.index poly i = Ok v -> v ∈ poly.
Proof.
  unfold Py.index. destruct (nth_error poly i) as [w|] eqn:E; [|discriminate].
  intros [= <-]. apply list_elem_of_In. exact (nth_error_In _ _ E).
Qed.

Lemma getitem_Some {A} (o : option A) (a : A) :
  Py.getitem o = Ok a -> o = Some a.
Proof. destruct o; cbn; congruence. Qed.

Lemma ray_step_inactive (n i : nat) (st st' : ray_state) :
  ok (rs_p1x st) (rs_p1y st) ->
  ray_step x y poly n st i = Ok st' ->
  rs_inside st' = rs_inside st /\ ok (rs_p1x st') (rs_p1y st').
Proof.
  intros Hst H. unfold ray_step in H.
  apply bind_Ok in H as (v & Hv & H). apply index_elem_of in Hv.
  apply bind_Ok in H as (p2x & Hx & H). apply getitem_Some in Hx.
  apply bind_Ok in H as (p2y & Hy & H). apply getitem_Some in Hy.
  pose proof (poly_ok v p2x p2y Hv Hx Hy) as Hok.
  pose proof (ok_inactive _ _ _ _ Hst Hok) as Hin.
  apply bind_Ok in H as (st1 & H1 & H). injection H as <-. cbn.
  split; [|exact Hok].
  destruct (Py.gt y _); [|injection H1 as <-; reflexivity].
  destruct (Py.le y _); [|injection H1 as <-; reflexivity].
  destruct (Py.le x _); [discriminate Hin|injection H1 as <-; reflexivity].
Qed.

Lemma ray_loop_inactive (n : nat) (idxs : list nat) (st st' : ray_state) :
  ok (rs_p1x st) (rs_p1y st) ->
  ray_loop x y poly n st idxs = Ok st' ->
  rs_inside st' = rs_inside st.
Proof.
  revert st. induction idxs as [|i rest IH]; intros st Hst H; cbn in H.
  - injection H as <-. reflexivity.
  - apply bind_Ok in H as (st1 & H1 & H).
    destruct (ray_step_inactive _ _ _ _ Hst H1) as [Hin Hok].
    rewrite (IH _ Hok H). exact Hin.
Qed.

Lemma ray_casting_inactive (r : bool) :
  ray_casting y x poly = Ok r -> r = false.
Proof.
  unfold ray_casting. intros H.
  apply bind_Ok in H as (v0 & Hv & H). apply index_elem_of in Hv.
  apply bind_Ok in H as (p1x & Hx & H). apply getitem_Some in Hx.
  apply bind_Ok in H as (p1y & Hy & H). apply getitem_Some in Hy.
  apply bind_Ok in H as (st & Hloop & H). injection H as <-.
  apply ray_loop_inactive in Hloop; [exact Hloop|].
  cbn. exact (poly_ok v0 p1x p1y Hv Hx Hy).
Qed.

End RayBeyond.

Lemma min2_cases (a b : float) : Py.min2 a b = a \/ Py.min2 a b = b.
Proof. unfold Py.min2. destruct (Py.lt b a); auto. Qed.

Lemma max2_cases (a b : float) : Py.max2 a b = a \/ Py.max2 a b = b.
Proof. unfold Py.max2. destruct (Py.gt b a); auto. Qed.

(** Beyond the polygon on one of the three sides, the test never answers
    [True]. *)
Lemma ray_casting_beyond (lat lng : float) (poly : polygon) (r : bool) :
  (forall v a, v ∈ poly -> v_lat v = Some a -> Py.le lat a = false) \/
  (forall v a, v ∈ poly -> v_lat v = Some a -> Py.lt a lat = false) \/
  (forall v a, v ∈ poly -> v_lng v = Some a -> Py.le lng a = false) ->
  ray_casting lat lng poly = Ok r -> r = false.
Proof.
  intros [H|[H|H]].
  - apply (ray_casting_inactive lng lat (fun _ ay => Py.le lat ay = false)).
    + intros ax ay bx by_ Ha Hb.
      destruct (max2_cases ay by_) as [->| ->];
        [rewrite Ha | rewrite Hb];
        rewrite andb_false_r; reflexivity.
    + intros v vx vy Hv _ Hy. exact (H v vy Hv Hy).
  - apply (ray_casting_inactive lng lat (fun _ ay => Py.lt ay lat = false)).
    + intros ax ay bx by_ Ha Hb. unfold Py.gt.
      destruct (min2_cases ay by_) as [->| ->];
        [fold (Py.lt ay lat); rewrite Ha
        |fold (Py.lt by_ lat); rewrite Hb]; reflexivity.
    + intros v vx vy Hv _ Hy. exact (H v vy Hv Hy).
  - apply (ray_casting_inactive lng lat (fun ax _ => Py.le lng ax = false)).
    + intros ax ay bx by_ Ha Hb.
      destruct (max2_cases ax bx) as [->| ->];
        [rewrite Ha | rewrite Hb];
        rewrite andb_false_r; reflexivity.
    + intros v vx vy Hv Hx _. exact (H v vx Hv Hx).
Qed.

Lemma beyond_polygon_ray_casting (lat lng : float) (poly : polygon)
    (r : bool) :
  beyond_polygon lat lng poly -> ray_casting lat lng poly = Ok r -> r = false.
Proof.
  intros [H|[H|H]]; apply ray_casting_beyond.
  - left. intros v a Hv Ha. apply lt_not_le. exact (H v a Hv Ha).
  - right; left. intros v a Hv Ha. apply le_not_lt. exact (H v a Hv Ha).
  - right; right. intros v a Hv Ha. apply lt_not_le. exact (H v a Hv Ha).
Qed.

(** [GeoUtils.point_in_polygon] answers [False] for every point that lies
    north of all vertices, at or south of all vertices, or east of all
    vertices, on every polygon. *)
Theorem point_beyond_polygon_is_outside (lat lng : float) (poly : polygon) :
  beyond_polygon lat lng poly ->
  GeoUtils.point_in_polygon lat lng poly = Ok false.
Proof.
  intros H. unfold GeoUtils.point_in_polygon.
  destruct (length poly <? 3)%nat; [reflexivity|].
  destruct (ray_casting lat lng poly) as [r|e] eqn:E; [|reflexivity].
  rewrite (beyond_polygon_ray_casting _ _ _ _ H E). reflexivity.
Qed.

(** A point north of the seeded military zone. *)
Lemma point_beyond_polygon_is_outside_witness :
  let poly :=
    [ mk_vertex 26.9124 75.7873; mk_vertex 26.9150 75.7900;
      mk_vertex 26.9100 75.7950; mk_vertex 26.9080 75.7920 ] in
  beyond_polygon 27.0 75.79 poly /\
  GeoUtils.point_in_polygon 27.0 75.79 poly = Ok false.
Proof.
  cbv zeta.
  assert (H : beyond_polygon 27.0 75.79
                [ mk_vertex 26.9124 75.7873; mk_vertex 26.9150 75.7900;
                  mk_vertex 26.9100 75.7950; mk_vertex 26.9080 75.7920 ]).
  { left. intros v a Hv Ha.
    repeat (apply elem_of_cons in Hv as [->|Hv]);
      try (injection Ha as <-; reflexivity).
    inversion Hv. }
  split; [exact H|].
  exact (point_beyond_polygon_is_outside _ _ _ H).
Defined.

(** ** Zone store: points beyond every zone *)

Section ZonesBeyond.

Import RedZone.

Variables lat lng : float.

Lemma check_point_loop_beyond (zones : list zone) (r : bool) :
  Forall (fun z => beyond_polygon lat lng (z_coordinates z)) zones ->
  check_point_loop lat lng zones = Ok r -> r = false.
Proof.
  induction 1 as [|z zones Hz _ IH]; cbn; intros H.
  - congruence.
  - apply bind_Ok in H as (hit & Hhit & H).
    apply (beyond_polygon_ray_casting _ _ _ _ Hz) in Hhit. subst hit.
    exact (IH H).
Qed.

Lemma zone_info_loop_beyond (zones : list zone) (info : option zone_info) :
  Forall (fun z => beyond_polygon lat lng (z_coordinates z)) zones ->
  zone_info_loop lat lng zones = Ok info -> info = Some safe_area.
Proof.
  induction 1 as [|z zones Hz _ IH]; cbn; intros H.
  - congruence.
  - apply bind_Ok in H as (hit & Hhit & H).
    apply (beyond_polygon_ray_casting _ _ _ _ Hz) in Hhit. subst hit.
    exact (IH H).
Qed.

End ZonesBeyond.

(** A point that lies beyond every zone of the store (north of it, at or
    south of its southernmost vertex, or east of it) is never reported as a
    breach: [check_point_in_polygon] answers [False] and [get_zone_info]
    names no zone. *)
Theorem zones_beyond_point_no_breach
    (red_zones : list RedZone.zone) (lat lng : float) :
  Forall (fun z => beyond_polygon lat lng (RedZone.z_coordinates z))
         red_zones ->
  RedZone.check_point_in_polygon red_zones lat lng = Ok false /\
  (RedZone.get_zone_info red_zones lat lng = Ok (Some RedZone.safe_area) \/
   RedZone.get_zone_info red_zones lat lng = Ok None).
Proof.
  intros H. unfold RedZone.check_point_in_polygon, RedZone.get_zone_info.
  split.
  - destruct (RedZone.check_point_loop lat lng red_zones) as [r|e] eqn:E;
      [|reflexivity].
    rewrite (check_point_loop_beyond _ _ _ _ H E). reflexivity.
  - destruct (RedZone.zone_info_loop lat lng red_zones) as [i|e] eqn:E.
    + left. rewrite (zone_info_loop_beyond _ _ _ _ H E). reflexivity.
    + right. reflexivity.
Qed.

Ltac beyond_north :=
  left; intros v a Hv Ha;
  repeat (apply elem_of_cons in Hv as [->|Hv]);
  try (injection Ha as <-; reflexivity);
  inversion Hv.

(** A point north of all four seeded zones. *)
Lemma zones_beyond_point_no_breach_witness :
  Forall (fun z => beyond_polygon 29.0 75.0 (RedZone.z_coordinates z))
         RedZone.initialize /\
  RedZone.check_point_in_polygon RedZone.initialize 29.0 75.0 = Ok false.
Proof.
  assert (H : Forall (fun z => beyond_polygon 29.0 75.0
                                 (RedZone.z_coordinates z))
                     RedZone.initialize).
  { unfold RedZone.initialize.
    repeat (apply List.Forall_cons;
            [cbn [RedZone.z_coordinates]; beyond_north|]).
    apply List.Forall_nil. }
  split; [exact H|].
  exact (proj1 (zones_beyond_point_no_breach _ _ _ H)).
Defined.

(** ** Bounding boxes *)

Section Bounds.

Lemma min2_ordered (a b : float) :
  PyNum.ordered a = true -> PyNum.ordered b = true ->
  PyNum.ordered (Py.min2 a b) = true /\
  Py.le (Py.min2 a b) a = true /\ Py.le (Py.min2 a b) b = true.
Proof.
  intros Ha Hb. unfold Py.min2. destruct (Py.lt b a) eqn:E.
  - repeat split; [exact Hb | apply lt_le, E | apply le_refl, Hb].
  - repeat split; [exact Ha | apply le_refl, Ha | apply not_lt_le; assumption].
Qed.

Lemma max2_ordered (a b : float) :
  PyNum.ordered a = true -> PyNum.ordered b = true ->
  PyNum.ordered (Py.max2 a b) = true /\
  Py.le a (Py.max2 a b) = true /\ Py.le b (Py.max2 a b) = true.
Proof.
  intros Ha Hb. unfold Py.max2, Py.gt. fold (Py.lt a b).
  destruct (Py.lt a b) eqn:E.
  - repeat split; [exact Hb | apply lt_le, E | apply le_refl, Hb].
  - repeat split; [exact Ha | apply le_refl, Ha | apply not_lt_le; assumption].
Qed.

(** On a list without NaN, [min] is a lower bound and [max] an upper
    bound. *)
Lemma list_min_lower_bound (x : float) (l : list float) :
  Forall (fun a => PyNum.ordered a = true) (x :: l) ->
  Forall (fun a => Py.le (PyNum.list_min x l) a = true) (x :: l).
Proof.
  unfold PyNum.list_min. revert x.
  induction l as [|y l IH]; intros x H; cbn [fold_left].
  - constructor; [|constructor]. apply le_refl. inversion H; assumption.
  - apply Forall_cons in H as [Hx H]. pose proof H as H'.
    apply Forall_cons in H' as [Hy Hl].
    destruct (min2_ordered x y Hx Hy) as (Hm & Hmx & Hmy).
    assert (Hrec : Forall (fun a => PyNum.ordered a = true)
                          (Py.min2 x y :: l)) by (constructor; assumption).
    apply IH in Hrec. apply Forall_cons in Hrec as [Hmin Hrest].
    constructor; [exact (le_trans _ _ _ Hmin Hmx)|].
    constructor; [exact (le_trans _ _ _ Hmin Hmy)|exact Hrest].
Qed.

Lemma list_max_upper_bound (x : float) (l : list float) :
  Forall (fun a => PyNum.ordered a = true) (x :: l) ->
  Forall (fun a => Py.le a (PyNum.list_max x l) = true) (x :: l).
Proof.
  unfold PyNum.list_max. revert x.
  induction l as [|y l IH]; intros x H; cbn [fold_left].
  - constructor; [|constructor]. apply le_refl. inversion H; assumption.
  - apply Forall_cons in H as [Hx H]. pose proof H as H'.
    apply Forall_cons in H' as [Hy Hl].
    destruct (max2_ordered x y Hx Hy) as (Hm & Hmx & Hmy).
    assert (Hrec : Forall (fun a => PyNum.ordered a = true)
                          (Py.max2 x y :: l)) by (constructor; assumption).
    apply IH in Hrec. apply Forall_cons in Hrec as [Hmax Hrest].
    constructor; [exact (le_trans _ _ _ Hmx Hmax)|].
    constructor; [exact (le_trans _ _ _ Hmy Hmax)|exact Hrest].
Qed.

Lemma coordinates_of_well_formed (poly : polygon) :
  Forall well_formed_vertex poly ->
  exists lats lngs,
    GeoUtilsMore.coordinates_of v_lat poly = Ok lats /\
    GeoUtilsMore.coordinates_of v_lng poly = Ok lngs /\
    length lats = length poly /\ length lngs = length poly /\
    Forall (fun a => PyNum.ordered a = true) lats /\
    Forall (fun a => PyNum.ordered a = true) lngs /\
    (forall v a, v ∈ poly -> v_lat v = Some a -> a ∈ lats) /\
    (forall v a, v ∈ poly -> v_lng v = Some a -> a ∈ lngs).
Proof.
  induction 1 as [|v poly (lat & lng & -> & Hlat & Hlng) _
                   (lats & lngs & E1 & E2 & L1 & L2 & O1 & O2 & M1 & M2)].
  - exists [], []. repeat split; try constructor; intros v a Hv; inversion Hv.
  - exists (lat :: lats), (lng :: lngs). cbn. rewrite E1, E2. cbn.
    repeat split; try (f_equal; assumption); try (constructor; assumption).
    + intros w a Hw Ha. apply elem_of_cons in Hw as [->|Hw].
      * cbn in Ha. injection Ha as <-. left.
      * right. exact (M1 w a Hw Ha).
    + intros w a Hw Ha. apply elem_of_cons in Hw as [->|Hw].
      * cbn in Ha. injection Ha as <-. left.
      * right. exact (M2 w a Hw Ha).
Qed.

End Bounds.

Lemma bounding_box_well_formed (points : polygon) :
  Forall well_formed_vertex points -> points <> [] ->
  exists lat lats lng lngs,
    GeoUtilsMore.get_bounding_box points
    = Ok (GeoUtilsMore.BoundingBox
            (PyNum.list_min lat lats) (PyNum.list_max lat lats)
            (PyNum.list_min lng lngs) (PyNum.list_max lng lngs)) /\
    Forall (fun a => PyNum.ordered a = true) (lat :: lats) /\
    Forall (fun a => PyNum.ordered a = true) (lng :: lngs) /\
    (forall v a, v ∈ points -> v_lat v = Some a -> a ∈ lat :: lats) /\
    (forall v a, v ∈ points -> v_lng v = Some a -> a ∈ lng :: lngs).
Proof.
  intros Hwf Hne.
  destruct (coordinates_of_well_formed points Hwf)
    as (lats & lngs & E1 & E2 & L1 & L2 & O1 & O2 & M1 & M2).
  destruct points as [|p points]; [congruence|].
  destruct lats as [|lat lats]; [discriminate L1|].
  destruct lngs as [|lng lngs]; [discriminate L2|].
  exists lat, lats, lng, lngs. unfold GeoUtilsMore.get_bounding_box.
  rewrite E1, E2. cbn. auto.
Qed.

(** The bounding box of a non-empty list of points with complete
    coordinates, none of them NaN, encloses every one of the points. *)
Theorem bounding_box_encloses_points (points : polygon) :
  Forall well_formed_vertex points -> points <> [] ->
  exists bbox,
    GeoUtilsMore.get_bounding_box points = Ok bbox /\
    forall lat lng, mk_vertex lat lng ∈ points ->
      Py.le (GeoUtilsMore.min_lat bbox) lat = true /\
      Py.le lat (GeoUtilsMore.max_lat bbox) = true /\
      Py.le (GeoUtilsMore.min_lng bbox) lng = true /\
      Py.le lng (GeoUtilsMore.max_lng bbox) = true.
Proof.
  intros Hwf Hne.
  destruct (bounding_box_well_formed points Hwf Hne)
    as (la & las & ln & lns & E & O1 & O2 & M1 & M2).
  eexists. split; [exact E|]. intros lat lng Hin.
  cbn [GeoUtilsMore.min_lat GeoUtilsMore.max_lat GeoUtilsMore.min_lng
       GeoUtilsMore.max_lng].
  pose proof (M1 _ lat Hin eq_refl) as Hlat.
  pose proof (M2 _ lng Hin eq_refl) as Hlng.
  pose proof (list_min_lower_bound la las O1) as B1.
  pose proof (list_max_upper_bound la las O1) as B2.
  pose proof (list_min_lower_bound ln lns O2) as B3.
  pose proof (list_max_upper_bound ln lns O2) as B4.
  rewrite Forall_forall in B1, B2, B3, B4. auto.
Qed.

Lemma bounding_box_encloses_points_witness :
  let square :=
    [mk_vertex 0 0; mk_vertex 0 1; mk_vertex 1 1; mk_vertex 1 0] in
  exists bbox,
    GeoUtilsMore.get_bounding_box square = Ok bbox /\
    forall lat lng, mk_vertex lat lng ∈ square ->
      Py.le (GeoUtilsMore.min_lat bbox) lat = true /\
      Py.le lat (GeoUtilsMore.max_lat bbox) = true /\
      Py.le (GeoUtilsMore.min_lng bbox) lng = true /\
      Py.le lng (GeoUtilsMore.max_lng bbox) = true.
Proof.
  cbv zeta. apply bounding_box_encloses_points; [|discriminate].
  repeat (apply List.Forall_cons;
          [eexists _, _; split; [reflexivity|split; reflexivity]|]).
  apply List.Forall_nil.
Defined.

(** A point that [GeoUtils.point_in_polygon] reports inside a polygon with
    complete coordinates, none of them NaN, lies within the polygon's
    bounding box on the south, north and east sides. *)
Theorem point_in_polygon_within_bounding_box
    (lat lng : float) (poly : polygon) :
  Forall well_formed_vertex poly ->
  GeoUtils.point_in_polygon lat lng poly = Ok true ->
  exists bbox,
    GeoUtilsMore.get_bounding_box poly = Ok bbox /\
    Py.lt (GeoUtilsMore.min_lat bbox) lat = true /\
    Py.le lat (GeoUtilsMore.max_lat bbox) = true /\
    Py.le lng (GeoUtilsMore.max_lng bbox) = true.
Proof.
  intros Hwf Hin.
  assert (Hne : poly <> []).
  { intros ->. discriminate Hin. }
  assert (Hray : ray_casting lat lng poly = Ok true).
  { unfold GeoUtils.point_in_polygon in Hin.
    destruct (length poly <? 3)%nat; [discriminate Hin|].
    destruct (ray_casting lat lng poly) as [[]|]; cbn in Hin; congruence. }
  destruct (bounding_box_well_formed poly Hwf Hne)
    as (la & las & ln & lns & E & O1 & O2 & M1 & M2).
  pose proof (list_min_lower_bound la las O1) as B1.
  pose proof (list_max_upper_bound la las O1) as B2.
  pose proof (list_max_upper_bound ln lns O2) as B4.
  rewrite Forall_forall in B1, B2, B4.
  eexists. split; [exact E|].
  cbn [GeoUtilsMore.min_lat GeoUtilsMore.max_lat GeoUtilsMore.max_lng].
  repeat split.
  - destruct (Py.lt (PyNum.list_min la las) lat) eqn:C; [reflexivity|].
    exfalso. enough (true = false) by discriminate.
    apply (ray_casting_beyond lat lng poly); [|exact Hray].
    right; left. intros v a Hv Ha.
    destruct (Py.lt a lat) eqn:Ca; [|reflexivity].
    pose proof (le_lt_trans _ _ _ (B1 a (M1 v a Hv Ha)) Ca). congruence.
  - destruct (Py.le lat (PyNum.list_max la las)) eqn:C; [reflexivity|].
    exfalso. enough (true = false) by discriminate.
    apply (ray_casting_beyond lat lng poly); [|exact Hray].
    left. intros v a Hv Ha.
    destruct (Py.le lat a) eqn:Ca; [|reflexivity].
    pose proof (le_trans _ _ _ Ca (B2 a (M1 v a Hv Ha))). congruence.
  - destruct (Py.le lng (PyNum.list_max ln lns)) eqn:C; [reflexivity|].
    exfalso. enough (true = false) by discriminate.
    apply (ray_casting_beyond lat lng poly); [|exact Hray].
    right; right. intros v a Hv Ha.
    destruct (Py.le lng a) eqn:Ca; [|reflexivity].
    pose proof (le_trans _ _ _ Ca (B4 a (M2 v a Hv Ha))). congruence.
Qed.

Lemma point_in_polygon_within_bounding_box_witness :
  let square :=
    [mk_vertex 0 0; mk_vertex 0 1; mk_vertex 1 1; mk_vertex 1 0] in
  exists bbox,
    GeoUtilsMore.get_bounding_box square = Ok bbox /\
    Py.lt (GeoUtilsMore.min_lat bbox) 0.5 = true /\
    Py.le 0.5 (GeoUtilsMore.max_lat bbox) = true /\
    Py.le 0.5 (GeoUtilsMore.max_lng bbox) = true.
Proof.
  cbv zeta. apply point_in_polygon_within_bounding_box.
  - repeat (apply List.Forall_cons;
            [eexists _, _; split; [reflexivity|split; reflexivity]|]).
    apply List.Forall_nil.
  - vm_compute. reflexivity.
Defined.

(** ** Zone store: nearby zones *)

Section Nearby.

Import RedZone.

Lemma insert_by_distance_perm (x : nearby_zone) (l : list nearby_zone) :
  insert_by_distance x l ≡ₚ x :: l.
Proof.
  induction l as [|y l IH]; cbn [insert_by_distance]; [reflexivity|].
  destruct (Py.lt (nz_distance_km y) (nz_distance_km x)); [|reflexivity].
  rewrite IH. apply Permutation_swap.
Qed.

Lemma sort_by_distance_perm (l : list nearby_zone) :
  sort_by_distance l ≡ₚ l.
Proof.
  unfold sort_by_distance. induction l as [|x l IH]; cbn; [reflexivity|].
  rewrite insert_by_distance_perm, IH. reflexivity.
Qed.

Lemma insert_by_distance_sorted (x : nearby_zone) (l : list nearby_zone) :
  PyNum.ordered (nz_distance_km x) = true ->
  Forall (fun y => PyNum.ordered (nz_distance_km y) = true) l ->
  distance_sorted l -> distance_sorted (insert_by_distance x l).
Proof.
  unfold distance_sorted. intros Hx Hl Hs.
  induction Hs as [|y l Hs IH Hy]; cbn [insert_by_distance].
  - constructor; constructor.
  - apply Forall_cons in Hl as [Hoy Hl].
    destruct (Py.lt (nz_distance_km y) (nz_distance_km x)) eqn:E.
    + constructor; [exact (IH Hl)|].
      rewrite insert_by_distance_perm. constructor; [apply lt_le, E|exact Hy].
    + assert (Hxy : Py.le (nz_distance_km x) (nz_distance_km y) = true)
        by (apply not_lt_le; assumption).
      constructor; [constructor; assumption|].
      constructor; [exact Hxy|].
      rewrite Forall_forall in Hy |- *. intros z Hz.
      exact (le_trans _ _ _ Hxy (Hy z Hz)).
Qed.

Lemma sort_by_distance_sorted (l : list nearby_zone) :
  Forall (fun y => PyNum.ordered (nz_distance_km y) = true) l ->
  distance_sorted (sort_by_distance l).
Proof.
  unfold sort_by_distance. induction 1 as [|x l Hx Hl IH]; cbn.
  - constructor.
  - apply insert_by_distance_sorted; [exact Hx| |exact IH].
    fold (sort_by_distance l). rewrite sort_by_distance_perm. exact Hl.
Qed.

Variable _calculate_distance : float -> float -> float -> float -> result float.
Variables lat lng radius_km : float.

Let listed := listed_nearby _calculate_distance lat lng radius_km.

Lemma nearby_loop_listed (all_zones zones : list zone)
    (acc l : list nearby_zone) :
  zones ⊆ all_zones ->
  Forall (listed all_zones) acc ->
  nearby_loop _calculate_distance lat lng radius_km zones acc = Ok l ->
  Forall (listed all_zones) l /\ (length l <= length acc + length zones)%nat.
Proof.
  revert acc. induction zones as [|z zones IH]; intros acc Hsub Hacc H;
    cbn [nearby_loop] in H.
  - injection H as <-. split; [exact Hacc|lia].
  - apply bind_Ok in H as (c & Hc & H). apply bind_Ok in H as (d & Hd & H).
    assert (Hz : z ∈ all_zones) by (apply Hsub; left).
    assert (Hrest : zones ⊆ all_zones).
    { intros w Hw. apply Hsub. right. exact Hw. }
    destruct (Py.le d radius_km) eqn:E; cbv iota in H.
    + apply IH in H as [H1 H2]; [|exact Hrest|].
      * split; [exact H1|]. rewrite length_app in H2. cbn in *. lia.
      * apply Forall_app. split; [exact Hacc|].
        constructor; [|constructor]. split; [exact E|].
        exists z. split; [exact Hz|]. exists c. auto.
    + apply IH in H as [H1 H2]; [|exact Hrest|exact Hacc].
      split; [exact H1|]. cbn. lia.
Qed.

Lemma nearby_loop_kept (zones : list zone) (acc l : list nearby_zone) :
  nearby_loop _calculate_distance lat lng radius_km zones acc = Ok l ->
  exists kept added,
    l = acc ++ added /\
    kept `sublist_of` zones /\
    Forall2 (fun zone e =>
               nearby_entry _calculate_distance lat lng zone
                 (nz_distance_km e) e) kept added.
Proof.
  revert acc. induction zones as [|z zones IH]; intros acc H;
    cbn [nearby_loop] in H.
  - injection H as <-. exists [], []. rewrite app_nil_r.
    split; [reflexivity|]. split; constructor.
  - apply bind_Ok in H as (c & Hc & H). apply bind_Ok in H as (d & Hd & H).
    destruct (Py.le d radius_km); cbv iota in H;
      apply IH in H as (kept & added & -> & Hsub & Hall).
    + exists (z :: kept), (NearbyZone (z_id z) (z_name z) (z_type z)
                             (z_risk_level z) d (z_coordinates z) :: added).
      split; [rewrite <- app_assoc; reflexivity|].
      split; [constructor; exact Hsub|].
      constructor; [|exact Hall]. exists c. auto.
    + exists kept, added. split; [reflexivity|].
      split; [constructor; exact Hsub|exact Hall].
Qed.

End Nearby.

(** [get_nearby_zones] always returns a list; the list is in ascending
    order of distance, and each entry is the record of a zone of the store
    whose centre lies within the radius, with that distance.  It holds at
    most one entry per zone of the store: its entries are, up to their
    order, those of a sublist [kept] of the store, one for each zone of
    [kept]. *)
Theorem nearby_zones_sorted_within_radius
    (_calculate_distance : float -> float -> float -> float -> result float)
    (red_zones : list RedZone.zone) (lat lng radius_km : float) :
  exists l,
    RedZone.get_nearby_zones _calculate_distance red_zones lat lng radius_km
    = Ok l /\
    distance_sorted l /\
    (length l <= length red_zones)%nat /\
    Forall (listed_nearby _calculate_distance lat lng radius_km red_zones) l /\
    exists kept entries,
      kept `sublist_of` red_zones /\
      Forall2 (fun zone e =>
                 nearby_entry _calculate_distance lat lng zone
                   (RedZone.nz_distance_km e) e) kept entries /\
      l ≡ₚ entries.
Proof.
  unfold RedZone.get_nearby_zones, RedZone.nearby_zones_sorted.
  destruct (RedZone.nearby_loop _ lat lng radius_km red_zones [])
    as [acc|e] eqn:E; cbn.
  - eexists. split; [reflexivity|].
    destruct (nearby_loop_listed _calculate_distance lat lng radius_km
                red_zones red_zones [] acc) as [Hl Hlen];
      [intros z Hz; exact Hz | constructor | exact E |].
    split; [|split; [|split]].
    + apply sort_by_distance_sorted.
      rewrite Forall_forall in Hl |- *. intros y Hy.
      destruct (Hl y Hy) as [Hle _]. exact (le_ordered_l _ _ Hle).
    + rewrite sort_by_distance_perm. exact Hlen.
    + rewrite sort_by_distance_perm. exact Hl.
    + destruct (nearby_loop_kept _calculate_distance lat lng radius_km
                  red_zones [] acc E) as (kept & added & -> & Hsub & Hall).
      exists kept, added. split; [exact Hsub|]. split; [exact Hall|].
      apply sort_by_distance_perm.
  - exists []. split; [reflexivity|]. split; [constructor|].
    split; [cbn; lia|]. split; [constructor|].
    exists [], []. split; [apply sublist_nil_l|].
    split; [constructor|reflexivity].
Qed.

(** ** Zone store: what a breach report means *)

Section BreachReport.

Import RedZone.

Variables lat lng : float.

Lemma zone_info_loop_outcome (zones : list zone) (info : option zone_info) :
  zone_info_loop lat lng zones = Ok info ->
  (info = Some safe_area /\ all_outside lat lng zones) \/
  (exists pre zone post,
     zones = pre ++ zone :: post /\ all_outside lat lng pre /\
     _point_in_polygon_ray_casting lat lng (z_coordinates zone) = Ok true /\
     info = Some (breach_info zone)).
Proof.
  revert info. induction zones as [|z zones IH]; intros info H;
    cbn [zone_info_loop] in H.
  - injection H as <-. left. split; [reflexivity|constructor].
  - apply bind_Ok in H as (hit & Hhit & H). destruct hit.
    + injection H as <-. right. exists [], z, zones.
      repeat split; [constructor|exact Hhit].
    + destruct (IH _ H) as [[-> Hout]|(pre & w & post & -> & Hpre & Hw & ->)].
      * left. split; [reflexivity|]. constructor; assumption.
      * right. exists (z :: pre), w, post.
        repeat split; [constructor; assumption|exact Hw].
Qed.

Lemma zone_info_loop_from_store (zones : list zone) (info : zone_info) :
  zone_info_loop lat lng zones = Ok (Some info) ->
  info = safe_area \/ exists zone, zone ∈ zones /\ info = breach_info zone.
Proof.
  intros H. apply zone_info_loop_outcome in H
    as [[[= ->] _]|(pre & w & post & -> & _ & _ & [= ->])].
  - left. reflexivity.
  - right. exists w. split; [|reflexivity].
    apply elem_of_app. right. left.
Qed.

Lemma check_point_loop_zone_info_loop (zones : list zone) :
  match check_point_loop lat lng zones with
  | Ok true =>
      exists info, zone_info_loop lat lng zones = Ok (Some info) /\
                   zi_breach_detected info = true
  | Ok false => zone_info_loop lat lng zones = Ok (Some safe_area)
  | Raise e => zone_info_loop lat lng zones = Raise e
  end.
Proof.
  induction zones as [|z zones IH]; cbn [check_point_loop zone_info_loop].
  - reflexivity.
  - destruct (_point_in_polygon_ray_casting lat lng (z_coordinates z))
      as [[]|e]; cbn [mbind result_bind Py.bind].
    + eexists. split; reflexivity.
    + exact IH.
    + reflexivity.
Qed.

End BreachReport.

(** [get_zone_info] has three outcomes: [None] after an error; the
    no-breach record, when the test answers [False] on every zone; or the
    record of the first zone of the list on which the test answers [True],
    the test having answered [False] on all zones before it. *)
Theorem get_zone_info_outcomes
    (red_zones : list RedZone.zone) (lat lng : float) :
  RedZone.get_zone_info red_zones lat lng = Ok None \/
  (RedZone.get_zone_info red_zones lat lng = Ok (Some RedZone.safe_area) /\
   all_outside lat lng red_zones) \/
  (exists pre zone post,
     red_zones = pre ++ zone :: post /\ all_outside lat lng pre /\
     RedZone._point_in_polygon_ray_casting lat lng
       (RedZone.z_coordinates zone) = Ok true /\
     RedZone.get_zone_info red_zones lat lng
     = Ok (Some (RedZone.breach_info zone))).
Proof.
  unfold RedZone.get_zone_info.
  destruct (RedZone.zone_info_loop lat lng red_zones) as [info|e] eqn:E;
    [|left; reflexivity].
  right.
  destruct (zone_info_loop_outcome _ _ _ _ E)
    as [[-> Hout]|(pre & w & post & Hz & Hpre & Hw & ->)].
  - left. split; [reflexivity|exact Hout].
  - right. exists pre, w, post. auto.
Qed.

(** The two breach queries agree: [check_point_in_polygon] answers [True]
    exactly when [get_zone_info] returns a record with [breach_detected]
    set. *)
Theorem breach_queries_agree
    (red_zones : list RedZone.zone) (lat lng : float) :
  RedZone.check_point_in_polygon red_zones lat lng = Ok true <->
  exists info,
    RedZone.get_zone_info red_zones lat lng = Ok (Some info) /\
    RedZone.zi_breach_detected info = true.
Proof.
  unfold RedZone.check_point_in_polygon, RedZone.get_zone_info.
  pose proof (check_point_loop_zone_info_loop lat lng red_zones) as H.
  destruct (RedZone.check_point_loop lat lng red_zones) as [[]|e].
  - destruct H as (info & -> & Hb). split; [|reflexivity].
    intros _. exists info. split; [reflexivity|exact Hb].
  - rewrite H. cbn. split; [discriminate|].
    intros (info & [= <-] & Hb). discriminate Hb.
  - rewrite H. cbn. split; [discriminate|].
    intros (info & Hi & _). discriminate Hi.
Qed.

(** ** Zone store: adding and removing *)

(** Once [remove_zone] has removed an identifier, [get_zone_info] never
    reports a zone with that identifier. *)
Theorem removed_zone_never_reported
    (red_zones : list RedZone.zone) (zone_id : Z) (lat lng : float)
    (info : RedZone.zone_info) :
  RedZone.get_zone_info (RedZone.remove_zone red_zones zone_id).1 lat lng
  = Ok (Some info) ->
  RedZone.zi_zone_id info <> Some zone_id.
Proof.
  unfold RedZone.get_zone_info. intros H.
  destruct (RedZone.zone_info_loop lat lng _) as [i|e] eqn:E;
    cbn in H; [|discriminate]. injection H as ->.
  apply zone_info_loop_from_store in E as [->|(z & Hz & ->)].
  - discriminate.
  - cbn. intros [= Hid]. revert Hz. rewrite <- Hid.
    cbn. intros Hz. apply list_elem_of_filter in Hz as [Hne _].
    apply Hne. reflexivity.
Qed.

(** After the seeded wildlife zone is removed, its centre is a safe
    area. *)
Lemma removed_zone_never_reported_witness :
  RedZone.get_zone_info (RedZone.remove_zone RedZone.initialize 2).1
    26.92 75.805 = Ok (Some RedZone.safe_area) /\
  RedZone.zi_zone_id RedZone.safe_area <> Some 2.
Proof.
  assert (H : RedZone.get_zone_info
                (RedZone.remove_zone RedZone.initialize 2).1 26.92 75.805
              = Ok (Some RedZone.safe_area)) by (vm_compute; reflexivity).
  split; [exact H|].
  exact (removed_zone_never_reported RedZone.initialize 2 26.92 75.805
           RedZone.safe_area H).
Defined.

(** Adding a zone and then removing the identifier it received gives back
    the store, provided no zone carried that identifier before. *)
Theorem add_then_remove_restores
    (red_zones : list RedZone.zone) (data : RedZone.zone_data) :
  (Z.of_nat (length red_zones) + 1) ∉ (RedZone.z_id <$> red_zones) ->
  (RedZone.remove_zone (RedZone.add_zone red_zones data).1
     (Z.of_nat (length red_zones) + 1)).1 = red_zones.
Proof.
  intros Hfresh. unfold RedZone.add_zone, RedZone.remove_zone. cbv zeta.
  destruct (length _ <? 3)%nat; cbn [fst].
  - apply remove_zone_absent, Hfresh.
  - rewrite filter_app, (remove_zone_absent _ _ Hfresh).
    rewrite filter_cons, decide_False by (cbn; intros H; apply H; reflexivity).
    rewrite filter_nil. apply app_nil_r.
Qed.

Lemma add_then_remove_restores_witness :
  (5 ∉ (RedZone.z_id <$> RedZone.initialize)) /\
  (RedZone.remove_zone
     (RedZone.add_zone RedZone.initialize triangle_zone_data).1 5).1
  = RedZone.initialize.
Proof.
  assert (H : (Z.of_nat (length RedZone.initialize) + 1)
              ∉ (RedZone.z_id <$> RedZone.initialize)).
  { cbn. intros Hin.
    repeat (apply elem_of_cons in Hin as [Hin|Hin]; [discriminate Hin|]).
    inversion Hin. }
  split; [exact H|].
  exact (add_then_remove_restores RedZone.initialize triangle_zone_data H).
Defined.

(** Where the precondition fails, removal takes the older zone too: after
    the duplicate identifier 4 has arisen, removing 4 leaves two zones. *)
Example remove_duplicate_id_removes_both :
  let removed := (RedZone.remove_zone RedZone.initialize 2).1 in
  let added := (RedZone.add_zone removed triangle_zone_data).1 in
  RedZone.z_name <$> (RedZone.remove_zone added 4).1
  = ["Military Zone Alpha"; "Border Security Zone"].
Proof. vm_compute. reflexivity. Qed.

(** ** Zone store: location validation *)

Section ValidateLocation.

Import RedZone.

Variable _calculate_distance : float -> float -> float -> float -> result float.
Variable format_1f : float -> string.

Lemma report_nearby_keeps (l : list nearby_zone) (r : validation) :
  let r' := report_nearby format_1f l r in
  vl_coordinates r' = vl_coordinates r /\
  vl_is_safe r' = vl_is_safe r /\
  vl_risk_level r' = vl_risk_level r /\
  vl_zone_info r' = vl_zone_info r /\
  (vl_nearby_zones r = [] -> vl_nearby_zones r' = l) /\
  (length (vl_warnings r) = length (vl_recommendations r) ->
   length (vl_warnings r') = length (vl_recommendations r')).
Proof.
  destruct l as [|c l]; cbn [report_nearby].
  - repeat split; auto.
  - cbv zeta.
    destruct (Py.lt (nz_distance_km c) 1.0%float); cbn;
      repeat split; auto; rewrite !length_app; cbn; lia.
Qed.

End ValidateLocation.

(** [validate_location] always returns its full report, never the shorter
    dictionary of its handler.  The report is unsafe exactly when
    [check_point_in_polygon] answers [True]; it then carries the record
    and risk level that [get_zone_info] returns, and otherwise risk level
    0 and no zone, also when the zone lookup failed.  Its nearby zones are
    those of [get_nearby_zones] for a radius of 2 km, and it holds as many
    recommendations as warnings. *)
Theorem validate_location_report
    (_calculate_distance : float -> float -> float -> float -> result float)
    (format_1f : float -> string)
    (red_zones : list RedZone.zone) (lat lng : float) :
  exists report,
    RedZone.validate_location _calculate_distance format_1f red_zones lat lng
    = Ok (RedZone.Validated report) /\
    RedZone.vl_coordinates report = (lat, lng) /\
    RedZone.check_point_in_polygon red_zones lat lng
    = Ok (negb (RedZone.vl_is_safe report)) /\
    (if RedZone.vl_is_safe report
     then RedZone.vl_risk_level report = 0 /\
          RedZone.vl_zone_info report = None
     else exists info,
          RedZone.get_zone_info red_zones lat lng = Ok (Some info) /\
          RedZone.vl_zone_info report = Some info /\
          RedZone.vl_risk_level report = RedZone.zi_risk_level info) /\
    RedZone.get_nearby_zones _calculate_distance red_zones lat lng 2.0
    = Ok (RedZone.vl_nearby_zones report) /\
    length (RedZone.vl_warnings report)
    = length (RedZone.vl_recommendations report).
Proof.
  unfold RedZone.validate_location.
  destruct (try_except_total
              (RedZone.nearby_zones_sorted _calculate_distance red_zones
                 lat lng 2.0) []) as [l Hl].
  fold (RedZone.get_nearby_zones _calculate_distance red_zones lat lng 2.0)
    in Hl.
  pose proof (check_point_loop_zone_info_loop lat lng red_zones) as Hq.
  unfold RedZone.check_point_in_polygon, RedZone.get_zone_info.
  rewrite Hl. cbn [mbind result_bind Py.bind Py.try_except].
  destruct (RedZone.check_point_loop lat lng red_zones) as [[]|e].
  - destruct Hq as (info & -> & Hb).
    cbn [mbind result_bind Py.bind Py.try_except RedZone.report_breach].
    rewrite Hb.
    destruct (report_nearby_keeps format_1f l
                (RedZone.Validation (lat, lng) false
                   (RedZone.zi_risk_level info) (Some info) []
                   ["You are in a restricted " +:+
                    RedZone.zi_zone_type info +:+ " zone"]
                   ["Exit the area immediately and contact authorities"]))
      as (K1 & K2 & K3 & K4 & K5 & K6).
    eexists. split; [reflexivity|].
    rewrite K1, K2, K3, K4, (K5 eq_refl), (K6 eq_refl). cbn.
    repeat split. exists info. auto.
  - rewrite Hq.
    cbn [mbind result_bind Py.bind Py.try_except RedZone.report_breach
         RedZone.safe_area RedZone.zi_breach_detected].
    destruct (report_nearby_keeps format_1f l
                (RedZone.Validation (lat, lng) true 0 None [] [] []))
      as (K1 & K2 & K3 & K4 & K5 & K6).
    eexists. split; [reflexivity|].
    rewrite K1, K2, K3, K4, (K5 eq_refl), (K6 eq_refl). cbn. auto.
  - rewrite Hq.
    cbn [mbind result_bind Py.bind Py.try_except RedZone.report_breach].
    destruct (report_nearby_keeps format_1f l
                (RedZone.Validation (lat, lng) true 0 None [] [] []))
      as (K1 & K2 & K3 & K4 & K5 & K6).
    eexists. split; [reflexivity|].
    rewrite K1, K2, K3, K4, (K5 eq_refl), (K6 eq_refl). cbn. auto.
Qed.

(** ** Indicator checks and short histories *)

Section ShortHistory.

Import RuleBased.

Variable _calculate_distance : float -> float -> float -> float -> result float.
Variable _calculate_bearing : location -> location -> result float.

Lemma last_n_length_le {A} (n : nat) (l : list A) :
  (length (last_n n l) <= length l)%nat.
Proof. unfold last_n. rewrite length_drop. lia. Qed.

Lemma prolonged_inactivity_needs_two (self : system) (user_id : string)
    (threshold_hours : float) :
  (length (_get_user_history self user_id).2 < 2)%nat ->
  _check_prolonged_inactivity _calculate_distance self user_id
    threshold_hours = false.
Proof.
  intros H. unfold _check_prolonged_inactivity.
  destruct (_get_user_history self user_id).2 as [|x l] eqn:E;
    [reflexivity|].
  pose proof (last_n_length_le 20 (x :: l)) as Hl.
  replace (length (last_n 20 (x :: l)) <? 2)%nat with true
    by (symmetry; apply Nat.ltb_lt; lia).
  reflexivity.
Qed.

Lemma erratic_movement_needs_five (self : system) (user_id : string) :
  (length (_get_user_history self user_id).2 < 5)%nat ->
  _check_erratic_movement _calculate_bearing self user_id = false.
Proof.
  intros H. unfold _check_erratic_movement.
  pose proof (last_n_length_le 10 (_get_user_history self user_id).2) as Hl.
  replace (length (last_n 10 _) <? 5)%nat with true
    by (symmetry; apply Nat.ltb_lt; lia).
  reflexivity.
Qed.

Lemma unusual_location_needs_ten (self : system) (user_id : string)
    (current_location : location) :
  (length (_get_user_history self user_id).2 < 10)%nat ->
  _check_unusual_location _calculate_distance self user_id current_location
  = false.
Proof.
  intros H. unfold _check_unusual_location. rewrite length_fmap.
  replace (length _ <? 10)%nat with true
    by (symmetry; apply Nat.ltb_lt; lia).
  reflexivity.
Qed.

Lemma signal_loss_needs_five (self : system) (user_id : string) :
  (length (_get_user_history self user_id).1 < 5)%nat ->
  _check_signal_loss_pattern self user_id = false.
Proof.
  intros H. unfold _check_signal_loss_pattern.
  replace (length _ <? 5)%nat with true
    by (symmetry; apply Nat.ltb_lt; lia).
  reflexivity.
Qed.

End ShortHistory.

Section DistressSilent.

Import RuleBased.

Variable c1 : system -> string -> float -> bool.
Variable c2 : system -> string -> bool.
Variable c3 : system -> string -> location -> bool.
Variable c4 : system -> string -> bool.

(** With at most one of the second and third checks out of the picture and
    one more check negative, fewer than two indicators are left. *)
Lemma distress_silent (self : system) (now : timestamp) (user_id : string)
    (data : sensor_data) :
  c2 self user_id = false ->
  (forall loc, c3 self user_id loc = false) ->
  (forall th, c1 self user_id th = false) \/ c4 self user_id = false ->
  _detect_distress_rule_based c1 c2 c3 c4 self now user_id data = Ok None.
Proof.
  intros H2 H3 H14. unfold _detect_distress_rule_based, distress_indicators.
  destruct (th_distress (detection_thresholds self)) as [th|];
    [|reflexivity].
  cbn [Py.getitem mbind result_bind Py.bind]. rewrite H2.
  destruct H14 as [H1|H4]; [rewrite H1|rewrite H4];
    destruct (sd_location data) as [loc|]; rewrite ?H3;
    try destruct (c4 self user_id);
    try destruct (c1 self user_id (distress_stationary_duration th));
    vm_compute; reflexivity.
Qed.

End DistressSilent.

(** The distress detector stays silent for a user with fewer than two
    buffered locations, and for a user with fewer than five buffered
    locations and fewer than five buffered batches, whatever the incoming
    batch and the data gaps. *)
Theorem no_distress_on_short_history
    (_calculate_distance : float -> float -> float -> float -> result float)
    (_calculate_bearing :
       RuleBased.location -> RuleBased.location -> result float)
    (self : RuleBased.system) (now : RuleBased.timestamp) (user_id : string)
    (data : RuleBased.sensor_data) :
  let history := RuleBased._get_user_history self user_id in
  (length history.2 < 2)%nat \/
  ((length history.2 < 5)%nat /\ (length history.1 < 5)%nat) ->
  RuleBased.detect_distress _calculate_distance _calculate_bearing
    self now user_id data = Ok None.
Proof.
  intros history H. unfold RuleBased.detect_distress.
  apply distress_silent.
  - apply erratic_movement_needs_five. subst history. lia.
  - intros loc. apply unusual_location_needs_ten. subst history. lia.
  - destruct H as [H|[_ H]].
    + left. intros th. apply prolonged_inactivity_needs_two. exact H.
    + right. apply signal_loss_needs_five. exact H.
Qed.

(** Six batches without location, one hour apart: the signal-loss check
    holds, and the detector stays silent. *)
Lemma no_distress_on_short_history_witness :
  RuleBased._check_signal_loss_pattern hourly_batches "tourist" = true /\
  (length (RuleBased._get_user_history hourly_batches "tourist").2 < 2)%nat /\
  RuleBased.detect_distress zero_distance zero_bearing hourly_batches
    (RuleBased.hours 5) "tourist" empty_batch = Ok None.
Proof.
  split; [vm_compute; reflexivity|].
  assert (H : (length (RuleBased._get_user_history hourly_batches
                         "tourist").2 < 2)%nat)
    by (vm_compute; lia).
  split; [exact H|].
  exact (no_distress_on_short_history zero_distance zero_bearing
           hourly_batches (RuleBased.hours 5) "tourist" empty_batch
           (or_introl H)).
Defined.

(** ** What the detectors put in an alert *)

Section AlertShape.

Import RuleBased.

Context {libm : Libm}.

Lemma try_except_Some {A} (body : result (option A)) (a : A) :
  try_except body (fun _ => Ok None) = Ok (Some a) -> body = Ok (Some a).
Proof. destruct body; cbn; congruence. Qed.

Ltac alert_inv H :=
  repeat first
    [ apply bind_Ok in H as (? & ? & H)
    | match type of H with
      | (if ?b then _ else _) = _ => destruct b; try discriminate H
      | match ?m with _ => _ end = _ => destruct m; try discriminate H
      end ].

Lemma fall_alert_shape (self : system) (now : timestamp) (user_id : string)
    (imu_data : list imu_sample) (a : alert) :
  _detect_fall_rule_based self now user_id imu_data = Ok (Some a) ->
  a_alert_type a = fall_detected /\ a_priority a = critical /\
  a_confidence a = 0.75%float /\ tagged user_id a.
Proof.
  unfold _detect_fall_rule_based, tagged. intros H.
  apply try_except_Some in H. alert_inv H.
  injection H as <-. cbn. auto.
Qed.

Lemma crash_alert_shape (self : system) (now_recent now_alert : timestamp)
    (user_id : string) (data : sensor_data) (a : alert) :
  _detect_crash_rule_based self now_recent now_alert user_id data
  = Ok (Some a) ->
  a_alert_type a = crash_detected /\ a_priority a = critical /\
  a_confidence a = 0.8%float /\ tagged user_id a.
Proof.
  unfold _detect_crash_rule_based, tagged. intros H.
  apply try_except_Some in H. alert_inv H.
  injection H as <-. cbn. auto.
Qed.

Variable c1 : system -> string -> float -> bool.
Variable c2 : system -> string -> bool.
Variable c3 : system -> string -> location -> bool.
Variable c4 : system -> string -> bool.

Lemma distress_alert_shape (self : system) (now : timestamp)
    (user_id : string) (data : sensor_data) (a : alert) :
  _detect_distress_rule_based c1 c2 c3 c4 self now user_id data
  = Ok (Some a) ->
  a_alert_type a = distress_detected /\ a_priority a = medium /\
  Py.le 0.4 (a_confidence a) = true /\ Py.le (a_confidence a) 0.9 = true /\
  tagged user_id a.
Proof.
  unfold _detect_distress_rule_based, distress_indicators, tagged.
  destruct (th_distress (detection_thresholds self)) as [th|];
    [|discriminate].
  cbn [Py.getitem mbind result_bind Py.bind].
  destruct (c1 self user_id _), (c2 self user_id), (c4 self user_id),
    (sd_location data) as [loc|];
    try destruct (c3 self user_id loc);
    vm_compute; intros H; try discriminate H;
    injection H as <-; repeat split.
Qed.

Lemma detect_fall_total (self : system) (now : timestamp) (user_id : string)
    (imu_data : list imu_sample) :
  exists r, _detect_fall_rule_based self now user_id imu_data = Ok r.
Proof. apply try_except_total. Qed.

Lemma detect_crash_total (self : system) (now_recent now_alert : timestamp)
    (user_id : string) (data : sensor_data) :
  exists r,
    _detect_crash_rule_based self now_recent now_alert user_id data = Ok r.
Proof. apply try_except_total. Qed.

Lemma detect_distress_total (self : system) (now : timestamp)
    (user_id : string) (data : sensor_data) :
  exists r,
    _detect_distress_rule_based c1 c2 c3 c4 self now user_id data = Ok r.
Proof. apply try_except_total. Qed.

Lemma append_alert_option_list (a : option alert) (alerts : list alert) :
  append_alert a alerts = alerts ++ option_list a.
Proof. destruct a; cbn; [reflexivity|]. rewrite app_nil_r. reflexivity. Qed.

End AlertShape.

(** [process_data] never raises and returns at most one alert per detector,
    in the order fall, crash, distress.  A fall alert is critical with
    confidence 0.75 and needs a non-empty IMU batch; a crash alert is
    critical with confidence 0.8 and needs IMU data and a location; a
    distress alert is of medium priority with a confidence between 0.4 and
    0.9.  Every alert names the user and the rule-based method. *)
Theorem process_data_alerts {libm : RuleBased.Libm}
    (c1 : RuleBased.system -> string -> float -> bool)
    (c2 : RuleBased.system -> string -> bool)
    (c3 : RuleBased.system -> string -> RuleBased.location -> bool)
    (c4 : RuleBased.system -> string -> bool)
    (clk : RuleBased.process_clock) (self : RuleBased.system)
    (user_id : string) (data : RuleBased.sensor_data) :
  exists fall crash distress : option RuleBased.alert,
    (RuleBased.process_data c1 c2 c3 c4 clk self user_id data).2
    = Ok (option_list fall ++ option_list crash ++ option_list distress) /\
    (forall a, fall = Some a ->
       RuleBased.a_alert_type a = RuleBased.fall_detected /\
       RuleBased.a_priority a = RuleBased.critical /\
       RuleBased.a_confidence a = 0.75%float /\
       RuleBased.imu_present data <> None) /\
    (forall a, crash = Some a ->
       RuleBased.a_alert_type a = RuleBased.crash_detected /\
       RuleBased.a_priority a = RuleBased.critical /\
       RuleBased.a_confidence a = 0.8%float /\
       RuleBased.imu_present data <> None /\
       RuleBased.sd_location data <> None) /\
    (forall a, distress = Some a ->
       RuleBased.a_alert_type a = RuleBased.distress_detected /\
       RuleBased.a_priority a = RuleBased.medium /\
       Py.le 0.4 (RuleBased.a_confidence a) = true /\
       Py.le (RuleBased.a_confidence a) 0.9 = true) /\
    (forall a, a ∈ option_list fall ++ option_list crash ++ option_list distress ->
       tagged user_id a).
Proof.
  unfold RuleBased.process_data. cbn [snd].
  set (self2 := RuleBased._update_user_buffer _ _ _ _).
  destruct (detect_distress_total c1 c2 c3 c4 self2
              (RuleBased.pc_distress clk) user_id data) as [d Hd].
  assert (Hfall : exists fall,
    match RuleBased.imu_present data with
    | Some imu =>
        fall_alert ← RuleBased._detect_fall_rule_based self2
                       (RuleBased.pc_fall clk) user_id imu;
        Ok (RuleBased.append_alert fall_alert [])
    | None => Ok []
    end = Ok (option_list fall) /\
    (forall a, fall = Some a ->
       RuleBased.a_alert_type a = RuleBased.fall_detected /\
       RuleBased.a_priority a = RuleBased.critical /\
       RuleBased.a_confidence a = 0.75%float /\
       RuleBased.imu_present data <> None /\ tagged user_id a)).
  { destruct (RuleBased.imu_present data) as [imu|].
    - destruct (detect_fall_total self2 (RuleBased.pc_fall clk) user_id imu)
        as [f Hf].
      exists f. rewrite Hf. cbn [mbind result_bind Py.bind].
      rewrite append_alert_option_list. split; [reflexivity|].
      intros a ->. destruct (fall_alert_shape _ _ _ _ _ Hf) as (?&?&?&[? ?]).
      repeat split; auto; discriminate.
    - exists None. split; [reflexivity|]. discriminate. }
  destruct Hfall as (fall & -> & Hf).
  cbn [mbind result_bind Py.bind].
  assert (Hcrash : exists crash,
    match RuleBased.imu_present data, RuleBased.sd_location data with
    | Some _, Some _ =>
        crash_alert ← RuleBased._detect_crash_rule_based self2
                        (RuleBased.pc_crash_recent clk)
                        (RuleBased.pc_crash_alert clk) user_id data;
        Ok (RuleBased.append_alert crash_alert (option_list fall))
    | _, _ => Ok (option_list fall)
    end = Ok (option_list fall ++ option_list crash) /\
    (forall a, crash = Some a ->
       RuleBased.a_alert_type a = RuleBased.crash_detected /\
       RuleBased.a_priority a = RuleBased.critical /\
       RuleBased.a_confidence a = 0.8%float /\
       RuleBased.imu_present data <> None /\
       RuleBased.sd_location data <> None /\ tagged user_id a)).
  { destruct (RuleBased.imu_present data) as [imu|],
      (RuleBased.sd_location data) as [loc|];
      try (exists None; rewrite app_nil_r; split;
           [reflexivity|discriminate]).
    destruct (detect_crash_total self2 (RuleBased.pc_crash_recent clk)
                (RuleBased.pc_crash_alert clk) user_id data) as [c Hc].
    exists c. rewrite Hc. cbn [mbind result_bind Py.bind].
    rewrite append_alert_option_list. split; [reflexivity|].
    intros a ->. destruct (crash_alert_shape _ _ _ _ _ _ Hc) as (?&?&?&[? ?]).
    repeat split; auto; discriminate. }
  destruct Hcrash as (crash & -> & Hc).
  cbn [mbind result_bind Py.bind]. rewrite Hd.
  cbn [mbind result_bind Py.bind Py.try_except].
  rewrite append_alert_option_list, <- app_assoc.
  exists fall, crash, d. split; [reflexivity|].
  split; [intros a Ha; destruct (Hf a Ha) as (?&?&?&?&?); auto|].
  split; [intros a Ha; destruct (Hc a Ha) as (?&?&?&?&?&?); auto|].
  split.
  - intros a ->. destruct (distress_alert_shape _ _ _ _ _ _ _ _ _ Hd)
      as (?&?&?&?&?). auto.
  - intros a Ha. rewrite !elem_of_app in Ha.
    destruct Ha as [Ha|[Ha|Ha]]; destruct fall, crash, d; cbn in Ha;
      try (inversion Ha; fail);
      apply list_elem_of_singleton in Ha; subst.
    all: first [ exact (proj2 (proj2 (proj2 (proj2 (Hf _ eq_refl)))))
               | exact (proj2 (proj2 (proj2 (proj2 (proj2 (Hc _ eq_refl))))))
               | exact (proj2 (proj2 (proj2 (proj2
                   (distress_alert_shape _ _ _ _ _ _ _ _ _ Hd))))) ].
Qed.

(** ** Buffer updates *)

Section UpdateEffects.

Import RuleBased.

Context {libm : Libm}.

Lemma history_initialize (self : system) (user_id : string) :
  _get_user_history (initialize self) user_id
  = _get_user_history self user_id.
Proof. reflexivity. Qed.

Lemma update_history_sizes (clk : update_clock) (self : system)
    (user_id : string) (data : sensor_data) :
  let before := _get_user_history self user_id in
  let after :=
    _get_user_history (_update_user_buffer clk self user_id data) user_id in
  (length after.1 <= length before.1 + 1)%nat /\
  (length after.2 <= length before.2 + 1)%nat.
Proof.
  unfold _get_user_history, _update_user_buffer. cbn [user_data_buffer].
  rewrite lookup_insert_eq. cbn [fst snd data_history locations].
  split.
  - etransitivity; [apply length_filter|]. rewrite length_app. cbn.
    destruct (user_data_buffer self !! user_id); cbn; lia.
  - destruct (sd_location data).
    + etransitivity; [apply last_n_length_le|]. rewrite length_app. cbn.
      destruct (user_data_buffer self !! user_id); cbn; lia.
    + destruct (user_data_buffer self !! user_id); cbn; lia.
Qed.

Lemma recent_data_length (self : system) (now : timestamp)
    (user_id : string) (secs : Z) :
  (length (_get_recent_user_data self now user_id secs)
   <= length (_get_user_history self user_id).1)%nat.
Proof.
  unfold _get_recent_user_data, _get_user_history.
  destruct (user_data_buffer self !! user_id); cbn; [|lia].
  rewrite length_fmap. apply length_filter.
Qed.

Lemma crash_needs_five_batches (self : system)
    (now_recent now_alert : timestamp) (user_id : string)
    (data : sensor_data) :
  (length (_get_user_history self user_id).1 < 5)%nat ->
  _detect_crash_rule_based self now_recent now_alert user_id data = Ok None.
Proof.
  intros H. unfold _detect_crash_rule_based.
  destruct (Py.getitem _) as [th|]; [|reflexivity].
  cbn [mbind result_bind Py.bind].
  pose proof (recent_data_length self now_recent user_id 30) as Hl.
  replace (length _ <? 5)%nat with true
    by (symmetry; apply Nat.ltb_lt; lia).
  reflexivity.
Qed.

End UpdateEffects.

(** While a user has fewer than four buffered batches and fewer than four
    buffered locations before the call (a new user included),
    [process_data] returns nothing but fall alerts: the crash and distress
    detectors need more history. *)
Theorem early_batches_only_fall_alerts {libm : RuleBased.Libm}
    (_calculate_distance : float -> float -> float -> float -> result float)
    (_calculate_bearing :
       RuleBased.location -> RuleBased.location -> result float)
    (clk : RuleBased.process_clock) (self : RuleBased.system)
    (user_id : string) (data : RuleBased.sensor_data) :
  (length (RuleBased._get_user_history self user_id).1 < 4)%nat ->
  (length (RuleBased._get_user_history self user_id).2 < 4)%nat ->
  exists alerts,
    (RuleBased.process _calculate_distance _calculate_bearing
       clk self user_id data).2 = Ok alerts /\
    Forall (fun a => RuleBased.a_alert_type a = RuleBased.fall_detected)
           alerts.
Proof.
  intros H1 H2. unfold RuleBased.process, RuleBased.process_data. cbn [snd].
  set (self1 := if RuleBased.is_initialized self then self
                else RuleBased.initialize self).
  set (self2 := RuleBased._update_user_buffer _ self1 _ _).
  assert (Hsame : RuleBased._get_user_history self1 user_id
                  = RuleBased._get_user_history self user_id).
  { subst self1. destruct (RuleBased.is_initialized self); reflexivity. }
  destruct (update_history_sizes (RuleBased.pc_update clk) self1 user_id data)
    as [S1 S2]. fold self2 in S1, S2. rewrite Hsame in S1, S2.
  rewrite (crash_needs_five_batches self2) by lia.
  rewrite (distress_silent _ _ _ _ self2).
  - destruct (RuleBased.imu_present data) as [imu|].
    + destruct (detect_fall_total self2 (RuleBased.pc_fall clk) user_id imu)
        as [[a|] Hf]; rewrite Hf; cbn;
        destruct (RuleBased.sd_location data); cbn; eexists;
        (split; [reflexivity|]); repeat constructor.
      all: exact (proj1 (fall_alert_shape _ _ _ _ _ Hf)).
    + cbn. eexists. split; [reflexivity|]. constructor.
  - apply erratic_movement_needs_five. lia.
  - intros loc. apply unusual_location_needs_ten. lia.
  - right. apply signal_loss_needs_five. lia.
Qed.

(** The first batch of a new user, shaped as a fall. *)
Lemma early_batches_only_fall_alerts_witness :
  let clk := RuleBased.ProcessClock (clock_at 0) 0 0 0 0 in
  let data :=
    RuleBased.SensorData
      (Some (ten_sample_fall ++ [sample_of_magnitude 1]))
      (Some (tourist_location 0)) in
  (length (RuleBased._get_user_history RuleBased.init "tourist").1 < 4)%nat /\
  (length (RuleBased._get_user_history RuleBased.init "tourist").2 < 4)%nat /\
  exists alerts,
    (RuleBased.process (libm := rounded_product) zero_distance zero_bearing
       clk RuleBased.init "tourist" data).2 = Ok alerts /\
    Forall (fun a => RuleBased.a_alert_type a = RuleBased.fall_detected)
           alerts.
Proof.
  cbv zeta. split; [vm_compute; lia|]. split; [vm_compute; lia|].
  apply early_batches_only_fall_alerts; vm_compute; lia.
Defined.

Example first_batch_fall_alert :
  let clk := RuleBased.ProcessClock (clock_at 0) 0 0 0 0 in
  let data :=
    RuleBased.SensorData
      (Some (ten_sample_fall ++ [sample_of_magnitude 1]))
      (Some (tourist_location 0)) in
  exists a,
    (RuleBased.process (libm := rounded_product) zero_distance zero_bearing
       clk RuleBased.init "tourist" data).2 = Ok [a] /\
    RuleBased.a_alert_type a = RuleBased.fall_detected.
Proof. cbv zeta. eexists. vm_compute. split; reflexivity. Qed.

(** [process_data] for one user leaves the buffers of all other users as
    they were, and leaves the detector initialized. *)
Theorem process_data_other_users_untouched {libm : RuleBased.Libm}
    (c1 : RuleBased.system -> string -> float -> bool)
    (c2 : RuleBased.system -> string -> bool)
    (c3 : RuleBased.system -> string -> RuleBased.location -> bool)
    (c4 : RuleBased.system -> string -> bool)
    (clk : RuleBased.process_clock) (self : RuleBased.system)
    (user_id other : string) (data : RuleBased.sensor_data) :
  other <> user_id ->
  let self' := (RuleBased.process_data c1 c2 c3 c4 clk self user_id data).1 in
  RuleBased.user_data_buffer self' !! other
  = RuleBased.user_data_buffer self !! other /\
  RuleBased.is_ready self' = true.
Proof.
  intros Hne. unfold RuleBased.process_data. cbn [fst].
  unfold RuleBased._update_user_buffer. cbn.
  rewrite lookup_insert_ne by congruence.
  destruct (RuleBased.is_initialized self) eqn:E; cbn; auto.
Qed.

Lemma process_data_other_users_untouched_witness :
  let clk := RuleBased.ProcessClock (clock_at (RuleBased.hours 6)) 0 0 0 0 in
  let self' :=
    (RuleBased.process_data (libm := rounded_product)
       (fun _ _ _ => false) (fun _ _ => false)
       (fun _ _ _ => false) (fun _ _ => false) clk hourly_batches
       "visitor" empty_batch).1 in
  "tourist" <> "visitor" /\
  RuleBased.user_data_buffer self' !! "tourist"
  = RuleBased.user_data_buffer hourly_batches !! "tourist" /\
  RuleBased.is_ready self' = true.
Proof.
  cbv zeta. split; [discriminate|].
  apply process_data_other_users_untouched. discriminate.
Defined.

Section Appended.

Import RuleBased.

Lemma last_last_n {A} (n : nat) (l : list A) (x : A) :
  (0 < n)%nat -> last (last_n n (l ++ [x])) = Some x.
Proof.
  intros Hn. unfold last_n. rewrite length_app. cbn.
  rewrite drop_app_le by lia.
  rewrite last_app. reflexivity.
Qed.

End Appended.

(** [_update_user_buffer] puts the incoming batch last in the user's
    history, and its location last in the location history, provided the
    clock read for the entry is less than 24 hours behind the clock read
    for the cutoff. *)
Theorem update_appends_current_batch
    (clk : RuleBased.update_clock) (self : RuleBased.system)
    (user_id : string) (data : RuleBased.sensor_data) :
  RuleBased.uc_cutoff clk - RuleBased.uc_appended clk < RuleBased.hours 24 ->
  exists b,
    RuleBased.user_data_buffer
      (RuleBased._update_user_buffer clk self user_id data) !! user_id
    = Some b /\
    last (RuleBased.data_history b)
    = Some (RuleBased.HistoryItem (RuleBased.uc_appended clk) data) /\
    RuleBased.last_activity b = RuleBased.uc_finished clk /\
    forall loc, RuleBased.sd_location data = Some loc ->
      last (RuleBased.locations b)
      = Some (RuleBased.LocationItem (RuleBased.uc_located clk) loc).
Proof.
  intros Hclk. unfold RuleBased._update_user_buffer.
  cbn [RuleBased.user_data_buffer].
  eexists. split; [apply lookup_insert_eq|].
  cbn [RuleBased.data_history RuleBased.locations RuleBased.last_activity].
  split; [|split; [reflexivity|]].
  - rewrite filter_app, filter_cons, decide_True by (cbn; lia).
    rewrite filter_nil, last_app. reflexivity.
  - intros loc ->. apply last_last_n. lia.
Qed.

Lemma update_appends_current_batch_witness :
  RuleBased.uc_cutoff (clock_at (RuleBased.hours 6))
  - RuleBased.uc_appended (clock_at (RuleBased.hours 6))
  < RuleBased.hours 24 /\
  exists b,
    RuleBased.user_data_buffer
      (RuleBased._update_user_buffer (clock_at (RuleBased.hours 6))
         hourly_batches "tourist" (located_batch 0)) !! "tourist"
    = Some b /\
    last (RuleBased.data_history b)
    = Some (RuleBased.HistoryItem (RuleBased.hours 6) (located_batch 0)) /\
    RuleBased.last_activity b = RuleBased.hours 6 /\
    forall loc, RuleBased.sd_location (located_batch 0) = Some loc ->
      last (RuleBased.locations b)
      = Some (RuleBased.LocationItem (RuleBased.hours 6) loc).
Proof.
  split; [vm_compute; reflexivity|].
  apply (update_appends_current_batch (clock_at (RuleBased.hours 6))
           hourly_batches "tourist" (located_batch 0)).
  vm_compute. reflexivity.
Defined.

(** ** Geographic utilities: nearby zones and coordinate checks *)

Section GeoNearby.

Import GeoUtilsMore.

Context {zone_dict : Type}.

Implicit Types (x y : @zone_with_distance zone_dict).
Implicit Types (l acc : list (@zone_with_distance zone_dict)).

Lemma elem_singleton {A} (a b : A) : a ∈ [b] -> a = b.
Proof. rewrite elem_of_cons, elem_of_nil. tauto. Qed.

Lemma geo_insert_perm x l : insert_by_distance x l ≡ₚ x :: l.
Proof.
  induction l as [|y l IH]; cbn [insert_by_distance]; [reflexivity|].
  destruct (Py.lt (distance_km y) (distance_km x)); [|reflexivity].
  rewrite IH. apply Permutation_swap.
Qed.

Lemma geo_sort_perm l : sort_by_distance l ≡ₚ l.
Proof.
  unfold sort_by_distance. induction l as [|x l IH]; cbn; [reflexivity|].
  rewrite geo_insert_perm, IH. reflexivity.
Qed.

Lemma geo_insert_sorted x l :
  PyNum.ordered (distance_km x) = true ->
  Forall (fun y => PyNum.ordered (distance_km y) = true) l ->
  by_distance l -> by_distance (insert_by_distance x l).
Proof.
  unfold by_distance. intros Hx Hl Hs.
  induction Hs as [|y l Hs IH Hy]; cbn [insert_by_distance].
  - constructor; constructor.
  - apply Forall_cons in Hl as [Hoy Hl].
    destruct (Py.lt (distance_km y) (distance_km x)) eqn:E.
    + constructor; [exact (IH Hl)|].
      rewrite geo_insert_perm. constructor; [apply lt_le, E|exact Hy].
    + assert (Hxy : Py.le (distance_km x) (distance_km y) = true)
        by (apply not_lt_le; assumption).
      constructor; [constructor; assumption|].
      constructor; [exact Hxy|].
      rewrite Forall_forall in Hy |- *. intros z Hz.
      exact (le_trans _ _ _ Hxy (Hy z Hz)).
Qed.

Lemma geo_sort_sorted l :
  Forall (fun y => PyNum.ordered (distance_km y) = true) l ->
  by_distance (sort_by_distance l).
Proof.
  unfold sort_by_distance. induction 1 as [|x l Hx Hl IH]; cbn.
  - constructor.
  - apply geo_insert_sorted; [exact Hx| |exact IH].
    fold (sort_by_distance l). rewrite geo_sort_perm. exact Hl.
Qed.

Variable calculate_distance : float -> float -> float -> float -> float.
Variable coordinates : zone_dict -> option polygon.
Variables lat lng max_distance_km : float.

Let within := within_distance calculate_distance coordinates lat lng
                max_distance_km.

Lemma within_cons (z : zone_dict) (zones : list zone_dict) x :
  within (z :: zones) x <-> within [z] x \/ within zones x.
Proof.
  unfold within, within_distance. rewrite !elem_of_cons, elem_of_nil.
  tauto.
Qed.

Lemma geo_nearby_loop_spec (zones : list zone_dict) acc :
  exists added,
    nearby_loop calculate_distance coordinates lat lng max_distance_km
      zones acc = Ok (acc ++ added) /\
    added.*1 `sublist_of` zones /\
    forall x, x ∈ added <-> within zones x.
Proof.
  revert acc. induction zones as [|z zones IH]; intros acc;
    cbn [nearby_loop].
  - exists []. rewrite app_nil_r. split; [reflexivity|].
    split; [constructor|]. intros x. rewrite elem_of_nil.
    unfold within, within_distance. rewrite elem_of_nil. tauto.
  - destruct (try_except_total
                (RedZone._calculate_polygon_center
                   (default [] (coordinates z))) (0%float, 0%float))
      as [c Hc].
    fold (get_polygon_center (default [] (coordinates z))) in Hc.
    rewrite Hc. cbn [mbind result_bind Py.bind].
    assert (Hnone : forall x, within [z] x -> False \/ within zones x ->
                              within zones x) by tauto.
    destruct (Py.eq c.1 0 && Py.eq c.2 0) eqn:E0.
    { destruct (IH acc) as (added & Hrun & Hsub & Hin).
      exists added. split; [exact Hrun|]. split; [constructor; exact Hsub|].
      intros x. rewrite Hin, within_cons. split; [tauto|].
      intros [(Hz & c' & Hc' & Hnz & _)|H]; [|exact H].
      apply elem_singleton in Hz. rewrite Hz in Hc'.
      congruence. }
    destruct (Py.le (calculate_distance lat lng c.1 c.2) max_distance_km)
      eqn:Ele.
    + destruct (IH (acc ++ [(z, calculate_distance lat lng c.1 c.2)]))
        as (added & Hrun & Hsub & Hin).
      exists ((z, calculate_distance lat lng c.1 c.2) :: added).
      split; [rewrite Hrun, <- app_assoc; reflexivity|].
      split; [cbn; constructor; exact Hsub|].
      intros x. rewrite elem_of_cons, Hin, within_cons.
      split; (intros [H|H]; [left|right; exact H]).
      * subst x. split; [cbn; left|]. exists c. cbn. auto.
      * destruct H as (Hz & c' & Hc' & _ & Hd & _).
        apply elem_singleton in Hz. destruct x as [z' d]. cbn in *.
        subst z'. rewrite Hc in Hc'. injection Hc' as <-. congruence.
    + destruct (IH acc) as (added & Hrun & Hsub & Hin).
      exists added. split; [exact Hrun|]. split; [constructor; exact Hsub|].
      intros x. rewrite Hin, within_cons. split; [tauto|].
      intros [(Hz & c' & Hc' & _ & Hd & Hle)|H]; [|exact H].
      apply elem_singleton in Hz. rewrite Hz, Hc in Hc'.
      injection Hc' as <-. congruence.
Qed.

End GeoNearby.

(** [get_nearby_zones] of the geographic utilities always returns a list.
    It holds exactly the zones whose centre is not (0, 0) and lies within
    the maximal distance, each once per occurrence and with its distance,
    in ascending order of distance; a zone without vertices is never in
    it. *)
Theorem geo_nearby_zones_skip_origin_centres {zone_dict : Type}
    (calculate_distance : float -> float -> float -> float -> float)
    (coordinates : zone_dict -> option polygon)
    (lat lng max_distance_km : float) (zones : list zone_dict) :
  exists l,
    GeoUtilsMore.get_nearby_zones calculate_distance coordinates lat lng
      zones max_distance_km = Ok l /\
    by_distance l /\
    l.*1 ⊆+ zones /\
    (forall e, e ∈ l <->
       within_distance calculate_distance coordinates lat lng
         max_distance_km zones e) /\
    Forall (fun e => default [] (coordinates e.1) <> []) l.
Proof.
  unfold GeoUtilsMore.get_nearby_zones.
  destruct (geo_nearby_loop_spec calculate_distance coordinates lat lng
              max_distance_km zones []) as (added & Hrun & Hsub & Hin).
  rewrite Hrun. cbn [mbind result_bind Py.bind Py.try_except app].
  eexists. split; [reflexivity|].
  split; [|split; [|split]].
  - apply geo_sort_sorted. apply Forall_forall. intros x Hx.
    apply Hin in Hx as (_ & c & _ & _ & _ & Hle).
    exact (le_ordered_l _ _ Hle).
  - rewrite geo_sort_perm. apply sublist_submseteq. exact Hsub.
  - intros e. rewrite geo_sort_perm. apply Hin.
  - apply Forall_forall. intros x Hx. rewrite geo_sort_perm in Hx.
    apply Hin in Hx as (_ & c & Hc & Hnz & _). intros Hempty.
    rewrite Hempty in Hc. injection Hc as <-. discriminate Hnz.
Qed.

Example geo_nearby_zones_numbered :
  GeoUtilsMore.get_nearby_zones (fun _ _ _ _ => 0%float)
    numbered_zone_coordinates 0 0 [1; 2; 3; 1]%nat 10
  = Ok [(1%nat, 0%float); (1%nat, 0%float)].
Proof. vm_compute. reflexivity. Qed.

(** A position that [is_in_rajasthan] accepts is a pair of valid
    coordinates for [validate_coordinates]. *)
Theorem rajasthan_positions_are_valid (lat lng : float) :
  GeoUtilsMore.is_in_rajasthan lat lng = true ->
  GeoUtilsMore.validate_coordinates lat lng = true.
Proof.
  unfold GeoUtilsMore.is_in_rajasthan, GeoUtilsMore.validate_coordinates.
  cbn [GeoUtilsMore.get_rajasthan_bounds GeoUtilsMore.min_lat
       GeoUtilsMore.max_lat GeoUtilsMore.min_lng GeoUtilsMore.max_lng].
  rewrite !andb_true_iff. intros [[H1 H2] [H3 H4]].
  repeat split.
  - refine (le_trans _ _ _ _ H1). vm_compute. reflexivity.
  - refine (le_trans _ _ _ H2 _). vm_compute. reflexivity.
  - refine (le_trans _ _ _ _ H3). vm_compute. reflexivity.
  - refine (le_trans _ _ _ H4 _). vm_compute. reflexivity.
Qed.

Lemma rajasthan_positions_are_valid_witness :
  GeoUtilsMore.is_in_rajasthan 26.9 75.78 = true /\
  GeoUtilsMore.validate_coordinates 26.9 75.78 = true.
Proof.
  split; [vm_compute; reflexivity|].
  apply rajasthan_positions_are_valid. vm_compute. reflexivity.
Defined.

(** ** Geographic utilities: the nearest major city *)

Section NearestCity.

Import GeoUtilsMore.

Variable calculate_distance : float -> float -> float -> float -> float.
Variables lat lng : float.

Let distance_to (c : city) : float :=
  calculate_distance lat lng (city_lat c) (city_lng c).

Lemma lt_irrefl (a : float) : Py.lt a a = false.
Proof.
  destruct (Py.lt a a) eqn:E; [|reflexivity].
  pose proof (lt_not_le _ _ E) as H1. pose proof (lt_le _ _ E) as H2.
  congruence.
Qed.

Lemma not_lt_below (a b c : float) :
  Py.lt a c = false -> Py.lt b c = true -> Py.lt a b = false.
Proof.
  intros Hac Hbc. destruct (Py.lt a b) eqn:E; [|reflexivity].
  pose proof (lt_le_trans _ _ _ E (lt_le _ _ Hbc)). congruence.
Qed.

(** What the loop has established once it has gone through [seen]. *)
Let nearest_among (seen : list city) (nearest : option (city * float))
  : Prop :=
  match nearest with
  | Some (c, d) =>
      c ∈ seen /\ d = distance_to c /\ Py.lt d infinity = true /\
      Forall (fun c' => Py.lt (distance_to c') d = false) seen
  | None => Forall (fun c' => Py.lt (distance_to c') infinity = false) seen
  end.

Lemma nearest_loop_spec (cities seen : list city)
    (nearest : option (city * float)) (min_distance : float) :
  min_distance = from_option snd infinity nearest ->
  nearest_among seen nearest ->
  nearest_among (seen ++ cities)
    (nearest_loop calculate_distance lat lng cities nearest min_distance).
Proof.
  revert seen nearest min_distance.
  induction cities as [|c cities IH]; intros seen nearest min_distance Hmin H;
    cbn [nearest_loop].
  - rewrite app_nil_r. exact H.
  - replace (seen ++ c :: cities) with ((seen ++ [c]) ++ cities)
      by (rewrite <- app_assoc; reflexivity).
    fold (distance_to c).
    destruct (Py.lt (distance_to c) min_distance) eqn:E.
    + apply IH; [reflexivity|]. cbn.
      split; [apply elem_of_app; right; left|]. split; [reflexivity|].
      destruct nearest as [[c0 d0]|]; cbn in Hmin, H; subst min_distance.
      * destruct H as (_ & _ & Hinf & Hall).
        split; [exact (lt_le_trans _ _ _ E (lt_le _ _ Hinf))|].
        apply Forall_app. split; [|repeat constructor; apply lt_irrefl].
        eapply Forall_impl; [exact Hall|]. cbn. intros c' Hc'.
        exact (not_lt_below _ _ _ Hc' E).
      * split; [exact E|].
        apply Forall_app. split; [|repeat constructor; apply lt_irrefl].
        eapply Forall_impl; [exact H|]. cbn. intros c' Hc'.
        exact (not_lt_below _ _ _ Hc' E).
    + apply IH; [exact Hmin|].
      destruct nearest as [[c0 d0]|]; cbn in Hmin, H |- *; subst min_distance.
      * destruct H as (Hin & Hd & Hinf & Hall).
        split; [apply elem_of_app; left; exact Hin|].
        split; [exact Hd|]. split; [exact Hinf|].
        apply Forall_app. split; [exact Hall|]. repeat constructor. exact E.
      * apply Forall_app. split; [exact H|]. repeat constructor. exact E.
Qed.

End NearestCity.

(** [get_nearest_major_city] answers with a city of its list, with its
    distance, and no city of the list is strictly nearer; it answers
    'Unknown' exactly when no city has a distance below infinity (all
    distances infinite or not numbers). *)
Theorem nearest_major_city_is_nearest
    (calculate_distance : float -> float -> float -> float -> float)
    (lat lng : float) :
  let distance_to c :=
    calculate_distance lat lng (GeoUtilsMore.city_lat c)
      (GeoUtilsMore.city_lng c) in
  match GeoUtilsMore.get_nearest_major_city calculate_distance lat lng with
  | GeoUtilsMore.CityWithDistance c d =>
      c ∈ GeoUtilsMore.major_cities /\ d = distance_to c /\
      Py.lt d infinity = true /\
      Forall (fun c' => Py.lt (distance_to c') d = false)
             GeoUtilsMore.major_cities
  | GeoUtilsMore.UnknownCity =>
      Forall (fun c' => Py.lt (distance_to c') infinity = false)
             GeoUtilsMore.major_cities
  end.
Proof.
  cbv zeta. unfold GeoUtilsMore.get_nearest_major_city.
  pose proof (nearest_loop_spec calculate_distance lat lng
                GeoUtilsMore.major_cities [] None infinity eq_refl) as H.
  cbn [app] in H. specialize (H (List.Forall_nil _)).
  destruct (GeoUtilsMore.nearest_loop _ _ _ _ _ _) as [[c d]|]; exact H.
Qed.

Example nearest_major_city_first_of_ties :
  GeoUtilsMore.get_nearest_major_city (fun _ _ _ _ => 0%float) 26.9 75.78
  = GeoUtilsMore.CityWithDistance
      (GeoUtilsMore.City "Jaipur" 26.9124 75.7873) 0.
Proof. vm_compute. reflexivity. Qed.

Example nearest_major_city_unknown :
  GeoUtilsMore.get_nearest_major_city (fun _ _ _ _ => nan) 26.9 75.78
  = GeoUtilsMore.UnknownCity.
Proof. vm_compute. reflexivity. Qed.
